(** * claude-memory-mcp, server v2.7.0: the request handler over the SQLite store

    A shallow embedding of the tool-call handler of the 2.7.0 server
    (the file with [upsertSessionWithWorkspace] and [getTier]).

    - The five SQLite tables are lists of rows in rowid order; every
      prepared statement is a function on the store.  NULL is [None];
      comparisons with NULL never match; TEXT compares byte by byte.
    - Timestamps are the texts the code stores and compares:
      [CURRENT_TIMESTAMP] writes [YYYY-MM-DD HH:MM:SS], [toISOString]
      yields [YYYY-MM-DDTHH:mm:ss.sssZ].
    - A thrown JavaScript exception is the [Throw] outcome of a small
      state-and-error monad; what was written before the throw stays written.
    - An argument is [undefined], [null] or a value of the primitive type
      its input schema declares; numbers that arrive through JSON are
      rationals.  better-sqlite3 binds [undefined] and [null] as NULL and
      refuses a call with the wrong number of values.
    - The host (clock, Firestore, [Date] parsing, number formatting,
      [JSON.parse]) is a record the handler reads.  [syncToCloud] catches its
      own errors and writes nothing locally, so only its flag shows, in the
      result text. *)

From Stdlib Require Import List String Ascii ZArith QArith Bool Lia.
From Stdlib Require Import Sorted Permutation DecimalString.
Import ListNotations.

Local Open Scope string_scope.
Local Open Scope Z_scope.

(** ** JavaScript values of an argument map *)

Module Js.

(** One argument of the request: absent, JSON [null], or a value of the
    primitive type the tool's input schema declares. *)
Inductive arg (A : Type) : Type :=
| undefined : arg A
| null : arg A
| val : A -> arg A.
Arguments undefined {A}.
Arguments null {A}.
Arguments val {A} _.

(** Truthiness of a string: every string but the empty one. *)
Definition truthy_str (a : arg string) : bool :=
  match a with
  | val s => negb (s =? "")%string
  | _ => false
  end.

(** [a || null] on a string argument, as a bound SQL value. *)
Definition or_null (a : arg string) : option string :=
  match a with
  | val s => if (s =? "")%string then None else Some s
  | _ => None
  end.

(** [a || dflt] on a string argument. *)
Definition or_str (a : arg string) (dflt : string) : string :=
  match a with
  | val s => if (s =? "")%string then dflt else s
  | _ => dflt
  end.

(** [a || dflt] on an integral number argument. *)
Definition or_num (a : arg Z) (dflt : Z) : Z :=
  match a with
  | val n => if n =? 0 then dflt else n
  | _ => dflt
  end.

(** better-sqlite3 binds both [undefined] and [null] as SQL NULL. *)
Definition bind {A : Type} (a : arg A) : option A :=
  match a with
  | val x => Some x
  | _ => None
  end.

(** A string argument inside a template literal. *)
Definition tmpl (a : arg string) : string :=
  match a with
  | undefined => "undefined"
  | null => "null"
  | val s => s
  end.

(** A nullable column inside a template literal. *)
Definition tmpl_col (c : option string) : string :=
  match c with
  | Some s => s
  | None => "null"
  end.

(** [c || dflt] on a nullable text column. *)
Definition col_or (c : option string) (dflt : string) : string :=
  match c with
  | Some s => if (s =? "")%string then dflt else s
  | None => dflt
  end.

Definition col_truthy (c : option string) : bool :=
  match c with
  | Some s => negb (s =? "")%string
  | None => false
  end.

End Js.
Export Js.

(** ** Numbers and dates as text *)

Module Text.

(** Decimal rendering of an integer, as [String(n)] does for integral
    numbers. *)
Definition of_Z (n : Z) : string := NilZero.string_of_int (Z.to_int n).

Fixpoint repeat0 (n : nat) : string :=
  match n with
  | O => ""
  | S k => "0" ++ repeat0 k
  end.

(** [String(n).padStart(w, "0")] for a non-negative [n]. *)
Definition pad (w : nat) (n : Z) : string :=
  let s := of_Z n in
  repeat0 (w - String.length s) ++ s.

(** Days since 1970-01-01 to the proleptic Gregorian (year, month, day). *)
Definition civil_from_days (z : Z) : Z * Z * Z :=
  let z := z + 719468 in
  let era := z / 146097 in
  let doe := z - era * 146097 in
  let yoe := (doe - doe / 1460 + doe / 36524 - doe / 146096) / 365 in
  let doy := doe - (365 * yoe + yoe / 4 - yoe / 100) in
  let mp := (5 * doy + 2) / 153 in
  let d := doy - (153 * mp + 2) / 5 + 1 in
  let m := if mp <? 10 then mp + 3 else mp - 9 in
  let y := yoe + era * 400 in
  (if m <=? 2 then y + 1 else y, m, d).

Definition ms_per_day : Z := 1000 * 60 * 60 * 24.

Definition date_part (ms : Z) : string :=
  let '(y, m, d) := civil_from_days (ms / ms_per_day) in
  let ys := if (0 <=? y) && (y <=? 9999) then pad 4 y
            else if y <? 0 then "-" ++ pad 6 (- y) else "+" ++ pad 6 y in
  ys ++ "-" ++ pad 2 m ++ "-" ++ pad 2 d.

Definition time_part (ms : Z) : string :=
  let r := ms mod ms_per_day in
  pad 2 (r / 3600000) ++ ":" ++ pad 2 (r / 60000 mod 60) ++ ":" ++
  pad 2 (r / 1000 mod 60).

(** [new Date(ms).toISOString()]: [YYYY-MM-DDTHH:mm:ss.sssZ], a RangeError
    outside the time range of [Date]. *)
Definition toISOString (ms : Z) : option string :=
  if (Z.abs ms <=? 8640000000000000) then
    Some (date_part ms ++ "T" ++ time_part ms ++ "." ++ pad 3 (ms mod 1000) ++ "Z")
  else None.

(** SQLite's [CURRENT_TIMESTAMP]: [YYYY-MM-DD HH:MM:SS] in UTC. *)
Definition current_timestamp (ms : Z) : string :=
  date_part ms ++ " " ++ time_part ms.

(** [new Date().toISOString().split("T")[0]]. *)
Definition today (ms : Z) : string := date_part ms.

End Text.

(** ** SQL values, comparison, LIKE, ORDER BY, LIMIT *)

Module Sql.

(** [a = b] in a WHERE clause: NULL on either side is not a match. *)
Definition eq_text (a b : option string) : bool :=
  match a, b with
  | Some x, Some y => (x =? y)%string
  | _, _ => false
  end.

Definition eq_int (a b : option Z) : bool :=
  match a, b with
  | Some x, Some y => x =? y
  | _, _ => false
  end.

(** [a < b] on TEXT values (BINARY collation), NULL is not a match. *)
Definition lt_text (a b : option string) : bool :=
  match a, b with
  | Some x, Some y => String.ltb x y
  | _, _ => false
  end.

Definition is_upper (c : ascii) : bool :=
  let n := N_of_ascii c in ((65 <=? n) && (n <=? 90))%N.

Definition lower (c : ascii) : ascii :=
  if is_upper c then ascii_of_N (N_of_ascii c + 32) else c.

(** LIKE compares ASCII letters without case. *)
Definition eq_nocase (c d : ascii) : bool := Ascii.eqb (lower c) (lower d).

(** [s LIKE p]: [%] is any run of characters, [_] any one character. *)
Fixpoint like_match (p s : string) {struct p} : bool :=
  match p with
  | EmptyString => match s with EmptyString => true | String _ _ => false end
  | String c p' =>
      if Ascii.eqb c "%" then
        (fix star (s : string) : bool :=
           like_match p' s ||
           match s with
           | EmptyString => false
           | String _ s' => star s'
           end) s
      else
        match s with
        | EmptyString => false
        | String d s' =>
            (if Ascii.eqb c "_" then true else eq_nocase c d) && like_match p' s'
        end
  end.

(** [col LIKE pat] in a WHERE clause: a NULL column is not a match. *)
Definition like (col : option string) (pat : string) : bool :=
  match col with
  | Some s => like_match pat s
  | None => false
  end.

(** Comparison of nullable columns: NULL sorts below every value. *)
Definition cmp_null {A : Type} (cmp : A -> A -> comparison)
  (a b : option A) : comparison :=
  match a, b with
  | None, None => Eq
  | None, Some _ => Lt
  | Some _, None => Gt
  | Some x, Some y => cmp x y
  end.

(** [ORDER BY k1 DESC, k2 DESC]: [x] may stand before [y]. *)
Definition desc2 {R : Type} (k1 : R -> option Q) (k2 : R -> option string)
  (x y : R) : bool :=
  match cmp_null Qcompare (k1 x) (k1 y) with
  | Gt => true
  | Lt => false
  | Eq => match cmp_null String.compare (k2 x) (k2 y) with
          | Lt => false
          | _ => true
          end
  end.

(** [ORDER BY k DESC]. *)
Definition desc1 {R : Type} (k : R -> option string) (x y : R) : bool :=
  match cmp_null String.compare (k x) (k y) with
  | Lt => false
  | _ => true
  end.

(** The sorter.  SQLite leaves the order of rows with equal keys open;
    here they keep their rowid order. *)
Fixpoint insert_by {R : Type} (le : R -> R -> bool) (x : R) (l : list R) : list R :=
  match l with
  | [] => [x]
  | y :: l' => if le x y then x :: y :: l' else y :: insert_by le x l'
  end.

Definition order_by {R : Type} (le : R -> R -> bool) (l : list R) : list R :=
  fold_right (insert_by le) [] l.

(** [LIMIT n]: a negative [n] is no limit. *)
Definition limit {R : Type} (n : Z) (l : list R) : list R :=
  if n <? 0 then l else firstn (Z.to_nat n) l.

(** AUTOINCREMENT: one more than the largest rowid ever used. *)
Definition next_id (seq : Z) (ids : list Z) : Z :=
  fold_right Z.max seq ids + 1.

End Sql.

(** ** The tables *)

Module Decision.
Record t := mk
  { date : string; decision : string; rationale : option string;
    category : option string }.
End Decision.

Module Error.
Record t := mk
  { error_pattern : string; solution : string; context : option string;
    category : option string }.
End Error.

Module Learning.
Record t := mk { category : string; content : string }.
End Learning.

(** A row of one of the three archivable tables.  [project] is
    [NOT NULL] for decisions and errors (the inserts enforce it) and
    nullable for learnings; the remaining columns were added by the
    migrations and are shared by the three tables. *)
Record Row (B : Type) := mkRow
  { id : Z;
    project : option string;
    body : B;
    created_at : option string;
    synced_at : option string;
    archived : option Z;
    priority : option Q;
    access_count : option Z;
    last_accessed : option string }.
Arguments mkRow {B}.
Arguments id {B}.
Arguments project {B}.
Arguments body {B}.
Arguments created_at {B}.
Arguments synced_at {B}.
Arguments archived {B}.
Arguments priority {B}.
Arguments access_count {B}.
Arguments last_accessed {B}.

Module Context.
Record t := mk
  { id : Z; project : string; key : string; value : string;
    updated_at : option string; synced_at : option string }.
End Context.

Module Session.
Record t := mk
  { id : Z; project : string; workspace : option string; task : string;
    status : option string; notes : option string;
    updated_at : option string; synced_at : option string }.
End Session.

(** The database: the five tables in rowid order and the AUTOINCREMENT
    counters of [sqlite_sequence]. *)
Record Store := mkStore
  { decisions : list (Row Decision.t);
    errors : list (Row Error.t);
    context : list Context.t;
    learnings : list (Row Learning.t);
    sessions : list Session.t;
    seq_decisions : Z;
    seq_errors : Z;
    seq_context : Z;
    seq_learnings : Z;
    seq_sessions : Z }.

Definition empty_store : Store := mkStore [] [] [] [] [] 0 0 0 0 0.

(** ** Outcomes: a returned value or a thrown exception *)

Inductive outcome (A : Type) : Type :=
| Ok : A -> outcome A
| Throw : string -> outcome A.
Arguments Ok {A} _.
Arguments Throw {A} _.

(** Statements run against the one database handle; what a statement
    wrote stays written when a later statement throws. *)
Definition M (A : Type) : Type := Store -> outcome A * Store.

Definition ret {A : Type} (a : A) : M A := fun st => (Ok a, st).
Definition throw {A : Type} (msg : string) : M A := fun st => (Throw msg, st).
Definition bindM {A B : Type} (m : M A) (k : A -> M B) : M B :=
  fun st =>
    match m st with
    | (Ok a, st') => k a st'
    | (Throw e, st') => (Throw e, st')
    end.
(** [try { m } catch (e) { h(e.message) }]. *)
Definition try_catch {A : Type} (m : M A) (h : string -> M A) : M A :=
  fun st =>
    match m st with
    | (Ok a, st') => (Ok a, st')
    | (Throw e, st') => h e st'
    end.
Definition get_store : M Store := fun st => (Ok st, st).
Definition put_store (st : Store) : M unit := fun _ => (Ok tt, st).

Declare Scope m_scope.
Delimit Scope m_scope with M.
Notation "x <- m ;; k" := (bindM m (fun x => k))
  (at level 61, m at next level, right associativity) : m_scope.
Notation "m ;;; k" := (bindM m (fun _ => k))
  (at level 61, right associativity) : m_scope.

(** ** The request and the host *)

Module Args.
(** The argument map of a tool call, one field per property that some
    tool's input schema declares. *)
Record t := mk
  { project : arg string;
    decision : arg string;
    rationale : arg string;
    date : arg string;
    category : arg string;
    search : arg string;
    limit : arg Z;
    error_pattern : arg string;
    solution : arg string;
    context : arg string;
    error : arg string;
    key : arg string;
    value : arg string;
    content : arg string;
    query : arg string;
    workspace : arg string;
    task : arg string;
    status : arg string;
    notes : arg string;
    include_global : arg bool;
    type : arg string;
    id : arg Z;
    priority : arg Q;
    days : arg Z;
    include_archived : arg bool;
    json_data : arg string;
    older_than_days : arg Z;
    archived_only : arg bool }.

(** The empty argument map [{}]. *)
Definition none : t :=
  mk undefined undefined undefined undefined undefined undefined undefined
     undefined undefined undefined undefined undefined undefined undefined
     undefined undefined undefined undefined undefined undefined undefined
     undefined undefined undefined undefined undefined undefined undefined.

(** [{ ...a, field: v }]: an argument map with one more property. *)
Definition with_project (v : arg string) (a : t) : t :=
  mk v (decision a) (rationale a) (date a) (category a) (search a) (limit a)
    (error_pattern a) (solution a) (context a) (error a) (key a) (value a)
    (content a) (query a) (workspace a) (task a) (status a) (notes a)
    (include_global a) (type a) (id a) (priority a) (days a) (include_archived a)
    (json_data a) (older_than_days a) (archived_only a).
Definition with_decision (v : arg string) (a : t) : t :=
  mk (project a) v (rationale a) (date a) (category a) (search a) (limit a)
    (error_pattern a) (solution a) (context a) (error a) (key a) (value a)
    (content a) (query a) (workspace a) (task a) (status a) (notes a)
    (include_global a) (type a) (id a) (priority a) (days a) (include_archived a)
    (json_data a) (older_than_days a) (archived_only a).
Definition with_rationale (v : arg string) (a : t) : t :=
  mk (project a) (decision a) v (date a) (category a) (search a) (limit a)
    (error_pattern a) (solution a) (context a) (error a) (key a) (value a)
    (content a) (query a) (workspace a) (task a) (status a) (notes a)
    (include_global a) (type a) (id a) (priority a) (days a) (include_archived a)
    (json_data a) (older_than_days a) (archived_only a).
Definition with_date (v : arg string) (a : t) : t :=
  mk (project a) (decision a) (rationale a) v (category a) (search a) (limit a)
    (error_pattern a) (solution a) (context a) (error a) (key a) (value a)
    (content a) (query a) (workspace a) (task a) (status a) (notes a)
    (include_global a) (type a) (id a) (priority a) (days a) (include_archived a)
    (json_data a) (older_than_days a) (archived_only a).
Definition with_search (v : arg string) (a : t) : t :=
  mk (project a) (decision a) (rationale a) (date a) (category a) v (limit a)
    (error_pattern a) (solution a) (context a) (error a) (key a) (value a)
    (content a) (query a) (workspace a) (task a) (status a) (notes a)
    (include_global a) (type a) (id a) (priority a) (days a) (include_archived a)
    (json_data a) (older_than_days a) (archived_only a).
Definition with_limit (v : arg Z) (a : t) : t :=
  mk (project a) (decision a) (rationale a) (date a) (category a) (search a) v
    (error_pattern a) (solution a) (context a) (error a) (key a) (value a)
    (content a) (query a) (workspace a) (task a) (status a) (notes a)
    (include_global a) (type a) (id a) (priority a) (days a) (include_archived a)
    (json_data a) (older_than_days a) (archived_only a).
Definition with_error_pattern (v : arg string) (a : t) : t :=
  mk (project a) (decision a) (rationale a) (date a) (category a) (search a)
    (limit a) v (solution a) (context a) (error a) (key a) (value a) (content a)
    (query a) (workspace a) (task a) (status a) (notes a) (include_global a)
    (type a) (id a) (priority a) (days a) (include_archived a) (json_data a)
    (older_than_days a) (archived_only a).
Definition with_solution (v : arg string) (a : t) : t :=
  mk (project a) (decision a) (rationale a) (date a) (category a) (search a)
    (limit a) (error_pattern a) v (context a) (error a) (key a) (value a)
    (content a) (query a) (workspace a) (task a) (status a) (notes a)
    (include_global a) (type a) (id a) (priority a) (days a) (include_archived a)
    (json_data a) (older_than_days a) (archived_only a).
Definition with_error (v : arg string) (a : t) : t :=
  mk (project a) (decision a) (rationale a) (date a) (category a) (search a)
    (limit a) (error_pattern a) (solution a) (context a) v (key a) (value a)
    (content a) (query a) (workspace a) (task a) (status a) (notes a)
    (include_global a) (type a) (id a) (priority a) (days a) (include_archived a)
    (json_data a) (older_than_days a) (archived_only a).
Definition with_key (v : arg string) (a : t) : t :=
  mk (project a) (decision a) (rationale a) (date a) (category a) (search a)
    (limit a) (error_pattern a) (solution a) (context a) (error a) v (value a)
    (content a) (query a) (workspace a) (task a) (status a) (notes a)
    (include_global a) (type a) (id a) (priority a) (days a) (include_archived a)
    (json_data a) (older_than_days a) (archived_only a).
Definition with_value (v : arg string) (a : t) : t :=
  mk (project a) (decision a) (rationale a) (date a) (category a) (search a)
    (limit a) (error_pattern a) (solution a) (context a) (error a) (key a) v
    (content a) (query a) (workspace a) (task a) (status a) (notes a)
    (include_global a) (type a) (id a) (priority a) (days a) (include_archived a)
    (json_data a) (older_than_days a) (archived_only a).
Definition with_workspace (v : arg string) (a : t) : t :=
  mk (project a) (decision a) (rationale a) (date a) (category a) (search a)
    (limit a) (error_pattern a) (solution a) (context a) (error a) (key a) (value a)
    (content a) (query a) v (task a) (status a) (notes a) (include_global a)
    (type a) (id a) (priority a) (days a) (include_archived a) (json_data a)
    (older_than_days a) (archived_only a).
Definition with_task (v : arg string) (a : t) : t :=
  mk (project a) (decision a) (rationale a) (date a) (category a) (search a)
    (limit a) (error_pattern a) (solution a) (context a) (error a) (key a) (value a)
    (content a) (query a) (workspace a) v (status a) (notes a) (include_global a)
    (type a) (id a) (priority a) (days a) (include_archived a) (json_data a)
    (older_than_days a) (archived_only a).
Definition with_type (v : arg string) (a : t) : t :=
  mk (project a) (decision a) (rationale a) (date a) (category a) (search a)
    (limit a) (error_pattern a) (solution a) (context a) (error a) (key a) (value a)
    (content a) (query a) (workspace a) (task a) (status a) (notes a)
    (include_global a) v (id a) (priority a) (days a) (include_archived a)
    (json_data a) (older_than_days a) (archived_only a).
Definition with_id (v : arg Z) (a : t) : t :=
  mk (project a) (decision a) (rationale a) (date a) (category a) (search a)
    (limit a) (error_pattern a) (solution a) (context a) (error a) (key a) (value a)
    (content a) (query a) (workspace a) (task a) (status a) (notes a)
    (include_global a) (type a) v (priority a) (days a) (include_archived a)
    (json_data a) (older_than_days a) (archived_only a).
Definition with_priority (v : arg Q) (a : t) : t :=
  mk (project a) (decision a) (rationale a) (date a) (category a) (search a)
    (limit a) (error_pattern a) (solution a) (context a) (error a) (key a) (value a)
    (content a) (query a) (workspace a) (task a) (status a) (notes a)
    (include_global a) (type a) (id a) v (days a) (include_archived a) (json_data a)
    (older_than_days a) (archived_only a).
Definition with_days (v : arg Z) (a : t) : t :=
  mk (project a) (decision a) (rationale a) (date a) (category a) (search a)
    (limit a) (error_pattern a) (solution a) (context a) (error a) (key a) (value a)
    (content a) (query a) (workspace a) (task a) (status a) (notes a)
    (include_global a) (type a) (id a) (priority a) v (include_archived a)
    (json_data a) (older_than_days a) (archived_only a).
End Args.

(** Objects read from an export document or pulled from Firestore: the
    properties the import code reads. *)
Module Doc.
Record decision := mkDecision
  { d_project : arg string; d_date : arg string; d_decision : arg string;
    d_rationale : arg string }.
Record error := mkError
  { e_project : arg string; e_error_pattern : arg string;
    e_solution : arg string; e_context : arg string }.
Record context := mkContext
  { c_project : arg string; c_key : arg string; c_value : arg string }.
Record learning := mkLearning
  { l_project : arg string; l_category : arg string; l_content : arg string }.
Record session := mkSession
  { s_project : arg string; s_task : arg string; s_status : arg string;
    s_notes : arg string }.
(** A parsed export document; an absent array or session is [None]. *)
Record t := mk
  { decisions : option (list decision);
    errors : option (list error);
    context_items : option (list context);
    learnings : option (list learning);
    session_obj : option session }.
(** What [pullFromCloud] returned for each collection. *)
Record cloud := mkCloud
  { cloud_decisions : list decision;
    cloud_errors : list error;
    cloud_context : list context;
    cloud_learnings : list learning;
    cloud_sessions : list session }.
End Doc.

(** The object [export_memory] builds for [JSON.stringify]. *)
Record Export := mkExport
  { x_project : arg string;
    x_exported_at : string;
    x_decisions : list (Row Decision.t);
    x_errors : list (Row Error.t);
    x_context : list Context.t;
    x_learnings : list (Row Learning.t);
    x_session : option Session.t }.

(** What the handler reads from outside the database during one request. *)
Record Host := mkHost
  { now : Z;                                  (* the clock, epoch milliseconds *)
    firestoreSync : bool;                     (* Firestore sync was initialised *)
    pullFromCloud : arg string -> Doc.cloud;  (* the remote documents of a project *)
    Date_parse : string -> option Z;          (* [new Date(text)], [None] when invalid *)
    toLocaleDateString : Z -> string;
    Number_toString : Q -> string;            (* a non-integral number as text *)
    JSON_parse : arg string -> string + Doc.t;(* the SyntaxError message, or the document *)
    JSON_stringify : Export -> string;
    dbSize : string }.                        (* [statSync(dbPath)] rendered *)

(** ** Prepared statements *)

Section Statements.

Variable h : Host.

Definition CURRENT_TIMESTAMP : option string := Some (Text.current_timestamp (now h)).

Definition upd_decisions (l : list (Row Decision.t)) (st : Store) : Store :=
  mkStore l (errors st) (context st) (learnings st) (sessions st)
    (seq_decisions st) (seq_errors st) (seq_context st) (seq_learnings st) (seq_sessions st).
Definition upd_errors (l : list (Row Error.t)) (st : Store) : Store :=
  mkStore (decisions st) l (context st) (learnings st) (sessions st)
    (seq_decisions st) (seq_errors st) (seq_context st) (seq_learnings st) (seq_sessions st).
Definition upd_context (l : list Context.t) (st : Store) : Store :=
  mkStore (decisions st) (errors st) l (learnings st) (sessions st)
    (seq_decisions st) (seq_errors st) (seq_context st) (seq_learnings st) (seq_sessions st).
Definition upd_learnings (l : list (Row Learning.t)) (st : Store) : Store :=
  mkStore (decisions st) (errors st) (context st) l (sessions st)
    (seq_decisions st) (seq_errors st) (seq_context st) (seq_learnings st) (seq_sessions st).
Definition upd_sessions (l : list Session.t) (st : Store) : Store :=
  mkStore (decisions st) (errors st) (context st) (learnings st) l
    (seq_decisions st) (seq_errors st) (seq_context st) (seq_learnings st) (seq_sessions st).

(** A freshly inserted row: the column defaults of the schema. *)
Definition new_row {B : Type} (i : Z) (p : option string) (b : B) : Row B :=
  mkRow i p b CURRENT_TIMESTAMP None (Some 0) (Some 0%Q) (Some 0) None.

(** better-sqlite3 refuses a call whose number of values differs from
    the number of [?] of the statement. *)
Definition arity_error {A : Type} (expected : nat) (params : list (option string)) : M A :=
  if (List.length params <? expected)%nat
  then throw "Too few parameter values were provided"
  else throw "Too many parameter values were provided".

(** [INSERT INTO decisions (project, date, decision, rationale, category)
    VALUES (?, ?, ?, ?, ?)]; returns [lastInsertRowid]. *)
Definition insertDecision (params : list (option string)) : M Z :=
  match params with
  | [p; d; dec; rat; cat] =>
      match p, d, dec with
      | None, _, _ => throw "NOT NULL constraint failed: decisions.project"
      | Some _, None, _ => throw "NOT NULL constraint failed: decisions.date"
      | Some _, Some _, None => throw "NOT NULL constraint failed: decisions.decision"
      | Some _, Some d', Some dec' =>
          fun st =>
            let i := Sql.next_id (seq_decisions st) (map id (decisions st)) in
            let r := new_row i p (Decision.mk d' dec' rat cat) in
            (Ok i,
             mkStore (decisions st ++ [r]) (errors st) (context st) (learnings st)
               (sessions st) i (seq_errors st) (seq_context st) (seq_learnings st)
               (seq_sessions st))
      end
  | _ => arity_error 5 params
  end.

(** [INSERT INTO errors (project, error_pattern, solution, context, category)
    VALUES (?, ?, ?, ?, ?)]. *)
Definition insertError (params : list (option string)) : M Z :=
  match params with
  | [p; pat; sol; ctx; cat] =>
      match p, pat, sol with
      | None, _, _ => throw "NOT NULL constraint failed: errors.project"
      | Some _, None, _ => throw "NOT NULL constraint failed: errors.error_pattern"
      | Some _, Some _, None => throw "NOT NULL constraint failed: errors.solution"
      | Some _, Some pat', Some sol' =>
          fun st =>
            let i := Sql.next_id (seq_errors st) (map id (errors st)) in
            let r := new_row i p (Error.mk pat' sol' ctx cat) in
            (Ok i,
             mkStore (decisions st) (errors st ++ [r]) (context st) (learnings st)
               (sessions st) (seq_decisions st) i (seq_context st) (seq_learnings st)
               (seq_sessions st))
      end
  | _ => arity_error 5 params
  end.

(** [INSERT INTO learnings (project, category, content) VALUES (?, ?, ?)]. *)
Definition insertLearning (p cat c : option string) : M Z :=
  match cat, c with
  | None, _ => throw "NOT NULL constraint failed: learnings.category"
  | Some _, None => throw "NOT NULL constraint failed: learnings.content"
  | Some cat', Some c' =>
      fun st =>
        let i := Sql.next_id (seq_learnings st) (map id (learnings st)) in
        let r := new_row i p (Learning.mk cat' c') in
        (Ok i,
         mkStore (decisions st) (errors st) (context st) (learnings st ++ [r])
           (sessions st) (seq_decisions st) (seq_errors st) (seq_context st) i
           (seq_sessions st))
  end.

(** [archived IS NULL OR archived = 0]. *)
Definition not_archived {B : Type} (r : Row B) : bool :=
  match archived r with
  | None => true
  | Some a => a =? 0
  end.

(** [archived = 1]. *)
Definition is_archived {B : Type} (r : Row B) : bool :=
  Sql.eq_int (archived r) (Some 1).

Definition by_priority_date : Row Decision.t -> Row Decision.t -> bool :=
  Sql.desc2 priority (fun r => Some (Decision.date (body r))).

Definition by_priority_created {B : Type} : Row B -> Row B -> bool :=
  Sql.desc2 priority created_at.

(** [SELECT * FROM decisions WHERE project = ? AND (archived IS NULL OR
    archived = 0) ORDER BY priority DESC, date DESC LIMIT ?]. *)
Definition getDecisions (p : option string) (lim : Z) (st : Store) : list (Row Decision.t) :=
  Sql.limit lim
    (Sql.order_by by_priority_date
       (filter (fun r => Sql.eq_text (project r) p && not_archived r) (decisions st))).

Definition getDecisionsByCategory (p cat : option string) (lim : Z) (st : Store)
  : list (Row Decision.t) :=
  Sql.limit lim
    (Sql.order_by by_priority_date
       (filter (fun r => Sql.eq_text (project r) p
                         && Sql.eq_text (Decision.category (body r)) cat
                         && not_archived r) (decisions st))).

(** [... AND (decision LIKE ? OR rationale LIKE ?) ORDER BY priority DESC,
    date DESC], without a limit. *)
Definition searchDecisions (p : option string) (pat1 pat2 : string) (st : Store)
  : list (Row Decision.t) :=
  Sql.order_by by_priority_date
    (filter (fun r => Sql.eq_text (project r) p && not_archived r
                      && (Sql.like (Some (Decision.decision (body r))) pat1
                          || Sql.like (Decision.rationale (body r)) pat2))
       (decisions st)).

Definition findSolution (p : option string) (pat : string) (st : Store)
  : list (Row Error.t) :=
  Sql.limit 5
    (Sql.order_by by_priority_created
       (filter (fun r => Sql.eq_text (project r) p && not_archived r
                         && Sql.like (Some (Error.error_pattern (body r))) pat)
          (errors st))).

Definition findSolutionByCategory (p cat : option string) (pat : string) (st : Store)
  : list (Row Error.t) :=
  Sql.limit 5
    (Sql.order_by by_priority_created
       (filter (fun r => Sql.eq_text (project r) p
                         && Sql.eq_text (Error.category (body r)) cat
                         && not_archived r
                         && Sql.like (Some (Error.error_pattern (body r))) pat)
          (errors st))).

Definition getRecentErrors (p : option string) (lim : Z) (st : Store) : list (Row Error.t) :=
  Sql.limit lim
    (Sql.order_by by_priority_created
       (filter (fun r => Sql.eq_text (project r) p && not_archived r) (errors st))).

(** [project = ? OR project IS NULL]. *)
Definition project_or_global {B : Type} (p : option string) (r : Row B) : bool :=
  Sql.eq_text (project r) p || match project r with None => true | Some _ => false end.

Definition getLearnings (p : option string) (lim : Z) (st : Store) : list (Row Learning.t) :=
  Sql.limit lim
    (Sql.order_by by_priority_created
       (filter (fun r => project_or_global p r && not_archived r) (learnings st))).

Definition searchLearnings (p : option string) (pat : string) (st : Store)
  : list (Row Learning.t) :=
  Sql.order_by by_priority_created
    (filter (fun r => project_or_global p r && not_archived r
                      && Sql.like (Some (Learning.content (body r))) pat)
       (learnings st)).

(** [SELECT * FROM learnings WHERE project IS NULL AND (archived IS NULL OR
    archived = 0) ORDER BY created_at DESC LIMIT n]. *)
Definition globalLearnings (lim : Z) (st : Store) : list (Row Learning.t) :=
  Sql.limit lim
    (Sql.order_by (Sql.desc1 created_at)
       (filter (fun r => match project r with None => true | Some _ => false end
                         && not_archived r) (learnings st))).

(** [INSERT INTO context (project, key, value, updated_at) VALUES (?, ?, ?,
    CURRENT_TIMESTAMP) ON CONFLICT(project, key) DO UPDATE SET value =
    excluded.value, updated_at = CURRENT_TIMESTAMP]. *)
Definition same_key (p k : string) (c : Context.t) : bool :=
  (Context.project c =? p)%string && (Context.key c =? k)%string.

Definition upsertContext (p k v : option string) : M unit :=
  match p, k, v with
  | None, _, _ => throw "NOT NULL constraint failed: context.project"
  | Some _, None, _ => throw "NOT NULL constraint failed: context.key"
  | Some _, Some _, None => throw "NOT NULL constraint failed: context.value"
  | Some p', Some k', Some v' =>
      fun st =>
        if existsb (same_key p' k') (context st) then
          (Ok tt,
           upd_context
             (map (fun c =>
                     if same_key p' k' c
                     then Context.mk (Context.id c) (Context.project c) (Context.key c)
                            v' CURRENT_TIMESTAMP (Context.synced_at c)
                     else c) (context st)) st)
        else
          let i := Sql.next_id (seq_context st) (map Context.id (context st)) in
          (Ok tt,
           mkStore (decisions st) (errors st)
             (context st ++ [Context.mk i p' k' v' CURRENT_TIMESTAMP None])
             (learnings st) (sessions st) (seq_decisions st) (seq_errors st) i
             (seq_learnings st) (seq_sessions st))
  end.

(** [SELECT key, value FROM context WHERE project = ?]. *)
Definition getContext (p : option string) (st : Store) : list Context.t :=
  filter (fun c => Sql.eq_text (Some (Context.project c)) p) (context st).

(** [SELECT value FROM context WHERE project = ? AND key = ?], first row. *)
Definition getContextValue (p k : option string) (st : Store) : option Context.t :=
  hd_error
    (filter (fun c => Sql.eq_text (Some (Context.project c)) p
                      && Sql.eq_text (Some (Context.key c)) k) (context st)).

(** A DELETE: the rows that stay, and [changes]. *)
Definition delete_where {R : Type} (f : R -> bool) (l : list R) : list R * Z :=
  (filter (fun r => negb (f r)) l, Z.of_nat (List.length (filter f l))).

(** [DELETE FROM context WHERE project = ? AND key = ?]. *)
Definition deleteContext (p k : option string) : M Z :=
  fun st =>
    let '(rest, n) :=
      delete_where (fun c => Sql.eq_text (Some (Context.project c)) p
                             && Sql.eq_text (Some (Context.key c)) k) (context st) in
    (Ok n, upd_context rest st).

(** The UNIQUE(project, workspace) index: SQLite treats every NULL as
    distinct from every other value, NULL included, so a row whose
    workspace is NULL never conflicts. *)
Definition session_conflict (p : string) (w : option string) (s : Session.t) : bool :=
  (Session.project s =? p)%string && Sql.eq_text (Session.workspace s) w.

(** [INSERT INTO sessions (project, workspace, task, status, notes,
    updated_at) VALUES (?, ?, ?, ?, ?, CURRENT_TIMESTAMP) ON
    CONFLICT(project, workspace) DO UPDATE SET task = excluded.task, status =
    excluded.status, notes = excluded.notes, updated_at = CURRENT_TIMESTAMP]. *)
Definition upsertSessionWithWorkspace (p w t s n : option string) : M unit :=
  match p, t with
  | None, _ => throw "NOT NULL constraint failed: sessions.project"
  | Some _, None => throw "NOT NULL constraint failed: sessions.task"
  | Some p', Some t' =>
      fun st =>
        if existsb (session_conflict p' w) (sessions st) then
          (Ok tt,
           upd_sessions
             (map (fun x =>
                     if session_conflict p' w x
                     then Session.mk (Session.id x) (Session.project x)
                            (Session.workspace x) t' s n CURRENT_TIMESTAMP
                            (Session.synced_at x)
                     else x) (sessions st)) st)
        else
          let i := Sql.next_id (seq_sessions st) (map Session.id (sessions st)) in
          (Ok tt,
           mkStore (decisions st) (errors st) (context st) (learnings st)
             (sessions st ++ [Session.mk i p' w t' s n CURRENT_TIMESTAMP None])
             (seq_decisions st) (seq_errors st) (seq_context st)
             (seq_learnings st) i)
  end.

(** [project = ? AND (workspace = ? OR (workspace IS NULL AND ? IS NULL))]. *)
Definition session_at (p w : option string) (s : Session.t) : bool :=
  Sql.eq_text (Some (Session.project s)) p
  && (Sql.eq_text (Session.workspace s) w
      || match Session.workspace s, w with None, None => true | _, _ => false end).

Definition getSessionWithWorkspace (p w : option string) (st : Store) : option Session.t :=
  hd_error (filter (session_at p w) (sessions st)).

Definition deleteSessionWithWorkspace (p w : option string) : M Z :=
  fun st =>
    let '(rest, n) := delete_where (session_at p w) (sessions st) in
    (Ok n, upd_sessions rest st).

(** [SELECT * FROM sessions WHERE project = ? ORDER BY updated_at DESC]. *)
Definition getAllSessionsForProject (p : option string) (st : Store) : list Session.t :=
  Sql.order_by (Sql.desc1 Session.updated_at)
    (filter (fun s => Sql.eq_text (Some (Session.project s)) p) (sessions st)).

(** [DELETE FROM sessions WHERE project = ?]. *)
Definition deleteSessionsOfProject (p : option string) : M Z :=
  fun st =>
    let '(rest, n) :=
      delete_where (fun s => Sql.eq_text (Some (Session.project s)) p) (sessions st) in
    (Ok n, upd_sessions rest st).

(** [UPDATE t SET access_count = COALESCE(access_count, 0) + 1,
    last_accessed = CURRENT_TIMESTAMP WHERE id = ?]. *)
Definition touch {B : Type} (r : Row B) : Row B :=
  mkRow (id r) (project r) (body r) (created_at r) (synced_at r) (archived r)
    (priority r)
    (Some (match access_count r with Some n => n | None => 0 end + 1))
    CURRENT_TIMESTAMP.

Definition track_access {B : Type} (i : Z) (l : list (Row B)) : list (Row B) :=
  map (fun r => if id r =? i then touch r else r) l.

Definition trackDecisionAccess (i : Z) : M unit :=
  fun st => (Ok tt, upd_decisions (track_access i (decisions st)) st).
Definition trackErrorAccess (i : Z) : M unit :=
  fun st => (Ok tt, upd_errors (track_access i (errors st)) st).
Definition trackLearningAccess (i : Z) : M unit :=
  fun st => (Ok tt, upd_learnings (track_access i (learnings st)) st).

(** [results.forEach(r => track.run(r.id))]. *)
Fixpoint forEach {A : Type} (f : A -> M unit) (l : list A) : M unit :=
  match l with
  | [] => ret tt
  | x :: l' => bindM (f x) (fun _ => forEach f l')
  end.

(** [UPDATE t SET archived = 1 WHERE id = ?] and [UPDATE t SET priority = ?
    WHERE id = ?]: the new rows and [changes]. *)
Definition set_archived {B : Type} (r : Row B) : Row B :=
  mkRow (id r) (project r) (body r) (created_at r) (synced_at r) (Some 1)
    (priority r) (access_count r) (last_accessed r).

Definition set_row_priority {B : Type} (q : option Q) (r : Row B) : Row B :=
  mkRow (id r) (project r) (body r) (created_at r) (synced_at r) (archived r)
    q (access_count r) (last_accessed r).

Definition update_where_id {B : Type} (f : Row B -> Row B) (i : option Z)
  (l : list (Row B)) : list (Row B) * Z :=
  (map (fun r => if Sql.eq_int (Some (id r)) i then f r else r) l,
   Z.of_nat (List.length (filter (fun r => Sql.eq_int (Some (id r)) i) l))).

(** The three archivable tables, as [tableMap] names them. *)
Inductive table : Type := Decisions | Errors | Learnings.

Definition table_name (t : table) : string :=
  match t with
  | Decisions => "decisions"
  | Errors => "errors"
  | Learnings => "learnings"
  end.

Definition update_table (t : table) (f : forall B : Type, Row B -> Row B)
  (i : option Z) : M Z :=
  fun st =>
    match t with
    | Decisions =>
        let '(l, n) := update_where_id (f _) i (decisions st) in (Ok n, upd_decisions l st)
    | Errors =>
        let '(l, n) := update_where_id (f _) i (errors st) in (Ok n, upd_errors l st)
    | Learnings =>
        let '(l, n) := update_where_id (f _) i (learnings st) in (Ok n, upd_learnings l st)
    end.

(** [DELETE FROM t WHERE cond], for a condition on the shared columns. *)
Definition delete_table (t : table) (f : forall B : Type, Row B -> bool) : M Z :=
  fun st =>
    match t with
    | Decisions =>
        let '(l, n) := delete_where (f _) (decisions st) in (Ok n, upd_decisions l st)
    | Errors =>
        let '(l, n) := delete_where (f _) (errors st) in (Ok n, upd_errors l st)
    | Learnings =>
        let '(l, n) := delete_where (f _) (learnings st) in (Ok n, upd_learnings l st)
    end.

End Statements.

(** ** The tool cases *)

Section Handler.

Variable h : Host.

Definition nl : string := String (ascii_of_nat 10) "".

Definition join (sep : string) (l : list string) : string := String.concat sep l.

Definition count {A : Type} (l : list A) : Z := Z.of_nat (List.length l).

(** A number inside a template literal. *)
Definition num_text (q : Q) : string :=
  let r := Qred q in
  if (Z.pos (Qden r) =? 1) then Text.of_Z (Qnum r) else Number_toString h q.

Definition tmpl_num (a : arg Z) : string :=
  match a with
  | undefined => "undefined"
  | null => "null"
  | val n => Text.of_Z n
  end.

Definition synced : string := if firestoreSync h then " (synced)" else "".

(** [getTimeAgo(timestamp)]. *)
Definition getTimeAgo (timestamp : option string) : string :=
  let then_ := match timestamp with
               | None => Some 0
               | Some s => Date_parse h s
               end in
  match then_ with
  | None => "Invalid Date"
  | Some t =>
      let diffMs := now h - t in
      let diffMins := diffMs / 60000 in
      let diffHours := diffMs / 3600000 in
      let diffDays := diffMs / 86400000 in
      if diffMins <? 1 then "just now"
      else if diffMins <? 60 then Text.of_Z diffMins ++ "m ago"
      else if diffHours <? 24 then Text.of_Z diffHours ++ "h ago"
      else if diffDays <? 7 then Text.of_Z diffDays ++ "d ago"
      else toLocaleDateString h t
  end.

(** *** Decisions *)

Definition remember_decision (a : Args.t) : M string :=
  let date := or_str (Args.date a) (Text.today (now h)) in
  (_ <- insertDecision h
          [bind (Args.project a); Some date; bind (Args.decision a);
           or_null (Args.rationale a); or_null (Args.category a)] ;;
   let categoryText :=
     if truthy_str (Args.category a) then " [" ++ tmpl (Args.category a) ++ "]" else "" in
   ret ("Decision stored for " ++ tmpl (Args.project a) ++ categoryText ++ synced))%M.

(** The rows [recall_decisions] selects. *)
Definition recall_decisions_rows (a : Args.t) (st : Store) : list (Row Decision.t) :=
  if truthy_str (Args.category a) then
    getDecisionsByCategory (bind (Args.project a)) (bind (Args.category a))
      (or_num (Args.limit a) 10) st
  else if truthy_str (Args.search a) then
    let pattern := "%" ++ tmpl (Args.search a) ++ "%" in
    searchDecisions (bind (Args.project a)) pattern pattern st
  else getDecisions (bind (Args.project a)) (or_num (Args.limit a) 10) st.

Definition categoryTag (c : option string) : string :=
  if col_truthy c then " [" ++ tmpl_col c ++ "]" else "".

Definition recall_decisions (a : Args.t) : M string :=
  (st <- get_store ;;
   let results := recall_decisions_rows a st in
   forEach (fun r => trackDecisionAccess h (id r)) results ;;;
   ret (match results with
        | [] => "No decisions found for this project"
        | _ =>
            join (nl ++ nl)
              (map (fun r =>
                      "[" ++ Decision.date (body r) ++ "]"
                      ++ categoryTag (Decision.category (body r)) ++ " "
                      ++ Decision.decision (body r) ++ nl ++ "  Rationale: "
                      ++ col_or (Decision.rationale (body r)) "N/A") results)
        end))%M.

Definition list_decisions_rows (a : Args.t) (st : Store) : list (Row Decision.t) :=
  getDecisions (bind (Args.project a)) (or_num (Args.limit a) 10) st.

Definition list_decisions (a : Args.t) : M string :=
  (st <- get_store ;;
   let results := list_decisions_rows a st in
   ret (match results with
        | [] => "No decisions found for this project"
        | _ =>
            join (nl ++ nl)
              (map (fun r =>
                      "[ID:" ++ Text.of_Z (id r) ++ "] [" ++ Decision.date (body r) ++ "]"
                      ++ categoryTag (Decision.category (body r)) ++ " "
                      ++ Decision.decision (body r) ++ nl ++ "  Rationale: "
                      ++ col_or (Decision.rationale (body r)) "N/A") results)
        end))%M.

(** *** Errors *)

Definition remember_error (a : Args.t) : M string :=
  (_ <- insertError h
          [bind (Args.project a); bind (Args.error_pattern a); bind (Args.solution a);
           or_null (Args.context a); or_null (Args.category a)] ;;
   let categoryText :=
     if truthy_str (Args.category a) then " [" ++ tmpl (Args.category a) ++ "]" else "" in
   ret ("Error solution stored for " ++ tmpl (Args.project a) ++ categoryText ++ synced))%M.

Definition find_solution_rows (a : Args.t) (st : Store) : list (Row Error.t) :=
  let pattern := "%" ++ tmpl (Args.error a) ++ "%" in
  if truthy_str (Args.category a) then
    findSolutionByCategory (bind (Args.project a)) (bind (Args.category a)) pattern st
  else findSolution (bind (Args.project a)) pattern st.

Definition find_solution (a : Args.t) : M string :=
  (st <- get_store ;;
   let results := find_solution_rows a st in
   forEach (fun r => trackErrorAccess h (id r)) results ;;;
   ret (match results with
        | [] => "No matching solutions found"
        | _ =>
            join (nl ++ nl ++ "---" ++ nl ++ nl)
              (map (fun r =>
                      "Error:" ++ categoryTag (Error.category (body r)) ++ " "
                      ++ Error.error_pattern (body r) ++ nl ++ "Solution: "
                      ++ Error.solution (body r) ++ nl ++ "Context: "
                      ++ col_or (Error.context (body r)) "N/A") results)
        end))%M.

Definition list_errors_rows (a : Args.t) (st : Store) : list (Row Error.t) :=
  getRecentErrors (bind (Args.project a)) (or_num (Args.limit a) 10) st.

Definition list_errors (a : Args.t) : M string :=
  (st <- get_store ;;
   let results := list_errors_rows a st in
   ret (match results with
        | [] => "No errors stored for this project"
        | _ =>
            join (nl ++ nl)
              (map (fun r =>
                      "[ID:" ++ Text.of_Z (id r) ++ "]"
                      ++ categoryTag (Error.category (body r)) ++ " "
                      ++ Error.error_pattern (body r) ++ nl ++ "  Solution: "
                      ++ Error.solution (body r) ++ nl ++ "  Context: "
                      ++ col_or (Error.context (body r)) "N/A") results)
        end))%M.

(** *** Context *)

Definition set_context (a : Args.t) : M string :=
  (upsertContext h (bind (Args.project a)) (bind (Args.key a)) (bind (Args.value a)) ;;;
   ret ("Context " ++ tmpl (Args.key a) ++ " set for " ++ tmpl (Args.project a) ++ synced))%M.

Definition get_context (a : Args.t) : M string :=
  (st <- get_store ;;
   if truthy_str (Args.key a) then
     ret (match getContextValue (bind (Args.project a)) (bind (Args.key a)) st with
          | Some r => tmpl (Args.key a) ++ ": " ++ Context.value r
          | None => "No value found for " ++ tmpl (Args.key a)
          end)
   else
     ret (match getContext (bind (Args.project a)) st with
          | [] => "No context stored for this project"
          | results =>
              join nl (map (fun r => Context.key r ++ ": " ++ Context.value r) results)
          end))%M.

Definition delete_context (a : Args.t) : M string :=
  (changes <- deleteContext (bind (Args.project a)) (bind (Args.key a)) ;;
   ret (if changes >? 0
        then "Deleted context key '" ++ tmpl (Args.key a) ++ "' from " ++ tmpl (Args.project a)
        else "No context key '" ++ tmpl (Args.key a) ++ "' found for "
             ++ tmpl (Args.project a)))%M.

(** *** Learnings *)

Definition remember_learning (a : Args.t) : M string :=
  (_ <- insertLearning h (or_null (Args.project a)) (bind (Args.category a))
          (bind (Args.content a)) ;;
   ret ("Learning stored (" ++ tmpl (Args.category a) ++ ")" ++ synced))%M.

Definition recall_learnings_rows (a : Args.t) (st : Store) : list (Row Learning.t) :=
  if truthy_str (Args.search a) then
    searchLearnings (bind (Args.project a)) ("%" ++ tmpl (Args.search a) ++ "%") st
  else getLearnings (bind (Args.project a)) (or_num (Args.limit a) 20) st.

Definition recall_learnings (a : Args.t) : M string :=
  (st <- get_store ;;
   let results := recall_learnings_rows a st in
   forEach (fun r => trackLearningAccess h (id r)) results ;;;
   ret (match results with
        | [] => "No learnings found"
        | _ =>
            join (nl ++ nl)
              (map (fun r =>
                      "[" ++ Learning.category (body r) ++ "] "
                      ++ Learning.content (body r)
                      ++ (if col_truthy (project r)
                          then " (" ++ tmpl_col (project r) ++ ")" else " (global)"))
                 results)
        end))%M.

(** *** Search across the tables *)

(** [if (rows.length > 0) output.push(text)]. *)
Definition group {A : Type} (rows : list A) (text : string) : list string :=
  match rows with
  | [] => []
  | _ => [text]
  end.

Definition search_all (a : Args.t) : M string :=
  (st <- get_store ;;
   let pattern := "%" ++ tmpl (Args.query a) ++ "%" in
   let p := bind (Args.project a) in
   let decisions := searchDecisions p pattern pattern st in
   let errors := findSolution p pattern st in
   let learnings := searchLearnings p pattern st in
   let contexts :=
     filter (fun c => Sql.eq_text (Some (Context.project c)) p
                      && (Sql.like (Some (Context.key c)) pattern
                          || Sql.like (Some (Context.value c)) pattern)) (context st) in
   let output :=
     List.concat
       [ group decisions
           ("=== DECISIONS ===" ++ nl
            ++ join nl (map (fun r => "[" ++ Decision.date (body r) ++ "] "
                                      ++ Decision.decision (body r)) decisions));
         group errors
           ("=== ERRORS ===" ++ nl
            ++ join nl (map (fun r => Error.error_pattern (body r) ++ ": "
                                      ++ Error.solution (body r)) errors));
         group learnings
           ("=== LEARNINGS ===" ++ nl
            ++ join nl (map (fun r => "[" ++ Learning.category (body r) ++ "] "
                                      ++ Learning.content (body r)) learnings));
         group contexts
           ("=== CONTEXT ===" ++ nl
            ++ join nl (map (fun r => Context.key r ++ ": " ++ Context.value r)
                          contexts)) ] in
   ret (match output with
        | [] => "No results found for '" ++ tmpl (Args.query a) ++ "'"
        | _ => join (nl ++ nl) output
        end))%M.

(** *** Sessions *)

Definition save_session (a : Args.t) : M string :=
  let workspace := or_null (Args.workspace a) in
  (upsertSessionWithWorkspace h (bind (Args.project a)) workspace (bind (Args.task a))
     (Some (or_str (Args.status a) "in-progress")) (or_null (Args.notes a)) ;;;
   let workspaceInfo :=
     match workspace with
     | Some w => " (workspace: " ++ w ++ ")"
     | None => ""
     end in
   ret ("Session saved for " ++ tmpl (Args.project a) ++ workspaceInfo ++ ": "
        ++ tmpl (Args.task a) ++ synced))%M.

(** The rows [get_session] shows. *)
Definition get_session_rows (a : Args.t) (st : Store) : list Session.t :=
  match Args.workspace a with
  | undefined => getAllSessionsForProject (bind (Args.project a)) st
  | w =>
      match getSessionWithWorkspace (bind (Args.project a)) (bind w) st with
      | Some s => [s]
      | None => []
      end
  end.

Definition get_session (a : Args.t) : M string :=
  (st <- get_store ;;
   match Args.workspace a with
   | undefined =>
       match getAllSessionsForProject (bind (Args.project a)) st with
       | [] => ret "No saved session found"
       | sessions =>
           ret (join (nl ++ nl)
                  (map (fun s =>
                          (if col_truthy (Session.workspace s)
                           then "[" ++ tmpl_col (Session.workspace s) ++ "] "
                           else "[default] ")
                          ++ "(" ++ getTimeAgo (Session.updated_at s) ++ "):" ++ nl
                          ++ "  Task: " ++ Session.task s ++ nl
                          ++ "  Status: " ++ col_or (Session.status s) "in-progress" ++ nl
                          ++ "  Notes: " ++ col_or (Session.notes s) "None") sessions))
       end
   | w =>
       match getSessionWithWorkspace (bind (Args.project a)) (bind w) st with
       | Some s =>
           ret ("Last session"
                ++ (if col_truthy (Session.workspace s)
                    then " [" ++ tmpl_col (Session.workspace s) ++ "]" else "")
                ++ " (" ++ getTimeAgo (Session.updated_at s) ++ "):" ++ nl
                ++ "Task: " ++ Session.task s ++ nl
                ++ "Status: " ++ col_or (Session.status s) "in-progress" ++ nl
                ++ "Notes: " ++ col_or (Session.notes s) "None")
       | None => ret "No saved session found"
       end
   end)%M.

Definition clear_session (a : Args.t) : M string :=
  match Args.workspace a with
  | undefined =>
      (changes <- deleteSessionsOfProject (bind (Args.project a)) ;;
       ret (if changes >? 0
            then "All sessions cleared for " ++ tmpl (Args.project a) ++ " ("
                 ++ Text.of_Z changes ++ " session(s))"
            else "No sessions to clear"))%M
  | w =>
      (changes <- deleteSessionWithWorkspace (bind (Args.project a)) (bind w) ;;
       let workspaceInfo :=
         if truthy_str w then " (workspace: " ++ tmpl w ++ ")" else "" in
       ret (if changes >? 0
            then "Session cleared for " ++ tmpl (Args.project a) ++ workspaceInfo
            else "No session to clear"))%M
  end.

(** *** Summaries *)

(** A JavaScript number that may be infinite or not a number. *)
Inductive number : Type :=
| Num : Q -> number
| Infinity : number
| NaN : number.

(** [x <= q]. *)
Definition le_num (x : number) (q : Q) : bool :=
  match x with
  | Num v => Qle_bool v q
  | Infinity => false
  | NaN => false
  end.

(** [item.access_count || 0]. *)
Definition accessCount {B : Type} (item : Row B) : Z :=
  match access_count item with Some n => n | None => 0 end.

(** [lastAccessed ? (now - lastAccessed) / (1000 * 60 * 60 * 24) : Infinity],
    with [lastAccessed = item.last_accessed ? new Date(item.last_accessed) : null]. *)
Definition daysSinceAccess {B : Type} (item : Row B) : number :=
  if col_truthy (last_accessed item) then
    match Date_parse h (tmpl_col (last_accessed item)) with
    | Some lastAccessed =>
        Num (inject_Z (now h - lastAccessed) / inject_Z (1000 * 60 * 60 * 24))
    | None => NaN
    end
  else Infinity.

(** [getTier(item)]. *)
Definition getTier {B : Type} (item : Row B) : string :=
  if (accessCount item >=? 5) || le_num (daysSinceAccess item) 7 then "hot"
  else if (accessCount item >=? 2) || le_num (daysSinceAccess item) 30 then "warm"
  else "cold".

Definition tierIcon (tier : string) : string :=
  if (tier =? "hot")%string then "🔥" else if (tier =? "warm")%string then "⭐" else "".

Definition priorityIcon (p : option Q) : string :=
  match p with
  | Some q => if Qeq_bool q 2 then "🔴 " else if Qeq_bool q 1 then "🟡 " else ""
  | None => ""
  end.

(** [(x.priority || 0) > 0]. *)
Definition highPriority {B : Type} (r : Row B) : bool :=
  match priority r with
  | Some q => negb (Qle_bool q 0)
  | None => false
  end.

Definition isHot {B : Type} (r : Row B) : bool := (getTier r =? "hot")%string.

(** [(n, k priority, m hot)] of a section heading. *)
Definition heading_counts {B : Type} (l : list (Row B)) : string :=
  let highPriorityCount := count (filter highPriority l) in
  let hotCount := count (filter isHot l) in
  "(" ++ Text.of_Z (count l)
  ++ (if highPriorityCount =? 0 then "" else ", " ++ Text.of_Z highPriorityCount ++ " priority")
  ++ (if hotCount =? 0 then "" else ", " ++ Text.of_Z hotCount ++ " hot") ++ ")".

Definition sessions_block (sessions : list Session.t) : list string :=
  match sessions with
  | [] => []
  | _ =>
      ("## 📋 Active Sessions (" ++ Text.of_Z (count sessions) ++ ")")
      :: flat_map
           (fun s =>
              List.concat
                [ [ "### " ++ (if col_truthy (Session.workspace s)
                               then "[" ++ tmpl_col (Session.workspace s) ++ "]"
                               else "[default]")
                    ++ " (" ++ getTimeAgo (Session.updated_at s) ++ ")";
                    "**Task:** " ++ Session.task s;
                    "**Status:** " ++ col_or (Session.status s) "in-progress" ];
                  if col_truthy (Session.notes s)
                  then ["**Notes:** " ++ tmpl_col (Session.notes s)] else [];
                  [""] ])
           sessions
  end.

Definition context_block (title : string) (items : list Context.t) : list string :=
  match items with
  | [] => []
  | _ =>
      title
      :: app (map (fun c => "- **" ++ Context.key c ++ ":** " ++ Context.value c) items)
           [""]
  end.

(** [SELECT COUNT( * ) ... WHERE project = ? AND (archived IS NULL OR
    archived = 0)]. *)
Definition live_count {B : Type} (p : option string) (l : list (Row B)) : Z :=
  count (filter (fun r => Sql.eq_text (project r) p && not_archived r) l).

Definition live_decisions (p : option string) (st : Store) : Z :=
  live_count p (decisions st).

Definition live_errors (p : option string) (st : Store) : Z :=
  live_count p (errors st).

Definition live_count_learnings (p : option string) (st : Store) : Z :=
  count (filter (fun r => project_or_global p r && not_archived r) (learnings st)).

Definition memory_status (a : Args.t) : M string :=
  (st <- get_store ;;
   let p := bind (Args.project a) in
   let sessions := getAllSessionsForProject p st in
   let contextItems := getContext p st in
   let decisions := getDecisions p 5 st in
   let learnings := getLearnings p 5 st in
   let errors := getRecentErrors p 3 st in
   let globals := globalLearnings 5 st in
   let allLearnings :=
     app learnings
       (filter (fun g => negb (existsb (fun l => id l =? id g) learnings)) globals) in
   let output :=
     List.concat
       [ ["# Memory Status for " ++ tmpl (Args.project a) ++ nl];
         sessions_block sessions;
         context_block ("## ⚙️ Context (" ++ Text.of_Z (count contextItems) ++ " items)")
           contextItems;
         match decisions with
         | [] => []
         | _ =>
             "## 🎯 Recent Decisions"
             :: app (map (fun d => "- [" ++ Decision.date (body d) ++ "] "
                                   ++ Decision.decision (body d)) decisions) [""]
         end;
         match allLearnings with
         | [] => []
         | _ =>
             "## 💡 Learnings"
             :: app (map (fun l => "- [" ++ Learning.category (body l) ++ "] "
                                   ++ Learning.content (body l)
                                   ++ (if col_truthy (project l) then "" else " (global)"))
                       (firstn 5 allLearnings)) [""]
         end;
         match errors with
         | [] => []
         | _ =>
             "## 🐛 Recent Error Solutions"
             :: app (map (fun e => "- **" ++ Error.error_pattern (body e) ++ "**: "
                                   ++ Error.solution (body e)) errors) [""]
         end;
         [ "## 📊 Stats";
           "Decisions: " ++ Text.of_Z (live_decisions p st)
           ++ " | Errors: " ++ Text.of_Z (live_errors p st)
           ++ " | Learnings: " ++ Text.of_Z (live_count_learnings p st)
           ++ " | Context: " ++ Text.of_Z (count contextItems) ] ] in
   ret (join nl output))%M.

(** [globalLearnings.forEach(g => { if (!allLearnings.find(l => l.id ===
    g.id)) allLearnings.push(g) })]. *)
Definition push_new {B : Type} (acc globals : list (Row B)) : list (Row B) :=
  fold_left
    (fun acc g => if existsb (fun l => id l =? id g) acc then acc else app acc [g])
    globals acc.

Definition load_comprehensive_memory (a : Args.t) : M string :=
  (st <- get_store ;;
   let includeGlobal :=
     match Args.include_global a with val false => false | _ => true end in
   let p := bind (Args.project a) in
   let sessions := getAllSessionsForProject p st in
   let contextItems := getContext p st in
   let decisions := getDecisions p 30 st in
   let learnings := getLearnings p 50 st in
   let errors := getRecentErrors p 15 st in
   let globalContext := if includeGlobal then getContext (Some "global") st else [] in
   let globals := if includeGlobal then globalLearnings 20 st else [] in
   let allLearnings := if includeGlobal then push_new learnings globals else learnings in
   let output :=
     List.concat
       [ ["# Comprehensive Memory for " ++ tmpl (Args.project a) ++ nl;
          "_Loaded with higher limits: 30 decisions, 50 learnings, 15 errors_" ++ nl];
         context_block "## 🌐 Global Context" globalContext;
         sessions_block sessions;
         context_block
           ("## ⚙️ Project Context (" ++ Text.of_Z (count contextItems) ++ " items)")
           contextItems;
         match decisions with
         | [] => []
         | _ =>
             ("## 🎯 Decisions " ++ heading_counts decisions)
             :: app (flat_map
                   (fun d =>
                      ("- " ++ priorityIcon (priority d) ++ tierIcon (getTier d)
                       ++ "**[" ++ Decision.date (body d) ++ "]** "
                       ++ (if col_truthy (Decision.category (body d))
                           then "[" ++ tmpl_col (Decision.category (body d)) ++ "] " else "")
                       ++ Decision.decision (body d))
                      :: (if col_truthy (Decision.rationale (body d))
                          then ["  _Rationale: " ++ tmpl_col (Decision.rationale (body d)) ++ "_"]
                          else []))
                   decisions) [""]
         end;
         match allLearnings with
         | [] => []
         | _ =>
             ("## 💡 Learnings " ++ heading_counts allLearnings)
             :: app (map (fun l =>
                        "- " ++ priorityIcon (priority l) ++ tierIcon (getTier l)
                        ++ "[" ++ Learning.category (body l) ++ "] "
                        ++ Learning.content (body l)
                        ++ (if col_truthy (project l) then "" else " _(global)_"))
                   allLearnings) [""]
         end;
         match errors with
         | [] => []
         | _ =>
             ("## 🐛 Error Solutions " ++ heading_counts errors)
             :: app (flat_map
                   (fun e =>
                      app
                        [ "- " ++ priorityIcon (priority e) ++ tierIcon (getTier e)
                          ++ (if col_truthy (Error.category (body e))
                              then "[" ++ tmpl_col (Error.category (body e)) ++ "] " else "")
                          ++ "**" ++ Error.error_pattern (body e) ++ "**";
                          "  Solution: " ++ Error.solution (body e) ]
                        (if col_truthy (Error.context (body e))
                         then ["  Context: " ++ tmpl_col (Error.context (body e))]
                         else []))
                   errors) [""]
         end;
         [ "## 📊 Total Available";
           "Decisions: " ++ Text.of_Z (live_decisions p st)
           ++ " (loaded: " ++ Text.of_Z (count decisions) ++ ") | Errors: "
           ++ Text.of_Z (live_errors p st)
           ++ " (loaded: " ++ Text.of_Z (count errors) ++ ") | Learnings: "
           ++ Text.of_Z (live_count_learnings p st)
           ++ " (loaded: " ++ Text.of_Z (count allLearnings) ++ ") | Context: "
           ++ Text.of_Z (count contextItems) ] ] in
   ret (join nl output))%M.

(** *** Archive, priority, prune *)

(** [tableMap[args.type]]: an own property, a property inherited from
    [Object.prototype] (truthy, and no table name: preparing the statement
    throws with the given message), or nothing. *)
Inductive lookup : Type :=
| Own : table -> lookup
| Inherited : string -> lookup
| Missing : lookup.

Definition dquote : string := String (ascii_of_nat 34) "".

Definition native (f : string) : string := "near " ++ dquote ++ f ++ dquote ++ ": syntax error".

Definition tableMap (ty : arg string) : lookup :=
  match ty with
  | val k =>
      if (k =? "decision")%string then Own Decisions
      else if (k =? "error")%string then Own Errors
      else if (k =? "learning")%string then Own Learnings
      else if (k =? "__proto__")%string then Inherited "no such table: object Object"
      else if (k =? "constructor")%string then Inherited (native "Object")
      else if existsb (String.eqb k)
                ["hasOwnProperty"; "isPrototypeOf"; "propertyIsEnumerable";
                 "toLocaleString"; "toString"; "valueOf"; "__defineGetter__";
                 "__defineSetter__"; "__lookupGetter__"; "__lookupSetter__"]
           then Inherited (native k)
      else Missing
  | _ => Missing
  end.

Definition invalid_type (a : Args.t) : string :=
  "Invalid type: " ++ tmpl (Args.type a) ++ ". Use 'decision', 'error', or 'learning'".

Definition archive (a : Args.t) : M string :=
  match tableMap (Args.type a) with
  | Missing => ret (invalid_type a)
  | Inherited msg => throw msg
  | Own t =>
      (changes <- update_table t (@set_archived) (bind (Args.id a)) ;;
       ret (if changes >? 0
            then "Archived " ++ tmpl (Args.type a) ++ " #" ++ tmpl_num (Args.id a)
            else "No " ++ tmpl (Args.type a) ++ " found with ID " ++ tmpl_num (Args.id a)))%M
  end.

(** [priority < 0 || priority > 2]; [undefined] compares as NaN and [null]
    as 0. *)
Definition out_of_range (p : arg Q) : bool :=
  match p with
  | val q => negb (Qle_bool 0 q) || negb (Qle_bool q 2)
  | _ => false
  end.

Definition tmpl_priority (p : arg Q) : string :=
  match p with
  | undefined => "undefined"
  | null => "null"
  | val q => num_text q
  end.

(** [priorityLabels[priority]] inside a template literal. *)
Definition priorityLabel (p : arg Q) : string :=
  match p with
  | val q =>
      if Qeq_bool q 0 then "normal"
      else if Qeq_bool q 1 then "high"
      else if Qeq_bool q 2 then "critical"
      else "undefined"
  | _ => "undefined"
  end.

Definition set_priority (a : Args.t) : M string :=
  match tableMap (Args.type a) with
  | Missing => ret (invalid_type a)
  | Inherited msg =>
      if out_of_range (Args.priority a)
      then ret ("Invalid priority: " ++ tmpl_priority (Args.priority a)
                ++ ". Use 0 (normal), 1 (high), or 2 (critical)")
      else throw msg
  | Own t =>
      let priority := Args.priority a in
      if out_of_range priority
      then ret ("Invalid priority: " ++ tmpl_priority priority
                ++ ". Use 0 (normal), 1 (high), or 2 (critical)")
      else
        (changes <- update_table t (fun B => @set_row_priority B (bind priority))
                      (bind (Args.id a)) ;;
         ret (if changes >? 0
              then "Set " ++ tmpl (Args.type a) ++ " #" ++ tmpl_num (Args.id a)
                   ++ " priority to " ++ priorityLabel priority ++ " ("
                   ++ tmpl_priority priority ++ ")"
              else "No " ++ tmpl (Args.type a) ++ " found with ID "
                   ++ tmpl_num (Args.id a)))%M
  end.

(** [new Date(Date.now() - days * 24 * 60 * 60 * 1000).toISOString()]. *)
Definition cutoffDate (days : Z) : M string :=
  match Text.toISOString (now h - days * 24 * 60 * 60 * 1000) with
  | Some s => ret s
  | None => throw "Invalid time value"
  end.

(** [args.project !== 'all']. *)
Definition scoped (p : arg string) : bool :=
  match p with
  | val s => negb (s =? "all")%string
  | _ => true
  end.

(** [archived = 1 AND created_at < ?], and [AND project = ?] unless the
    project is ['all']. *)
Definition prune_cond (cutoff : string) (p : arg string) (B : Type) (r : Row B) : bool :=
  is_archived r && Sql.lt_text (created_at r) (Some cutoff)
  && (if scoped p then Sql.eq_text (project r) (bind p) else true).

(** [for (const table of tables) { ...; totalDeleted += result.changes }]. *)
Fixpoint delete_each (tables : list table) (f : forall B : Type, Row B -> bool)
  : M (list (table * Z)) :=
  match tables with
  | [] => ret []
  | t :: rest =>
      (n <- delete_table t f ;;
       l <- delete_each rest f ;;
       ret ((t, n) :: l))%M
  end.

Definition total (l : list (table * Z)) : Z := fold_right (fun x acc => snd x + acc) 0 l.

Definition prune (a : Args.t) : M string :=
  let days := or_num (Args.days a) 90 in
  (cutoff <- cutoffDate days ;;
   deleted <- delete_each [Decisions; Errors; Learnings] (prune_cond cutoff (Args.project a)) ;;
   ret ("Pruned " ++ Text.of_Z (total deleted) ++ " archived items older than "
        ++ Text.of_Z days ++ " days"))%M.

(** [created_at < ?], [archived = 1] when [archivedOnly], and the project. *)
Definition cleanup_cond (cutoff : string) (archivedOnly : bool) (p : arg string)
  (B : Type) (r : Row B) : bool :=
  Sql.lt_text (created_at r) (Some cutoff)
  && (if archivedOnly then is_archived r else true)
  && (if scoped p then Sql.eq_text (project r) (bind p) else true).

Definition bulk_cleanup (a : Args.t) : M string :=
  let days := Args.older_than_days a in
  let archivedOnly := match Args.archived_only a with val false => false | _ => true end in
  let typeFilter := or_str (Args.type a) "all" in
  (cutoff <- match days with
             | val d => cutoffDate d
             | null => cutoffDate 0
             | undefined => throw "Invalid time value"
             end ;;
   let tables :=
     if (typeFilter =? "all")%string then [Decisions; Errors; Learnings]
     else filter (fun t => (table_name t =? typeFilter)%string) [Decisions; Errors; Learnings] in
   deleted <- delete_each tables (cleanup_cond cutoff archivedOnly (Args.project a)) ;;
   let details :=
     join ", " (map (fun x => table_name (fst x) ++ ": " ++ Text.of_Z (snd x)) deleted) in
   ret ("Deleted " ++ Text.of_Z (total deleted) ++ " items older than " ++ tmpl_num days
        ++ " days" ++ (if archivedOnly then " (archived only)" else "") ++ nl ++ details))%M.

(** *** Export and import *)

(** Evaluating an identifier that no declaration of the module binds. *)
Definition unbound {A : Type} (name : string) : M A := throw (name ++ " is not defined").

Definition export_memory (a : Args.t) : M string :=
  let includeArchived := match Args.include_archived a with val true => true | _ => false end in
  let p := bind (Args.project a) in
  let keep (B : Type) (r : Row B) :=
    Sql.eq_text (project r) p && (if includeArchived then true else not_archived r) in
  (st <- get_store ;;
   match Text.toISOString (now h) with
   | None => throw "Invalid time value"
   | Some exported_at =>
       (* [session: getSession.get(args.project)]: the module declares no
          [getSession] *)
       session <- unbound "getSession" ;;
       ret (JSON_stringify h
              (mkExport (Args.project a) exported_at
                 (filter (keep _) (decisions st))
                 (filter (keep _) (errors st))
                 (filter (fun c => Sql.eq_text (Some (Context.project c)) p) (context st))
                 (filter (keep _) (learnings st))
                 session))
   end)%M.

(** [try { stmt; n++ } catch (e) { }] over the rows of an array: the
    number of rows that went in. *)
Fixpoint import_each {A B : Type} (f : A -> M B) (l : list A) : M Z :=
  match l with
  | [] => ret 0
  | x :: rest =>
      (k <- try_catch (f x ;;; ret 1) (fun _ => ret 0) ;;
       n <- import_each f rest ;;
       ret (k + n))%M
  end.

(** The same loop without the inner [try]: the first failure escapes. *)
Fixpoint import_all {A B : Type} (f : A -> M B) (l : list A) : M Z :=
  match l with
  | [] => ret 0
  | x :: rest =>
      (f x ;;; n <- import_all f rest ;; ret (1 + n))%M
  end.

Definition if_present {A : Type} (o : option (list A)) (f : list A -> M Z) : M Z :=
  match o with
  | Some l => f l
  | None => ret 0
  end.

Definition import_decision (d : Doc.decision) : M Z :=
  insertDecision h
    [bind (Doc.d_project d); bind (Doc.d_date d); bind (Doc.d_decision d);
     bind (Doc.d_rationale d)].

Definition import_error (e : Doc.error) : M Z :=
  insertError h
    [bind (Doc.e_project e); bind (Doc.e_error_pattern e); bind (Doc.e_solution e);
     bind (Doc.e_context e)].

Definition import_context (c : Doc.context) : M unit :=
  upsertContext h (bind (Doc.c_project c)) (bind (Doc.c_key c)) (bind (Doc.c_value c)).

Definition import_learning (l : Doc.learning) : M Z :=
  insertLearning h (bind (Doc.l_project l)) (bind (Doc.l_category l))
    (bind (Doc.l_content l)).

Definition import_memory (a : Args.t) : M string :=
  try_catch
    (match JSON_parse h (Args.json_data a) with
     | inl msg => throw msg
     | inr data =>
         (nd <- if_present (Doc.decisions data) (import_each import_decision) ;;
          ne <- if_present (Doc.errors data) (import_each import_error) ;;
          nc <- if_present (Doc.context_items data) (import_all import_context) ;;
          nlearn <- if_present (Doc.learnings data) (import_each import_learning) ;;
          match Doc.session_obj data with
          | Some _ => @unbound unit "upsertSession"
          | None => ret tt
          end ;;;
          ret ("Imported: " ++ Text.of_Z nd ++ " decisions, " ++ Text.of_Z ne
               ++ " errors, " ++ Text.of_Z nc ++ " context items, " ++ Text.of_Z nlearn
               ++ " learnings"))%M
     end)
    (fun msg => ret ("Import failed: " ++ msg)).

(** *** Statistics *)

(** [SELECT DISTINCT project FROM (... UNION ...) ORDER BY project]. *)
Fixpoint insert_distinct (p : option string) (l : list (option string))
  : list (option string) :=
  match l with
  | [] => [p]
  | q :: l' =>
      match Sql.cmp_null String.compare p q with
      | Lt => p :: q :: l'
      | Eq => q :: l'
      | Gt => q :: insert_distinct p l'
      end
  end.

Definition all_projects (st : Store) : list (option string) :=
  fold_right insert_distinct []
    (List.concat
       [ map project (decisions st);
         map project (errors st);
         map (fun c => Some (Context.project c)) (context st);
         filter (fun p => match p with Some _ => true | None => false end)
           (map project (learnings st)) ]).

Definition of_project {B : Type} (p : option string) (l : list (Row B)) : list (Row B) :=
  filter (fun r => Sql.eq_text (project r) p) l.

Definition project_line {B : Type} (label : string) (p : option string) (l : list (Row B))
  : string :=
  "- " ++ label ++ ": " ++ Text.of_Z (count (of_project p l)) ++ " ("
  ++ Text.of_Z (count (filter is_archived (of_project p l))) ++ " archived)".

Definition memory_stats (a : Args.t) : M string :=
  (st <- get_store ;;
   let head := ["# Memory Statistics" ++ nl; "Database size: " ++ dbSize h ++ nl] in
   let context_of p :=
     count (filter (fun c => Sql.eq_text (Some (Context.project c)) p) (context st)) in
   let output :=
     if truthy_str (Args.project a) then
       let p := bind (Args.project a) in
       app head
         [ "## Project: " ++ tmpl (Args.project a);
           project_line "Decisions" p (decisions st);
           project_line "Errors" p (errors st);
           project_line "Learnings" p (learnings st);
           "- Context keys: " ++ Text.of_Z (context_of p) ]
     else
       let projects := all_projects st in
       List.concat
         [ head;
           ["## All Projects (" ++ Text.of_Z (count projects) ++ " total)" ++ nl];
           map (fun p =>
                  "**" ++ tmpl_col p ++ "**: "
                  ++ Text.of_Z (count (of_project p (decisions st))) ++ " decisions, "
                  ++ Text.of_Z (count (of_project p (errors st))) ++ " errors, "
                  ++ Text.of_Z (count (of_project p (learnings st))) ++ " learnings, "
                  ++ Text.of_Z (context_of p) ++ " context") projects;
           [ nl ++ "**Global learnings**: "
             ++ Text.of_Z (count (filter (fun r => match project r with
                                                   | None => true
                                                   | Some _ => false
                                                   end) (learnings st)));
             nl ++ "## Totals";
             "- Total decisions: " ++ Text.of_Z (count (decisions st));
             "- Total errors: " ++ Text.of_Z (count (errors st));
             "- Total learnings: " ++ Text.of_Z (count (learnings st));
             "- Total context keys: " ++ Text.of_Z (count (context st));
             "- Total archived items: "
             ++ Text.of_Z (count (filter is_archived (decisions st))
                           + count (filter is_archived (errors st))
                           + count (filter is_archived (learnings st))) ] ] in
   ret (join nl output))%M.

(** *** Firestore *)

Definition not_enabled : string :=
  "Firestore sync not enabled. Configure in ~/.claude/memory-config.json".

(** [SELECT * FROM t], or [... WHERE project = ?] unless the project is
    ['all']: the number of rows pushed. *)
Definition sync_to_cloud (a : Args.t) : M string :=
  (st <- get_store ;;
   let p := Args.project a in
   let rows {B : Type} (l : list (Row B)) :=
     count (if scoped p then of_project (bind p) l else l) in
   let named {A : Type} (proj : A -> string) (l : list A) :=
     count (if scoped p
            then filter (fun x => Sql.eq_text (Some (proj x)) (bind p)) l else l) in
   let synced :=
     rows (decisions st) + rows (errors st) + named Context.project (context st)
     + rows (learnings st) + named Session.project (sessions st) in
   ret ("Synced " ++ Text.of_Z synced ++ " records to Firestore"))%M.

Definition pull_from_cloud (a : Args.t) : M string :=
  let cloud := pullFromCloud h (Args.project a) in
  (nd <- import_each import_decision (Doc.cloud_decisions cloud) ;;
   ne <- import_each import_error (Doc.cloud_errors cloud) ;;
   nc <- import_each import_context (Doc.cloud_context cloud) ;;
   nlearn <- import_each import_learning (Doc.cloud_learnings cloud) ;;
   ns <- import_each (fun _ : Doc.session => @unbound unit "upsertSession")
           (Doc.cloud_sessions cloud) ;;
   ret ("Pulled " ++ Text.of_Z (nd + ne + nc + nlearn + ns) ++ " records from Firestore"))%M.

(** ** The request handler *)

(** A property read on [args] when the request carries no arguments. *)
Definition with_args (args : option Args.t) (first_property : string)
  (k : Args.t -> M string) : M string :=
  match args with
  | Some a => k a
  | None => throw ("Cannot read properties of undefined (reading '" ++ first_property ++ "')")
  end.

Definition cases : list (string * (option Args.t -> M string)) :=
  [ ("remember_decision", fun args => with_args args "date" remember_decision);
    ("recall_decisions", fun args => with_args args "category" recall_decisions);
    ("list_decisions", fun args => with_args args "project" list_decisions);
    ("remember_error", fun args => with_args args "project" remember_error);
    ("find_solution", fun args => with_args args "error" find_solution);
    ("set_context", fun args => with_args args "project" set_context);
    ("get_context", fun args => with_args args "key" get_context);
    ("remember_learning", fun args => with_args args "project" remember_learning);
    ("recall_learnings", fun args => with_args args "search" recall_learnings);
    ("delete_context", fun args => with_args args "project" delete_context);
    ("list_errors", fun args => with_args args "project" list_errors);
    ("search_all", fun args => with_args args "query" search_all);
    ("save_session", fun args => with_args args "workspace" save_session);
    ("get_session", fun args => with_args args "workspace" get_session);
    ("clear_session", fun args => with_args args "workspace" clear_session);
    ("memory_status", fun args => with_args args "project" memory_status);
    ("load_comprehensive_memory",
      fun args => with_args args "include_global" load_comprehensive_memory);
    ("archive", fun args => with_args args "type" archive);
    ("set_priority", fun args => with_args args "type" set_priority);
    ("prune", fun args => with_args args "days" prune);
    ("export_memory", fun args => with_args args "include_archived" export_memory);
    ("import_memory",
      fun args =>
        try_catch (with_args args "json_data" import_memory)
          (fun msg => ret ("Import failed: " ++ msg)));
    ("memory_stats", fun args => with_args args "project" memory_stats);
    ("bulk_cleanup", fun args => with_args args "older_than_days" bulk_cleanup);
    ("sync_to_cloud",
      fun args =>
        if firestoreSync h then with_args args "project" sync_to_cloud
        else ret not_enabled);
    ("pull_from_cloud",
      fun args =>
        if firestoreSync h then with_args args "project" pull_from_cloud
        else ret not_enabled) ].

Fixpoint find_case (name : string) (l : list (string * (option Args.t -> M string)))
  : option (option Args.t -> M string) :=
  match l with
  | [] => None
  | (n, f) :: rest => if (n =? name)%string then Some f else find_case name rest
  end.

(** The body of the [try]: [switch (name) { ... default: ... }]. *)
Definition switch (name : string) (args : option Args.t) : M string :=
  match find_case name cases with
  | Some f => f args
  | None => ret ("Unknown tool: " ++ name)
  end.

(** [try { switch ... } catch (error) { return text(`Error: ${error.message}`) }]:
    the store after the request and the text of the result. *)
Definition handler (name : string) (args : option Args.t) (st : Store) : Store * string :=
  match switch name args st with
  | (Ok text, st') => (st', text)
  | (Throw message, st') => (st', "Error: " ++ message)
  end.

End Handler.

(** ** Sequences of requests *)

(** One request as the transport delivers it: the host at that moment, the
    tool name and the argument map. *)
Record Request := mkRequest
  { req_host : Host; req_name : string; req_args : option Args.t }.

Definition step (st : Store) (r : Request) : Store :=
  fst (handler (req_host r) (req_name r) (req_args r) st).

(** The store after a sequence of requests, oldest first. *)
Definition run (reqs : list Request) (st : Store) : Store := fold_left step reqs st.

(** ** Well-formed stores *)

(** What the schema guarantees of every database file: rowids are unique
    and never above the AUTOINCREMENT counter, and [UNIQUE(project, key)]
    holds on the context table. *)
Definition ids_ok {R : Type} (rid : R -> Z) (seq : Z) (l : list R) : Prop :=
  NoDup (map rid l) /\ Forall (fun r => rid r <= seq) l.

Definition context_unique (l : list Context.t) : Prop :=
  NoDup (map (fun c => (Context.project c, Context.key c)) l).

Record wf (st : Store) : Prop := mkWf
  { wf_decisions : ids_ok id (seq_decisions st) (decisions st);
    wf_errors : ids_ok id (seq_errors st) (errors st);
    wf_learnings : ids_ok id (seq_learnings st) (learnings st);
    wf_context : context_unique (context st) }.

(** ** Sample hosts and stores *)

Module Sample.

(** A host without Firestore whose clock reads [t]. *)
Definition host (t : Z) : Host :=
  mkHost t false (fun _ => Doc.mkCloud [] [] [] [] []) (fun _ => None)
    (fun _ => "1/1/2025") (fun _ => "1.5") (fun _ => inl "Unexpected end of JSON input")
    (fun _ => "{}") "4.00 KB".

Definition app : Args.t := Args.with_project (val "app") Args.none.

(** 2025-01-02 23:00:00 UTC and 2025-04-02 12:00:00 UTC. *)
Definition jan2_23h : Z := 1735858800000.
Definition apr2_12h : Z := 1743595200000.

Definition remember (text : string) : Request :=
  mkRequest (host jan2_23h) "remember_decision" (Some (Args.with_decision (val text) app)).

Definition remember_on (date : string) : Request :=
  mkRequest (host jan2_23h) "remember_decision"
    (Some (Args.with_date (val date) (Args.with_decision (val ("decided on " ++ date)) app))).

(** One decision of project [app], stored on 2025-01-02 at 23:00 UTC. *)
Definition one_decision : Store := run [remember "Use SQLite"] empty_store.

Definition archive_1 : Request :=
  mkRequest (host jan2_23h) "archive"
    (Some (Args.with_type (val "decision") (Args.with_id (val 1) Args.none))).

(** Eleven decisions of project [app], dated 2025-01-01 to 2025-01-11. *)
Definition eleven_decisions : Store :=
  run (map remember_on
         ["2025-01-01"; "2025-01-02"; "2025-01-03"; "2025-01-04"; "2025-01-05";
          "2025-01-06"; "2025-01-07"; "2025-01-08"; "2025-01-09"; "2025-01-10";
          "2025-01-11"])
    empty_store.

End Sample.

(** ** Vocabulary of the statements *)

(** [clear_session] and the other tables. *)
Definition same_but_sessions (st st' : Store) : Prop :=
  decisions st' = decisions st /\ errors st' = errors st /\ context st' = context st
  /\ learnings st' = learnings st.

(** Equality of two workspaces, NULL being the default workspace. *)
Definition ws_eqb (w1 w2 : option string) : bool :=
  match w1, w2 with
  | None, None => true
  | Some x, Some y => (x =? y)%string
  | _, _ => false
  end.

(** Project [app] with sessions in the default workspace and in [w1], and
    project [web] with one session. *)
Definition three_sessions : Store :=
  let save p w task :=
    mkRequest (Sample.host Sample.apr2_12h) "save_session"
      (Some (Args.with_workspace w (Args.with_task (val task)
                                      (Args.with_project (val p) Args.none)))) in
  run [save "app" undefined "T0"; save "app" (val "w1") "T1"; save "web" (val "w1") "T2"]
    empty_store.


(** The natural key of a context row. *)
Definition context_key (c : Context.t) : string * string :=
  (Context.project c, Context.key c).


(** What the sort needs of a three-way comparison. *)
Record order_like {A : Type} (cmp : A -> A -> comparison) : Prop := mkOrderLike
  { ol_antisym : forall x y, cmp y x = CompOpp (cmp x y);
    ol_lt_trans : forall x y z, cmp x y = Lt -> cmp y z = Lt -> cmp x z = Lt;
    ol_eq_l : forall x y z, cmp x y = Eq -> cmp x z = cmp y z }.



(** Decision [i] is archived for good: its id can no longer be handed out
    and a row that carries it has [archived = 1]. *)
Definition archived_for_good (i : Z) (st : Store) : Prop :=
  i <= seq_decisions st
  /\ forall r, In r (decisions st) -> id r = i -> archived r = Some 1.

(** The store is well formed and, when [g] names a decision, that decision
    is archived for good. *)
Definition inv (g : option Z) (st : Store) : Prop :=
  wf st /\ match g with
           | Some i => archived_for_good i st
           | None => True
           end.

(** A computation keeps [P] when the store it leaves satisfies [P]
    whenever the store it started from does, whether it returns or throws. *)
Definition keeps (P : Store -> Prop) {A : Type} (m : M A) : Prop :=
  forall st, P st -> P (snd (m st)).



(** The tools that only read: their case runs SELECT statements alone. *)
Definition reading_tools : list string :=
  ["get_context"; "search_all"; "get_session"; "memory_status";
   "load_comprehensive_memory"; "memory_stats"; "sync_to_cloud"].

(** The first column, in table order, that a list of bound values leaves
    NULL. *)
Definition first_null (cols : list (string * option string)) : option string :=
  match find (fun c => match snd c with None => true | Some _ => false end) cols with
  | Some c => Some (fst c)
  | None => None
  end.

(** The NOT NULL columns that each writing tool binds from its arguments,
    with the values bound. *)
Definition required (name : string) (a : Args.t) : list (string * option string) :=
  if (name =? "remember_decision")%string then
    [("decisions.project", bind (Args.project a));
     ("decisions.decision", bind (Args.decision a))]
  else if (name =? "remember_error")%string then
    [("errors.project", bind (Args.project a));
     ("errors.error_pattern", bind (Args.error_pattern a));
     ("errors.solution", bind (Args.solution a))]
  else if (name =? "remember_learning")%string then
    [("learnings.category", bind (Args.category a));
     ("learnings.content", bind (Args.content a))]
  else if (name =? "set_context")%string then
    [("context.project", bind (Args.project a));
     ("context.key", bind (Args.key a));
     ("context.value", bind (Args.value a))]
  else if (name =? "save_session")%string then
    [("sessions.project", bind (Args.project a));
     ("sessions.task", bind (Args.task a))]
  else [].

(** A result of [k] rows respects [LIMIT n]: a negative [n] is no limit. *)
Definition within_limit (n : Z) (k : nat) : Prop := n < 0 \/ (k <= Z.to_nat n)%nat.

(** From [l] to [l'] rows were only removed, and only rows that satisfy
    [doomed]. *)
Definition only_removes {B : Type} (doomed : Row B -> bool) (l l' : list (Row B)) : Prop :=
  (forall r, In r l' -> In r l) /\ (forall r, In r l -> doomed r = false -> In r l').

(** From [st] to [st'] nothing was added or rewritten: the context and
    session tables are the same and the archivable tables lost only rows
    that satisfy [doomed]. *)
Definition removes_only (doomed : forall B : Type, Row B -> bool) (st st' : Store) : Prop :=
  only_removes (doomed _) (decisions st) (decisions st')
  /\ only_removes (doomed _) (errors st) (errors st')
  /\ only_removes (doomed _) (learnings st) (learnings st')
  /\ context st' = context st /\ sessions st' = sessions st.

(** The rows [prune] and [bulk_cleanup] may delete, apart from their age:
    archived ones (all rows when [archivedOnly] is off), of the project
    unless it is ['all']. *)
Definition in_scope (archivedOnly : bool) (p : arg string) (B : Type) (r : Row B) : bool :=
  (if archivedOnly then is_archived r else true)
  && (if scoped p then Sql.eq_text (project r) (bind p) else true).

(** The number of rows in the three archivable tables. *)
Definition archivable_rows (st : Store) : Z :=
  count (decisions st) + count (errors st) + count (learnings st).

(** [bulk_cleanup] visits table [t]: the type is absent, empty, ['all'] or
    the table's name. *)
Definition visited (t : table) (a : Args.t) : Prop :=
  or_str (Args.type a) "all" = "all" \/ or_str (Args.type a) "all" = table_name t.

(** Further properties of an argument map. *)
Definition with_category (v : arg string) (a : Args.t) : Args.t :=
  Args.mk (Args.project a) (Args.decision a) (Args.rationale a) (Args.date a) v
    (Args.search a) (Args.limit a) (Args.error_pattern a) (Args.solution a)
    (Args.context a) (Args.error a) (Args.key a) (Args.value a) (Args.content a)
    (Args.query a) (Args.workspace a) (Args.task a) (Args.status a) (Args.notes a)
    (Args.include_global a) (Args.type a) (Args.id a) (Args.priority a)
    (Args.days a) (Args.include_archived a) (Args.json_data a)
    (Args.older_than_days a) (Args.archived_only a).
Definition with_content (v : arg string) (a : Args.t) : Args.t :=
  Args.mk (Args.project a) (Args.decision a) (Args.rationale a) (Args.date a)
    (Args.category a) (Args.search a) (Args.limit a) (Args.error_pattern a)
    (Args.solution a) (Args.context a) (Args.error a) (Args.key a) (Args.value a) v
    (Args.query a) (Args.workspace a) (Args.task a) (Args.status a) (Args.notes a)
    (Args.include_global a) (Args.type a) (Args.id a) (Args.priority a)
    (Args.days a) (Args.include_archived a) (Args.json_data a)
    (Args.older_than_days a) (Args.archived_only a).
Definition with_status (v : arg string) (a : Args.t) : Args.t :=
  Args.mk (Args.project a) (Args.decision a) (Args.rationale a) (Args.date a)
    (Args.category a) (Args.search a) (Args.limit a) (Args.error_pattern a)
    (Args.solution a) (Args.context a) (Args.error a) (Args.key a) (Args.value a)
    (Args.content a) (Args.query a) (Args.workspace a) (Args.task a) v
    (Args.notes a) (Args.include_global a) (Args.type a) (Args.id a)
    (Args.priority a) (Args.days a) (Args.include_archived a) (Args.json_data a)
    (Args.older_than_days a) (Args.archived_only a).
Definition with_notes (v : arg string) (a : Args.t) : Args.t :=
  Args.mk (Args.project a) (Args.decision a) (Args.rationale a) (Args.date a)
    (Args.category a) (Args.search a) (Args.limit a) (Args.error_pattern a)
    (Args.solution a) (Args.context a) (Args.error a) (Args.key a) (Args.value a)
    (Args.content a) (Args.query a) (Args.workspace a) (Args.task a) (Args.status a)
    v (Args.include_global a) (Args.type a) (Args.id a) (Args.priority a)
    (Args.days a) (Args.include_archived a) (Args.json_data a)
    (Args.older_than_days a) (Args.archived_only a).
Definition with_older_than_days (v : arg Z) (a : Args.t) : Args.t :=
  Args.mk (Args.project a) (Args.decision a) (Args.rationale a) (Args.date a)
    (Args.category a) (Args.search a) (Args.limit a) (Args.error_pattern a)
    (Args.solution a) (Args.context a) (Args.error a) (Args.key a) (Args.value a)
    (Args.content a) (Args.query a) (Args.workspace a) (Args.task a) (Args.status a)
    (Args.notes a) (Args.include_global a) (Args.type a) (Args.id a)
    (Args.priority a) (Args.days a) (Args.include_archived a) (Args.json_data a) v
    (Args.archived_only a).
Definition with_archived_only (v : arg bool) (a : Args.t) : Args.t :=
  Args.mk (Args.project a) (Args.decision a) (Args.rationale a) (Args.date a)
    (Args.category a) (Args.search a) (Args.limit a) (Args.error_pattern a)
    (Args.solution a) (Args.context a) (Args.error a) (Args.key a) (Args.value a)
    (Args.content a) (Args.query a) (Args.workspace a) (Args.task a) (Args.status a)
    (Args.notes a) (Args.include_global a) (Args.type a) (Args.id a)
    (Args.priority a) (Args.days a) (Args.include_archived a) (Args.json_data a)
    (Args.older_than_days a) v.







(** The sessions that carry a workspace name. *)
Definition named (l : list Session.t) : list Session.t :=
  filter (fun s => match Session.workspace s with Some _ => true | None => false end) l.

(** At most one session per project and workspace name. *)
Definition named_unique (l : list Session.t) : Prop :=
  NoDup (map (fun s => (Session.project s, Session.workspace s)) (named l)).

(** The key of the sessions' UNIQUE(project, workspace) constraint. *)
Definition session_key (s : Session.t) : string * option string :=
  (Session.project s, Session.workspace s).

(** The id [i] of a table is hidden for good: it can no longer be handed
    out, and a row that carries it has [archived = 1]. *)
Definition rows_hidden {B : Type} (i seq : Z) (l : list (Row B)) : Prop :=
  i <= seq /\ forall r, In r l -> id r = i -> archived r = Some 1.

Definition hidden_for_good (t : table) (i : Z) (st : Store) : Prop :=
  match t with
  | Decisions => rows_hidden i (seq_decisions st) (decisions st)
  | Errors => rows_hidden i (seq_errors st) (errors st)
  | Learnings => rows_hidden i (seq_learnings st) (learnings st)
  end.

(** The ids of a table's rows. *)
Definition table_ids (t : table) (st : Store) : list Z :=
  match t with
  | Decisions => map id (decisions st)
  | Errors => map id (errors st)
  | Learnings => map id (learnings st)
  end.

(** The ids of the rows that the recall and list tools of a table select
    for the arguments [a]. *)
Definition listed (t : table) (a : Args.t) (st : Store) : list Z :=
  match t with
  | Decisions =>
      app (map id (recall_decisions_rows a st)) (map id (list_decisions_rows a st))
  | Errors => app (map id (find_solution_rows a st)) (map id (list_errors_rows a st))
  | Learnings => map id (recall_learnings_rows a st)
  end.

(** [p] sorts before [q] in [ORDER BY project]: NULL first, then the texts
    byte by byte. *)
Definition project_lt (p q : option string) : Prop :=
  Sql.cmp_null String.compare p q = Lt.

(** [p] is the project of a decision, of an error or of a context key, or
    the (non-NULL) project of a learning. *)
Definition has_project (p : option string) (st : Store) : Prop :=
  In p (map project (decisions st))
  \/ In p (map project (errors st))
  \/ In p (map (fun c => Some (Context.project c)) (context st))
  \/ (p <> None /\ In p (map project (learnings st))).

(** * Theorems *)

Example iso_example :
  Text.toISOString 1743595200123 = Some "2025-04-02T12:00:00.123Z".
Proof. vm_compute. reflexivity. Qed.

Example ts_example :
  Text.current_timestamp Sample.jan2_23h = "2025-01-02 23:00:00".
Proof. vm_compute. reflexivity. Qed.

Example like_example :
  Sql.like (Some "connect ECONNREFUSED 127.0.0.1") "%econn%" = true
  /\ Sql.like (Some "timeout") "%econn%" = false
  /\ Sql.like None "%" = false.
Proof. vm_compute. repeat split. Qed.

(** ** The end-to-end scenarios of the specification *)

Example scenario_remember_then_recall :
  let h := Sample.host Sample.jan2_23h in
  let st :=
    fst (handler h "remember_decision"
           (Some (Args.with_decision (val "Use SQLite")
                    (Args.with_rationale (val "simplicity") Sample.app))) empty_store) in
  snd (handler h "recall_decisions" (Some Sample.app) st)
  = "[2025-01-02] Use SQLite" ++ nl ++ "  Rationale: simplicity".
Proof. vm_compute. reflexivity. Qed.

Example scenario_find_solution_by_substring :
  let h := Sample.host Sample.jan2_23h in
  let st :=
    fst (handler h "remember_error"
           (Some (Args.with_error_pattern (val "ECONNREFUSED")
                    (Args.with_solution (val "start service") Sample.app))) empty_store) in
  snd (handler h "find_solution" (Some (Args.with_error (val "econn") Sample.app)) st)
  = "Error: ECONNREFUSED" ++ nl ++ "Solution: start service" ++ nl ++ "Context: N/A".
Proof. vm_compute. reflexivity. Qed.

Example scenario_workspaces_are_independent :
  let h := Sample.host Sample.apr2_12h in
  let save w task :=
    mkRequest h "save_session"
      (Some (Args.with_workspace (val w) (Args.with_task (val task) Sample.app))) in
  let st := run [save "w1" "T1"; save "w2" "T2"] empty_store in
  map Session.task (get_session_rows Sample.app st) = ["T1"; "T2"]
  /\ map Session.task
       (sessions
          (fst (handler h "clear_session" (Some (Args.with_workspace (val "w1") Sample.app))
                  st)))
     = ["T2"].
Proof. vm_compute. split; reflexivity. Qed.

Example scenario_prune_spares_live_rows :
  let h := Sample.host (Sample.apr2_12h + 2 * Text.ms_per_day) in
  let st := run [Sample.remember "kept"; Sample.archive_1] Sample.one_decision in
  map (fun r => (id r, archived r)) (decisions st) = [(1, Some 1); (2, Some 0)]
  /\ map id (decisions (fst (handler h "prune" (Some Sample.app) st))) = [2]
  /\ snd (handler h "prune" (Some Sample.app) st)
     = "Pruned 1 archived items older than 90 days".
Proof. vm_compute. repeat split. Qed.

Example recall_with_search_and_limit :
  map id (recall_decisions_rows (Args.with_limit (val 3) Sample.app) Sample.eleven_decisions)
  = [11; 10; 9]
  /\ map id (recall_decisions_rows (Args.with_limit (val (-1)) Sample.app)
               Sample.eleven_decisions)
     = [11; 10; 9; 8; 7; 6; 5; 4; 3; 2; 1]
  /\ map id (recall_decisions_rows (Args.with_search (val "01-1") Sample.app)
               Sample.eleven_decisions)
     = [11; 10].
Proof. vm_compute. repeat split. Qed.

(** ** The dispatch table *)

Section Switch.

Variable h : Host.

Lemma switch_export_memory args :
  switch h "export_memory" args = with_args args "include_archived" (export_memory h).
Proof. reflexivity. Qed.

Lemma switch_set_priority args :
  switch h "set_priority" args = with_args args "type" (set_priority h).
Proof. reflexivity. Qed.

Lemma switch_clear_session args :
  switch h "clear_session" args = with_args args "workspace" clear_session.
Proof. reflexivity. Qed.

Lemma switch_set_context args :
  switch h "set_context" args = with_args args "project" (set_context h).
Proof. reflexivity. Qed.




Lemma switch_list_decisions args :
  switch h "list_decisions" args = with_args args "project" list_decisions.
Proof. reflexivity. Qed.

Lemma switch_list_errors args :
  switch h "list_errors" args = with_args args "project" list_errors.
Proof. reflexivity. Qed.

Lemma switch_archive args :
  switch h "archive" args = with_args args "type" archive.
Proof. reflexivity. Qed.

End Switch.

(** ** Export *)

(** C1 (the code at its failing inputs): whatever the project, the
    arguments and the store, [export_memory] answers with an error text and
    never with a JSON document: building the exported object evaluates
    [getSession], which the 2.7.0 module does not declare, and the
    ReferenceError reaches the outer [catch]. *)
Theorem export_memory_is_error (h : Host) (a : Args.t) (st : Store) :
  handler h "export_memory" (Some a) st =
  (st, "Error: " ++ (if Z.abs (now h) <=? 8640000000000000
                     then "getSession is not defined" else "Invalid time value")).
Proof.
  unfold handler. rewrite switch_export_memory. unfold with_args, export_memory.
  unfold bindM, get_store, Text.toISOString.
  destruct (Z.abs (now h) <=? 8640000000000000); reflexivity.
Qed.

(** ** Priority *)

(** What the range check of [set_priority] does reject: a level below 0
    or above 2 gives the validation text and leaves the store as it was. *)
Lemma set_priority_out_of_range (h : Host) (a : Args.t) (st : Store) (t : table) (q : Q) :
  tableMap (Args.type a) = Own t ->
  Args.priority a = val q ->
  (q < 0 \/ 2 < q)%Q ->
  handler h "set_priority" (Some a) st =
  (st, "Invalid priority: " ++ num_text h q ++ ". Use 0 (normal), 1 (high), or 2 (critical)").
Proof.
  intros Ht Hq Hr. unfold handler. rewrite switch_set_priority.
  unfold with_args, set_priority. rewrite Ht, Hq.
  assert (Hout : out_of_range (val q) = true).
  { unfold out_of_range. apply orb_true_iff.
    destruct Hr as [Hr | Hr]; [left | right]; apply negb_true_iff;
      destruct (Qle_bool _ _) eqn:E; trivial; apply Qle_bool_iff in E;
      exfalso; revert E; apply Qlt_not_le; exact Hr. }
  rewrite Hout. reflexivity.
Qed.

(** C3 (the code at a failing input): level 1.5 passes the check
    [priority < 0 || priority > 2]; the decision's stored priority becomes
    1.5 and the text reports success with the label [undefined]. *)
Theorem set_priority_accepts_one_and_a_half :
  let a := Args.with_priority (val (3 # 2)%Q)
             (Args.with_type (val "decision") (Args.with_id (val 1) Args.none)) in
  map priority (decisions Sample.one_decision) = [Some 0%Q]
  /\ snd (handler (Sample.host Sample.jan2_23h) "set_priority" (Some a) Sample.one_decision)
     = "Set decision #1 priority to undefined (1.5)"
  /\ map priority
       (decisions
          (fst (handler (Sample.host Sample.jan2_23h) "set_priority" (Some a)
                  Sample.one_decision)))
     = [Some (3 # 2)%Q].
Proof. vm_compute. repeat split. Qed.

(** ** Sessions *)

(** C6 (the code at a failing input): two [save_session] calls for the
    same project without a workspace leave two session rows for the pair
    (app, NULL): the second call inserts instead of overwriting, because the
    UNIQUE index never sees two NULL workspaces as equal. *)
Theorem save_session_twice_default_workspace :
  let save task :=
    mkRequest (Sample.host Sample.apr2_12h) "save_session"
      (Some (Args.with_task (val task) Sample.app)) in
  map (fun s => (Session.project s, Session.workspace s, Session.task s))
    (sessions (run [save "T1"; save "T2"] empty_store))
  = [("app", None, "T1"); ("app", None, "T2")].
Proof. vm_compute. reflexivity. Qed.

(** With a named workspace the second call does overwrite. *)
Example save_session_twice_named_workspace :
  let save task :=
    mkRequest (Sample.host Sample.apr2_12h) "save_session"
      (Some (Args.with_workspace (val "w1") (Args.with_task (val task) Sample.app))) in
  map (fun s => (Session.project s, Session.workspace s, Session.task s))
    (sessions (run [save "T1"; save "T2"] empty_store))
  = [("app", Some "w1", "T2")].
Proof. vm_compute. reflexivity. Qed.

(** ** Prune *)

(** C8 (the code at a failing input): a decision stored on 2025-01-02 at
    23:00 UTC and archived is 89 days and 13 hours old on 2025-04-02 at 12:00
    UTC, yet [prune] with 90 days deletes it: [created_at] holds
    [2025-01-02 23:00:00], the cutoff is the text [2025-01-02T12:00:00.000Z],
    and the comparison is on text, where the space sorts before [T]. *)
Theorem prune_deletes_row_younger_than_cutoff :
  let st := run [Sample.archive_1] Sample.one_decision in
  let h := Sample.host Sample.apr2_12h in
  let a := Args.with_days (val 90) Sample.app in
  map (fun r => (id r, created_at r, archived r)) (decisions st)
    = [(1, Some "2025-01-02 23:00:00", Some 1)]
  /\ Text.toISOString (now h - 90 * 24 * 60 * 60 * 1000) = Some "2025-01-02T12:00:00.000Z"
  /\ now h - 90 * 24 * 60 * 60 * 1000 < Sample.jan2_23h
  /\ snd (handler h "prune" (Some a) st) = "Pruned 1 archived items older than 90 days"
  /\ decisions (fst (handler h "prune" (Some a) st)) = [].
Proof. vm_compute. repeat split. Qed.

(** One day earlier the cutoff falls on 2025-01-01 and the row is kept. *)
Example prune_keeps_row_of_later_day :
  let st := run [Sample.archive_1] Sample.one_decision in
  let h := Sample.host (Sample.apr2_12h - Text.ms_per_day) in
  handler h "prune" (Some (Args.with_days (val 90) Sample.app)) st
  = (st, "Pruned 0 archived items older than 90 days").
Proof. vm_compute. reflexivity. Qed.

Lemma session_at_spec (P : string) (w : option string) (s : Session.t) :
  session_at (Some P) w s = (Session.project s =? P)%string && ws_eqb (Session.workspace s) w.
Proof.
  unfold session_at, Sql.eq_text, ws_eqb.
  destruct (Session.workspace s), w; simpl;
    try rewrite orb_false_r; try reflexivity.
Qed.

Lemma filter_ext_eq {A : Type} (f g : A -> bool) (l : list A) :
  (forall x, f x = g x) -> filter f l = filter g l.
Proof. intros E. apply filter_ext. exact E. Qed.

(** C10: without a workspace argument [clear_session] deletes every
    session row of the project, whatever its workspace, keeps every other
    row of every table, and reports the number of rows deleted, or
    [No sessions to clear] when the project had none; with a workspace
    argument (a name, or [null] for the default workspace) it deletes the
    rows of that one workspace of the project and no other. *)
Theorem clear_session_scope (h : Host) (a : Args.t) (st : Store) (P : string) :
  Args.project a = val P ->
  let st' := fst (handler h "clear_session" (Some a) st) in
  let text := snd (handler h "clear_session" (Some a) st) in
  let mine := filter (fun s => (Session.project s =? P)%string) (sessions st) in
  same_but_sessions st st'
  /\ match Args.workspace a with
     | undefined =>
         sessions st' = filter (fun s => negb (Session.project s =? P)%string) (sessions st)
         /\ text = match mine with
                   | [] => "No sessions to clear"
                   | _ => "All sessions cleared for " ++ P ++ " ("
                          ++ Text.of_Z (count mine) ++ " session(s))"
                   end
     | w =>
         sessions st'
         = filter (fun s => negb ((Session.project s =? P)%string
                                  && ws_eqb (Session.workspace s) (bind w))) (sessions st)
     end.
Proof.
  intros HP. unfold handler. rewrite switch_clear_session.
  unfold with_args, clear_session. rewrite HP.
  destruct (Args.workspace a) as [ | | w]; cbn [bind tmpl].
  - unfold bindM, deleteSessionsOfProject, delete_where, ret, Sql.eq_text.
    cbn [fst snd]. split; [repeat split | split; [reflexivity | ]].
    unfold count.
    destruct (filter _ (sessions st)) as [ | s l] eqn:E.
    + reflexivity.
    + assert (G : (Z.of_nat (List.length (s :: l)) >? 0) = true)
        by (apply Z.gtb_lt; cbn [List.length]; lia).
      rewrite G. reflexivity.
  - unfold bindM, deleteSessionWithWorkspace, delete_where, ret.
    cbn [fst snd]. split; [repeat split | ].
    cbn [sessions upd_sessions].
    apply filter_ext_eq; intros s; now rewrite session_at_spec.
  - unfold bindM, deleteSessionWithWorkspace, delete_where, ret.
    cbn [fst snd]. split; [repeat split | ].
    cbn [sessions upd_sessions].
    apply filter_ext_eq; intros s; now rewrite session_at_spec.
Qed.

Lemma clear_session_scope_witness :
  let st' := fst (handler (Sample.host Sample.apr2_12h) "clear_session"
                    (Some Sample.app) three_sessions) in
  map Session.id (sessions three_sessions) = [1; 2; 3]
  /\ map Session.id (sessions st') = [3]
  /\ snd (handler (Sample.host Sample.apr2_12h) "clear_session" (Some Sample.app)
            three_sessions) = "All sessions cleared for app (2 session(s))".
Proof.
  pose proof (clear_session_scope (Sample.host Sample.apr2_12h) Sample.app
                three_sessions "app" eq_refl) as H.
  cbv zeta in H. destruct H as [_ H].
  change (Args.workspace Sample.app) with (@undefined string) in H.
  destruct H as [Hs Ht].
  split; [reflexivity | split].
  - rewrite Hs. reflexivity.
  - rewrite Ht. reflexivity.
Defined.

(** ** The outer boundary *)

Lemma find_case_none (h : Host) (name : string)
  (l : list (string * (option Args.t -> M string))) :
  existsb (String.eqb name) (map fst l) = false -> find_case name l = None.
Proof.
  induction l as [ | [n f] l IH]; cbn [find_case map fst existsb]; intros E.
  - reflexivity.
  - apply orb_false_iff in E. destruct E as [E1 E2].
    rewrite String.eqb_sym in E1. rewrite E1. now apply IH.
Qed.

(** C9: for every tool name, argument map (or none) and store, the
    handler yields a text: the text the case returned when it returned, the
    text [Error: ] followed by the message when the case threw, in both
    cases with the store as the case left it; and a name outside the 26
    cases yields [Unknown tool: name] and an unchanged store.  A request
    without arguments and a NULL project are two exceptions that reach the
    boundary this way. *)
Theorem handler_returns_text (h : Host) (name : string) (args : option Args.t) (st : Store) :
  (exists text st',
     handler h name args st = (st', text)
     /\ match switch h name args st with
        | (Ok t, s1) => text = t /\ st' = s1
        | (Throw message, s1) => text = "Error: " ++ message /\ st' = s1
        end)
  /\ (if existsb (String.eqb name) (map fst (cases h)) then True
      else handler h name args st = (st, "Unknown tool: " ++ name))
  /\ handler h "remember_decision" None st
     = (st, "Error: Cannot read properties of undefined (reading 'date')")
  /\ handler h "remember_decision"
       (Some (Args.with_project null (Args.with_decision null Args.none))) st
     = (st, "Error: NOT NULL constraint failed: decisions.project").
Proof.
  split; [ | split; [ | split]].
  - unfold handler. destruct (switch h name args st) as [[t | m] s1].
    + exists t, s1. auto.
    + exists ("Error: " ++ m), s1. auto.
  - destruct (existsb _ _) eqn:E; [exact I | ].
    unfold handler, switch. rewrite (find_case_none h _ _ E). reflexivity.
  - reflexivity.
  - reflexivity.
Qed.

(** ** Tiers *)




(** ** Context *)

Lemma same_key_spec (P k : string) (c : Context.t) :
  same_key P k c = true <-> context_key c = (P, k).
Proof.
  unfold same_key, context_key. rewrite andb_true_iff, !String.eqb_eq.
  split; [intros [-> ->]; reflexivity | intros E; injection E; auto].
Qed.

Lemma filter_none {A : Type} (f : A -> bool) (l : list A) :
  existsb f l = false -> filter f l = [].
Proof.
  induction l as [ | x l IH]; cbn [existsb filter]; intros E; trivial.
  apply orb_false_iff in E. destruct E as [E1 E2]. rewrite E1. auto.
Qed.

Lemma unique_key_once (P k : string) (l : list Context.t) :
  context_unique l -> existsb (same_key P k) l = true ->
  exists c, filter (same_key P k) l = [c].
Proof.
  unfold context_unique.
  induction l as [ | x l IH]; cbn [existsb filter map]; intros U E; [discriminate | ].
  inversion U as [ | ? ? Hx Hl]; subst.
  destruct (same_key P k x) eqn:Ex.
  - exists x. f_equal. apply filter_none.
    destruct (existsb (same_key P k) l) eqn:El; trivial.
    apply existsb_exists in El. destruct El as (y & Hy & Ey).
    exfalso. apply Hx. apply same_key_spec in Ex. apply same_key_spec in Ey.
    fold (context_key x). rewrite Ex, <- Ey.
    apply (in_map context_key). exact Hy.
  - cbn [orb] in E. apply IH; assumption.
Qed.

Lemma NoDup_snoc {A : Type} (l : list A) (x : A) :
  NoDup l -> ~ In x l -> NoDup (l ++ [x])%list.
Proof.
  induction l as [ | y l IH]; cbn [app]; intros U N.
  - constructor; [intros [] | constructor].
  - inversion U as [ | ? ? Hy Hl]; subst. constructor.
    + intros Hin. apply in_app_or in Hin. destruct Hin as [Hin | [-> | []]].
      * now apply Hy.
      * apply N. now left.
    + apply IH; trivial. intros Hin. apply N. now right.
Qed.

Section Upsert.

Variables (h : Host) (P k v : string) (st : Store).

Let st' : Store := snd (upsertContext h (Some P) (Some k) (Some v) st).

Let upd (c : Context.t) : Context.t :=
  if same_key P k c
  then Context.mk (Context.id c) (Context.project c) (Context.key c) v
         (CURRENT_TIMESTAMP h) (Context.synced_at c)
  else c.

Lemma upd_key c : context_key (upd c) = context_key c.
Proof. unfold upd. destruct (same_key P k c); reflexivity. Qed.

Lemma upsertContext_ok : fst (upsertContext h (Some P) (Some k) (Some v) st) = Ok tt.
Proof. unfold upsertContext. destruct (existsb _ _); reflexivity. Qed.

Lemma upsertContext_context :
  context st' = if existsb (same_key P k) (context st)
                then map upd (context st)
                else app (context st)
                       [Context.mk (Sql.next_id (seq_context st) (map Context.id (context st)))
                          P k v (CURRENT_TIMESTAMP h) None].
Proof.
  unfold st', upsertContext. destruct (existsb _ _); reflexivity.
Qed.

Lemma upsertContext_frame :
  decisions st' = decisions st /\ errors st' = errors st
  /\ learnings st' = learnings st /\ sessions st' = sessions st
  /\ seq_decisions st' = seq_decisions st /\ seq_errors st' = seq_errors st
  /\ seq_learnings st' = seq_learnings st.
Proof.
  unfold st', upsertContext. destruct (existsb _ _); repeat split.
Qed.

Lemma filter_map_upd (f : Context.t -> bool) (l : list Context.t) :
  (forall c, f (upd c) = f c) -> filter f (map upd l) = map upd (filter f l).
Proof.
  intros E. induction l as [ | x l IH]; cbn [map filter]; trivial.
  rewrite E. destruct (f x); cbn [map]; now rewrite IH.
Qed.

Lemma same_key_upd (P' k' : string) c : same_key P' k' (upd c) = same_key P' k' c.
Proof. unfold upd. destruct (same_key P k c); reflexivity. Qed.

(** After the upsert exactly one row carries the key, with the new value
    and the timestamp of the call. *)
Lemma upsertContext_one_row :
  context_unique (context st) ->
  exists c, filter (same_key P k) (context st') = [c]
            /\ Context.value c = v /\ Context.updated_at c = CURRENT_TIMESTAMP h.
Proof.
  intros U. rewrite upsertContext_context.
  destruct (existsb (same_key P k) (context st)) eqn:E.
  - destruct (unique_key_once P k _ U E) as (c & Hc).
    rewrite filter_map_upd by apply same_key_upd. rewrite Hc. cbn [map].
    assert (Ec : same_key P k c = true).
    { assert (Hin : In c (filter (same_key P k) (context st))) by (rewrite Hc; now left).
      apply filter_In in Hin. tauto. }
    exists (upd c). unfold upd. rewrite Ec. repeat split.
  - rewrite filter_app, (filter_none _ _ E). cbn [filter app].
    assert (Ek : same_key P k
                   (Context.mk (Sql.next_id (seq_context st) (map Context.id (context st)))
                      P k v (CURRENT_TIMESTAMP h) None) = true).
    { apply same_key_spec. reflexivity. }
    rewrite Ek. eexists. repeat split.
Qed.

(** Rows under other keys are left as they were. *)
Lemma upsertContext_other_rows :
  filter (fun c => negb (same_key P k c)) (context st')
  = filter (fun c => negb (same_key P k c)) (context st).
Proof.
  rewrite upsertContext_context.
  destruct (existsb (same_key P k) (context st)) eqn:E.
  - induction (context st) as [ | x l IH]; cbn [map filter]; trivial.
    rewrite same_key_upd.
    cbn [existsb] in E.
    destruct (same_key P k x) eqn:Ex; cbn [negb].
    + destruct (existsb (same_key P k) l) eqn:El; [now apply IH | ].
      clear IH. induction l as [ | y l IH]; cbn [map filter]; trivial.
      cbn [existsb] in El. apply orb_false_iff in El. destruct El as [Ey El].
      rewrite same_key_upd, Ey. cbn [negb]. f_equal; [ | now apply IH].
      unfold upd. now rewrite Ey.
    + cbn [orb] in E. f_equal; [ | now apply IH].
      unfold upd. now rewrite Ex.
  - rewrite filter_app. cbn [filter].
    replace (same_key P k _) with true by (symmetry; apply same_key_spec; reflexivity).
    cbn [negb]. apply app_nil_r.
Qed.

Lemma upsertContext_unique :
  context_unique (context st) -> context_unique (context st').
Proof.
  unfold context_unique. fold context_key. intros U. rewrite upsertContext_context.
  destruct (existsb (same_key P k) (context st)) eqn:E.
  - rewrite map_map.
    rewrite (map_ext (fun c => context_key (upd c)) context_key upd_key). exact U.
  - rewrite map_app. cbn [map]. apply NoDup_snoc; trivial.
    intros Hin. apply in_map_iff in Hin. destruct Hin as (c & Hc & Hin).
    assert (X : existsb (same_key P k) (context st) = true).
    { apply existsb_exists. exists c. split; trivial. now apply same_key_spec. }
    congruence.
Qed.

End Upsert.

Lemma set_context_run (h : Host) (a : Args.t) (st : Store) (P k v : string) :
  Args.project a = val P -> Args.key a = val k -> Args.value a = val v ->
  handler h "set_context" (Some a) st
  = (snd (upsertContext h (Some P) (Some k) (Some v) st),
     "Context " ++ k ++ " set for " ++ P ++ synced h).
Proof.
  intros HP Hk Hv. unfold handler. rewrite switch_set_context.
  unfold with_args, set_context, bindM. rewrite HP, Hk, Hv. cbn [bind tmpl].
  pose proof (upsertContext_ok h P k v st) as Hok.
  destruct (upsertContext h (Some P) (Some k) (Some v) st) as [[[] | m] s1];
    cbn [fst] in Hok; [reflexivity | discriminate].
Qed.

(** C5: [set_context(P, k, v1)] followed by [set_context(P, k, v2)]
    leaves exactly one context row for (P, k); its value is [v2] and its
    [updated_at] is the timestamp of the second call; both calls answer with
    the confirmation text, never an error; rows under other keys keep their
    content, and the table stays unique on (project, key). *)
Theorem set_context_twice (h1 h2 : Host) (a1 a2 : Args.t) (st : Store) (P k v1 v2 : string) :
  context_unique (context st) ->
  Args.project a1 = val P -> Args.key a1 = val k -> Args.value a1 = val v1 ->
  Args.project a2 = val P -> Args.key a2 = val k -> Args.value a2 = val v2 ->
  let r1 := handler h1 "set_context" (Some a1) st in
  let r2 := handler h2 "set_context" (Some a2) (fst r1) in
  (exists c,
     filter (same_key P k) (context (fst r2)) = [c]
     /\ Context.value c = v2
     /\ Context.updated_at c = Some (Text.current_timestamp (now h2)))
  /\ snd r1 = "Context " ++ k ++ " set for " ++ P ++ synced h1
  /\ snd r2 = "Context " ++ k ++ " set for " ++ P ++ synced h2
  /\ filter (fun c => negb (same_key P k c)) (context (fst r2))
     = filter (fun c => negb (same_key P k c)) (context st)
  /\ context_unique (context (fst r2)).
Proof.
  intros U P1 K1 V1 P2 K2 V2 r1 r2. unfold r2, r1.
  rewrite (set_context_run h1 a1 st P k v1 P1 K1 V1). cbn [fst snd].
  rewrite (set_context_run h2 a2 _ P k v2 P2 K2 V2). cbn [fst snd].
  pose proof (upsertContext_unique h1 P k v1 st U) as U1.
  split; [ | split; [reflexivity | split; [reflexivity | split]]].
  - exact (upsertContext_one_row h2 P k v2 _ U1).
  - now rewrite !upsertContext_other_rows.
  - now apply upsertContext_unique.
Qed.

Lemma set_context_twice_witness :
  let h1 := Sample.host Sample.jan2_23h in
  let h2 := Sample.host Sample.apr2_12h in
  let a v := Args.with_key (val "sdk") (Args.with_value (val v) Sample.app) in
  let st2 := fst (handler h2 "set_context" (Some (a "v2"))
                    (fst (handler h1 "set_context" (Some (a "v1")) empty_store))) in
  exists c, filter (same_key "app" "sdk") (context st2) = [c]
            /\ Context.value c = "v2"
            /\ Context.updated_at c = Some "2025-04-02 12:00:00".
Proof.
  intros h1 h2 a st2.
  assert (U : context_unique (context empty_store)) by constructor.
  destruct (set_context_twice h1 h2 (a "v1") (a "v2") empty_store "app" "sdk" "v1" "v2"
              U eq_refl eq_refl eq_refl eq_refl eq_refl eq_refl) as (H & _).
  exact H.
Defined.

(** ** ORDER BY and LIMIT *)

Section OrderBy.

Context {R : Type} (le : R -> R -> bool).

Lemma insert_by_perm (x : R) (l : list R) : Permutation (Sql.insert_by le x l) (x :: l).
Proof.
  induction l as [ | y l IH]; cbn [Sql.insert_by]; [reflexivity | ].
  destruct (le x y); [reflexivity | ].
  rewrite IH. apply perm_swap.
Qed.

Lemma order_by_perm (l : list R) : Permutation (Sql.order_by le l) l.
Proof.
  induction l as [ | x l IH]; cbn; [constructor | ].
  fold (Sql.order_by le l). rewrite insert_by_perm. now constructor.
Qed.

Lemma order_by_In (x : R) (l : list R) : In x (Sql.order_by le l) <-> In x l.
Proof.
  split; apply Permutation_in; [ | symmetry]; apply order_by_perm.
Qed.

Lemma limit_split (n : Z) (l : list R) :
  exists rest, l = (Sql.limit n l ++ rest)%list
               /\ (rest <> [] -> 0 <= n /\ List.length (Sql.limit n l) = Z.to_nat n).
Proof.
  unfold Sql.limit. destruct (n <? 0) eqn:E.
  - exists []. split; [now rewrite app_nil_r | congruence].
  - exists (skipn (Z.to_nat n) l). split; [now rewrite firstn_skipn | ].
    intros Hne. apply Z.ltb_ge in E. split; trivial.
    apply firstn_length_le.
    destruct (Nat.le_gt_cases (Z.to_nat n) (List.length l)) as [Hle | Hgt]; trivial.
    exfalso. apply Hne. apply skipn_all2. lia.
Qed.

Lemma limit_In (n : Z) (x : R) (l : list R) : In x (Sql.limit n l) -> In x l.
Proof.
  destruct (limit_split n l) as (rest & E & _). intros H.
  rewrite E. apply in_or_app. now left.
Qed.


(** The sorter orders any two rows of its result when the comparison is
    total and transitive. *)
Hypothesis le_total : forall x y, le x y = true \/ le y x = true.
Hypothesis le_trans : forall x y z, le x y = true -> le y z = true -> le x z = true.





End OrderBy.

(** ** The sort keys are total orders *)

Section OrderLike.

Context {A : Type} (cmp : A -> A -> comparison) (O : order_like cmp).




Lemma cmp_null_order : order_like (Sql.cmp_null cmp).
Proof.
  constructor.
  - intros [x | ] [y | ]; cbn; trivial. apply (ol_antisym _ O).
  - intros [x | ] [y | ] [z | ]; cbn; trivial; try discriminate.
    apply (ol_lt_trans _ O).
  - intros [x | ] [y | ] [z | ]; cbn; trivial; try discriminate.
    apply (ol_eq_l _ O).
Qed.

End OrderLike.


Lemma ascii_compare_order : order_like Ascii.compare.
Proof.
  constructor.
  - intros x y. apply Ascii.compare_antisym.
  - intros x y z. unfold Ascii.compare. rewrite !N.compare_lt_iff. apply N.lt_trans.
  - intros x y z E. apply Ascii.compare_eq_iff in E. now subst.
Qed.

Lemma string_compare_order : order_like String.compare.
Proof.
  constructor.
  - intros x y. apply String.compare_antisym.
  - intros x. induction x as [ | a x IH]; intros [ | b y] [ | c z]; cbn;
      trivial; try discriminate.
    destruct (Ascii.compare a b) eqn:Eab; try discriminate.
    + apply Ascii.compare_eq_iff in Eab. subst b.
      destruct (Ascii.compare a c); trivial. apply IH.
    + intros _. destruct (Ascii.compare b c) eqn:Ebc; try discriminate.
      * apply Ascii.compare_eq_iff in Ebc. subst c. now rewrite Eab.
      * intros _. now rewrite (ol_lt_trans _ ascii_compare_order a b c Eab Ebc).
  - intros x y z E. apply String.compare_eq_iff in E. now subst.
Qed.

Section Desc.

Context {R : Type} (k1 : R -> option Q) (k2 : R -> option string).





End Desc.

(** ** Access tracking *)

Section Tracking.

Variable h : Host.
Context {B : Type}.


Lemma NoDup_map_inj (l : list (Row B)) (x y : Row B) :
  NoDup (map id l) -> In x l -> In y l -> id x = id y -> x = y.
Proof.
  induction l as [ | z l IH]; cbn [map]; intros U Hx Hy E; [destruct Hx | ].
  inversion U as [ | ? ? Hz Hl]; subst.
  destruct Hx as [-> | Hx], Hy as [-> | Hy]; trivial.
  - exfalso. apply Hz. rewrite E. now apply in_map.
  - exfalso. apply Hz. rewrite <- E. now apply in_map.
  - now apply IH.
Qed.


Lemma NoDup_map_filter (f : Row B -> bool) (l : list (Row B)) :
  NoDup (map id l) -> NoDup (map id (filter f l)).
Proof.
  induction l as [ | x l IH]; cbn [map filter]; intros U; trivial.
  inversion U as [ | ? ? Hx Hl]; subst. destruct (f x); cbn [map]; auto.
  constructor; auto. intros Hin. apply Hx.
  apply in_map_iff in Hin. destruct Hin as (y & Ey & Hy).
  apply filter_In in Hy. rewrite <- Ey. apply in_map. tauto.
Qed.

(** Every SELECT of the handler is a filter, a sort and an optional limit. *)
Lemma query_NoDup (le : Row B -> Row B -> bool) (f : Row B -> bool) (n : Z)
  (l : list (Row B)) :
  NoDup (map id l) ->
  NoDup (map id (Sql.order_by le (filter f l)))
  /\ NoDup (map id (Sql.limit n (Sql.order_by le (filter f l)))).
Proof.
  intros U.
  assert (S : NoDup (map id (Sql.order_by le (filter f l)))).
  { eapply Permutation_NoDup; [ | apply (NoDup_map_filter f l U)].
    apply Permutation_map. symmetry. apply order_by_perm. }
  split; trivial.
  destruct (limit_split n (Sql.order_by le (filter f l))) as (rest & E & _).
  rewrite E, map_app in S. now apply NoDup_app_remove_r in S.
Qed.


End Tracking.











(** A concrete store is well formed by evaluation. *)
Ltac wf_by_evaluation :=
  constructor; [split | split | split | ]; vm_compute;
  repeat (constructor; try tauto);
  try (let X := fresh in intro X; first [discriminate X | tauto | intuition discriminate]).

Lemma wf_empty : wf empty_store.
Proof. wf_by_evaluation. Defined.

Lemma wf_one_decision : wf Sample.one_decision.
Proof. wf_by_evaluation. Defined.


(** ** Invariants of the store across requests *)

Section Keeps.

Variable P : Store -> Prop.

Lemma keeps_ret {A : Type} (a : A) : keeps P (ret a).
Proof. intros st H. exact H. Qed.

Lemma keeps_throw {A : Type} (msg : string) : keeps P (@throw A msg).
Proof. intros st H. exact H. Qed.

Lemma keeps_get_store : keeps P get_store.
Proof. intros st H. exact H. Qed.

Lemma keeps_bind {A B : Type} (m : M A) (k : A -> M B) :
  keeps P m -> (forall a, keeps P (k a)) -> keeps P (bindM m k).
Proof.
  intros Hm Hk st H. unfold bindM. specialize (Hm st H).
  destruct (m st) as [[a | e] st1]; cbn [snd] in *; [now apply Hk | exact Hm].
Qed.

Lemma keeps_try {A : Type} (m : M A) (c : string -> M A) :
  keeps P m -> (forall e, keeps P (c e)) -> keeps P (try_catch m c).
Proof.
  intros Hm Hc st H. unfold try_catch. specialize (Hm st H).
  destruct (m st) as [[a | e] st1]; cbn [snd] in *; [exact Hm | now apply Hc].
Qed.

Lemma keeps_forEach {A : Type} (f : A -> M unit) (l : list A) :
  (forall x, keeps P (f x)) -> keeps P (forEach f l).
Proof.
  intros Hf. induction l as [ | x l IH]; cbn [forEach].
  - apply keeps_ret.
  - apply keeps_bind; [apply Hf | intros _; exact IH].
Qed.

Lemma keeps_import_each {A B : Type} (f : A -> M B) (l : list A) :
  (forall x, keeps P (f x)) -> keeps P (import_each f l).
Proof.
  intros Hf. induction l as [ | x l IH]; cbn [import_each].
  - apply keeps_ret.
  - apply keeps_bind.
    + apply keeps_try.
      * apply keeps_bind; [apply Hf | intros _; apply keeps_ret].
      * intros _. apply keeps_ret.
    + intros k. apply keeps_bind; [exact IH | intros n; apply keeps_ret].
Qed.

Lemma keeps_import_all {A B : Type} (f : A -> M B) (l : list A) :
  (forall x, keeps P (f x)) -> keeps P (import_all f l).
Proof.
  intros Hf. induction l as [ | x l IH]; cbn [import_all].
  - apply keeps_ret.
  - apply keeps_bind; [apply Hf | intros _].
    apply keeps_bind; [exact IH | intros n; apply keeps_ret].
Qed.

Lemma keeps_if_present {A : Type} (o : option (list A)) (f : list A -> M Z) :
  (forall l, keeps P (f l)) -> keeps P (if_present o f).
Proof. intros Hf. destruct o; cbn; [apply Hf | apply keeps_ret]. Qed.

Lemma keeps_delete_each (tables : list table) (f : forall B : Type, Row B -> bool) :
  (forall t, keeps P (delete_table t f)) -> keeps P (delete_each tables f).
Proof.
  intros Hf. induction tables as [ | t l IH]; cbn [delete_each].
  - apply keeps_ret.
  - apply keeps_bind; [apply Hf | intros n].
    apply keeps_bind; [exact IH | intros k; apply keeps_ret].
Qed.

Lemma keeps_with_args (args : option Args.t) (p : string) (k : Args.t -> M string) :
  (forall a, keeps P (k a)) -> keeps P (with_args args p k).
Proof. intros Hk. destruct args; cbn; [apply Hk | apply keeps_throw]. Qed.

End Keeps.

(** *** Rowids under the statements *)

Lemma max_ge_seq (seq : Z) (ids : list Z) : seq <= fold_right Z.max seq ids.
Proof. induction ids as [ | i ids IH]; cbn [fold_right]; lia. Qed.

Lemma max_ge_ids (seq : Z) (ids : list Z) (i : Z) :
  In i ids -> i <= fold_right Z.max seq ids.
Proof.
  induction ids as [ | j ids IH]; cbn [fold_right]; [intros [] | intros [-> | H]]; try lia.
  specialize (IH H). lia.
Qed.

Section Ids.

Context {R : Type} (rid : R -> Z).

Lemma ids_ok_map (seq : Z) (f : R -> R) (l : list R) :
  (forall r, rid (f r) = rid r) -> ids_ok rid seq l -> ids_ok rid seq (map f l).
Proof.
  intros E [U F]. split.
  - rewrite map_map. now rewrite (map_ext _ rid E).
  - apply Forall_map. eapply Forall_impl; [ | exact F]. intros r Hr. cbn beta.
    now rewrite E.
Qed.

Lemma ids_ok_filter (seq : Z) (f : R -> bool) (l : list R) :
  ids_ok rid seq l -> ids_ok rid seq (filter f l).
Proof.
  intros [U F]. split.
  - clear F. induction l as [ | x l IH]; cbn [map filter]; trivial.
    inversion U as [ | ? ? Hx Hl]; subst. destruct (f x); cbn [map]; auto.
    constructor; auto. intros Hin. apply Hx.
    apply in_map_iff in Hin. destruct Hin as (y & Ey & Hy).
    apply filter_In in Hy. rewrite <- Ey. apply in_map. tauto.
  - rewrite Forall_forall in *. intros r Hr. apply filter_In in Hr. apply F. tauto.
Qed.

Lemma ids_ok_insert (seq : Z) (l : list R) (x : R) :
  ids_ok rid seq l -> rid x = Sql.next_id seq (map rid l) ->
  ids_ok rid (rid x) (l ++ [x])%list.
Proof.
  intros [U F] E. unfold Sql.next_id in E. split.
  - rewrite map_app. cbn [map]. apply NoDup_snoc; trivial.
    intros Hin. apply (max_ge_ids seq) in Hin. lia.
  - apply Forall_app. split.
    + rewrite Forall_forall in *. intros r Hr.
      pose proof (max_ge_ids seq _ _ (in_map rid _ _ Hr)). lia.
    + constructor; [lia | constructor].
Qed.

End Ids.

Lemma next_id_gt (seq : Z) (ids : list Z) : seq < Sql.next_id seq ids.
Proof. unfold Sql.next_id. pose proof (max_ge_seq seq ids). lia. Qed.

Lemma NoDup_map_filter_gen {A K : Type} (key : A -> K) (f : A -> bool) (l : list A) :
  NoDup (map key l) -> NoDup (map key (filter f l)).
Proof.
  induction l as [ | x l IH]; cbn [map filter]; intros U; trivial.
  inversion U as [ | ? ? Hx Hl]; subst. destruct (f x); cbn [map]; auto.
  constructor; auto. intros Hin. apply Hx.
  apply in_map_iff in Hin. destruct Hin as (y & Ey & Hy).
  apply filter_In in Hy. rewrite <- Ey. apply in_map. tauto.
Qed.

Lemma archived_map {B : Type} (f : Row B -> Row B) (i : Z) (l : list (Row B)) :
  (forall r, id (f r) = id r /\ (archived r = Some 1 -> archived (f r) = Some 1)) ->
  (forall r, In r l -> id r = i -> archived r = Some 1) ->
  forall r, In r (map f l) -> id r = i -> archived r = Some 1.
Proof.
  intros Hf H r Hr E. apply in_map_iff in Hr. destruct Hr as (r0 & <- & Hr0).
  destruct (Hf r0) as [E0 A0]. apply A0. apply H; trivial. congruence.
Qed.

Section Statements_keep.

Variables (h : Host) (g : option Z).

Lemma keeps_insertDecision params : keeps (inv g) (insertDecision h params).
Proof.
  intros st [W G]. unfold insertDecision, arity_error.
  destruct params as [ | p [ | d [ | dec [ | rat [ | cat [ | x params]]]]]];
    try (cbn; now split).
  destruct p as [p | ]; [ | now split].
  destruct d as [d | ]; [ | now split].
  destruct dec as [dec | ]; [ | now split].
  cbn [snd]. destruct W as [Wd We Wl Wc]. split.
  - constructor; cbn; trivial.
    apply (ids_ok_insert id (seq_decisions st) (decisions st)
             (new_row h (Sql.next_id (seq_decisions st) (map id (decisions st)))
                (Some p) (Decision.mk d dec rat cat))); trivial.
  - destruct g as [i | ]; trivial. destruct G as [Gi Ga].
    pose proof (next_id_gt (seq_decisions st) (map id (decisions st))) as Hn.
    split; cbn; [lia | ].
    intros r Hr E. apply in_app_or in Hr. destruct Hr as [Hr | [<- | []]].
    + now apply Ga.
    + cbn in E. lia.
Qed.

Lemma keeps_insertError params : keeps (inv g) (insertError h params).
Proof.
  intros st [W G]. unfold insertError, arity_error.
  destruct params as [ | p [ | d [ | dec [ | rat [ | cat [ | x params]]]]]];
    try (cbn; now split).
  destruct p as [p | ]; [ | now split].
  destruct d as [d | ]; [ | now split].
  destruct dec as [dec | ]; [ | now split].
  cbn [snd]. destruct W as [Wd We Wl Wc]. split; [ | exact G].
  constructor; cbn; trivial.
  apply (ids_ok_insert id (seq_errors st) (errors st)
           (new_row h (Sql.next_id (seq_errors st) (map id (errors st)))
              (Some p) (Error.mk d dec rat cat))); trivial.
Qed.

Lemma keeps_insertLearning p cat c : keeps (inv g) (insertLearning h p cat c).
Proof.
  intros st [W G]. unfold insertLearning.
  destruct cat as [cat | ]; [ | now split].
  destruct c as [c | ]; [ | now split].
  cbn [snd]. destruct W as [Wd We Wl Wc]. split; [ | exact G].
  constructor; cbn; trivial.
  apply (ids_ok_insert id (seq_learnings st) (learnings st)
           (new_row h (Sql.next_id (seq_learnings st) (map id (learnings st)))
              p (Learning.mk cat c))); trivial.
Qed.

Lemma keeps_upsertContext p k v : keeps (inv g) (upsertContext h p k v).
Proof.
  intros st [W G].
  destruct p as [p | ]; [ | now split].
  destruct k as [k | ]; [ | now split].
  destruct v as [v | ]; [ | now split].
  destruct W as [Wd We Wl Wc].
  pose proof (upsertContext_unique h p k v st Wc) as U.
  destruct (upsertContext_frame h p k v st) as (F1 & F2 & F3 & F4 & F5 & F6 & F7).
  split.
  - constructor; rewrite ?F1, ?F2, ?F3, ?F5, ?F6, ?F7; trivial.
  - destruct g; trivial. unfold archived_for_good. now rewrite F1, F5.
Qed.

Lemma keeps_deleteContext p k : keeps (inv g) (deleteContext p k).
Proof.
  intros st [[Wd We Wl Wc] G]. unfold deleteContext, delete_where. cbn [snd].
  split; [ | exact G]. constructor; cbn; trivial.
  unfold context_unique. now apply NoDup_map_filter_gen.
Qed.

Lemma keeps_upsertSession p w t s n : keeps (inv g) (upsertSessionWithWorkspace h p w t s n).
Proof.
  intros st [[Wd We Wl Wc] G]. unfold upsertSessionWithWorkspace.
  destruct p as [p | ]; [ | split; [now constructor | exact G]].
  destruct t as [t | ]; [ | split; [now constructor | exact G]].
  destruct (existsb _ _); cbn [snd]; (split; [now constructor | exact G]).
Qed.

Lemma keeps_deleteSessionWithWorkspace p w : keeps (inv g) (deleteSessionWithWorkspace p w).
Proof.
  intros st [[Wd We Wl Wc] G]. unfold deleteSessionWithWorkspace, delete_where. cbn [snd].
  split; [now constructor | exact G].
Qed.

Lemma keeps_deleteSessionsOfProject p : keeps (inv g) (deleteSessionsOfProject p).
Proof.
  intros st [[Wd We Wl Wc] G]. unfold deleteSessionsOfProject, delete_where. cbn [snd].
  split; [now constructor | exact G].
Qed.

Lemma touch_in_place {B : Type} (r : Row B) :
  id (touch h r) = id r /\ (archived r = Some 1 -> archived (touch h r) = Some 1).
Proof. split; trivial. Qed.

Lemma conditional_in_place {B : Type} (c : Row B -> bool) (f : Row B -> Row B) :
  (forall r, id (f r) = id r /\ (archived r = Some 1 -> archived (f r) = Some 1)) ->
  forall r, id ((fun r => if c r then f r else r) r) = id r
            /\ (archived r = Some 1
                -> archived ((fun r => if c r then f r else r) r) = Some 1).
Proof. intros Hf r. cbn beta. destruct (c r); [apply Hf | now split]. Qed.

Lemma keeps_map_decisions (f : Row Decision.t -> Row Decision.t) :
  (forall r, id (f r) = id r /\ (archived r = Some 1 -> archived (f r) = Some 1)) ->
  forall st, inv g st -> inv g (upd_decisions (map f (decisions st)) st).
Proof.
  intros Hf st [[Wd We Wl Wc] G]. split.
  - constructor; cbn; trivial. apply ids_ok_map; trivial. intros r. apply Hf.
  - destruct g as [i | ]; trivial. destruct G as [Gi Ga]. split; cbn; trivial.
    now apply archived_map.
Qed.

Lemma keeps_map_errors (f : Row Error.t -> Row Error.t) :
  (forall r, id (f r) = id r) ->
  forall st, inv g st -> inv g (upd_errors (map f (errors st)) st).
Proof.
  intros Hf st [[Wd We Wl Wc] G]. split; [ | exact G].
  constructor; cbn; trivial. now apply ids_ok_map.
Qed.

Lemma keeps_map_learnings (f : Row Learning.t -> Row Learning.t) :
  (forall r, id (f r) = id r) ->
  forall st, inv g st -> inv g (upd_learnings (map f (learnings st)) st).
Proof.
  intros Hf st [[Wd We Wl Wc] G]. split; [ | exact G].
  constructor; cbn; trivial. now apply ids_ok_map.
Qed.

Lemma keeps_trackDecisionAccess i : keeps (inv g) (trackDecisionAccess h i).
Proof.
  intros st H. unfold trackDecisionAccess, track_access. cbn [snd].
  apply keeps_map_decisions; trivial.
  apply (conditional_in_place (fun r => id r =? i)). apply touch_in_place.
Qed.

Lemma keeps_trackErrorAccess i : keeps (inv g) (trackErrorAccess h i).
Proof.
  intros st H. unfold trackErrorAccess, track_access. cbn [snd].
  apply keeps_map_errors; trivial. intros r. now destruct (id r =? i).
Qed.

Lemma keeps_trackLearningAccess i : keeps (inv g) (trackLearningAccess h i).
Proof.
  intros st H. unfold trackLearningAccess, track_access. cbn [snd].
  apply keeps_map_learnings; trivial. intros r. now destruct (id r =? i).
Qed.

Lemma keeps_update_table t (f : forall B : Type, Row B -> Row B) i :
  (forall B (r : Row B),
     id (f B r) = id r /\ (archived r = Some 1 -> archived (f B r) = Some 1)) ->
  keeps (inv g) (update_table t f i).
Proof.
  intros Hf st H. unfold update_table, update_where_id. destruct t; cbn [snd].
  - apply keeps_map_decisions; trivial.
    apply (conditional_in_place (fun r => Sql.eq_int (Some (id r)) i)). apply Hf.
  - apply keeps_map_errors; trivial. intros r.
    destruct (Sql.eq_int _ _); trivial. apply Hf.
  - apply keeps_map_learnings; trivial. intros r.
    destruct (Sql.eq_int _ _); trivial. apply Hf.
Qed.

Lemma keeps_delete_table t (f : forall B : Type, Row B -> bool) :
  keeps (inv g) (delete_table t f).
Proof.
  intros st [[Wd We Wl Wc] G]. unfold delete_table, delete_where.
  destruct t; cbn [snd].
  - split.
    + constructor; cbn; trivial. now apply ids_ok_filter.
    + destruct g as [i | ]; trivial. destruct G as [Gi Ga]. split; cbn; trivial.
      intros r Hr. apply filter_In in Hr. apply Ga. tauto.
  - split; [ | exact G]. constructor; cbn; trivial. now apply ids_ok_filter.
  - split; [ | exact G]. constructor; cbn; trivial. now apply ids_ok_filter.
Qed.

End Statements_keep.

(** *** The invariant under every tool *)

Ltac keeps_step :=
  first
    [ apply keeps_ret | apply keeps_throw | apply keeps_get_store
    | apply keeps_insertDecision | apply keeps_insertError | apply keeps_insertLearning
    | apply keeps_upsertContext | apply keeps_deleteContext | apply keeps_upsertSession
    | apply keeps_deleteSessionWithWorkspace | apply keeps_deleteSessionsOfProject
    | apply keeps_trackDecisionAccess | apply keeps_trackErrorAccess
    | apply keeps_trackLearningAccess | apply keeps_delete_table
    | apply keeps_update_table; intros; split; trivial
    | apply keeps_with_args; intro
    | apply keeps_forEach; intro
    | apply keeps_import_each; intro
    | apply keeps_import_all; intro
    | apply keeps_if_present; intro
    | apply keeps_delete_each; intro
    | apply keeps_bind; [ | intro ]
    | apply keeps_try; [ | intro ]
    | match goal with
      | |- keeps _ (match ?x with _ => _ end) => destruct x
      end ].

Ltac keeps_tool :=
  unfold remember_decision, recall_decisions, list_decisions, remember_error,
    find_solution, list_errors, set_context, get_context, delete_context,
    remember_learning, recall_learnings, search_all, save_session, get_session,
    clear_session, memory_status, load_comprehensive_memory, archive, set_priority,
    prune, bulk_cleanup, export_memory, import_memory, memory_stats, sync_to_cloud,
    pull_from_cloud, cutoffDate, unbound, import_decision, import_error,
    import_context, import_learning;
  repeat keeps_step.

Section Tools_keep.

Variables (h : Host) (g : option Z).

Lemma keeps_cases :
  Forall (fun nf => forall args, keeps (inv g) (snd nf args)) (cases h).
Proof.
  unfold cases.
  repeat (constructor; [cbn [snd]; intros args; keeps_tool | ]).
  constructor.
Qed.

Lemma find_case_In name l f : find_case name l = Some f -> In (name, f) l.
Proof.
  induction l as [ | [n f'] l IH]; cbn [find_case]; [discriminate | ].
  destruct (String.eqb_spec n name) as [-> | N].
  - intros E. injection E as ->. now left.
  - intros E. right. now apply IH.
Qed.

Lemma keeps_switch name args : keeps (inv g) (switch h name args).
Proof.
  unfold switch. destruct (find_case name (cases h)) as [f | ] eqn:E.
  - apply find_case_In in E.
    pose proof keeps_cases as K. rewrite Forall_forall in K. exact (K _ E args).
  - apply keeps_ret.
Qed.

Lemma handler_store name args st :
  fst (handler h name args st) = snd (switch h name args st).
Proof. unfold handler. destruct (switch h name args st) as [[t | m] s1]; reflexivity. Qed.

End Tools_keep.

Lemma inv_step (g : option Z) (st : Store) (r : Request) : inv g st -> inv g (step st r).
Proof.
  intros H. unfold step. rewrite handler_store. now apply keeps_switch.
Qed.

Lemma inv_run (g : option Z) (reqs : list Request) (st : Store) :
  inv g st -> inv g (run reqs st).
Proof.
  revert st. induction reqs as [ | r reqs IH]; intros st H; cbn; trivial.
  apply IH. now apply inv_step.
Qed.

(** Every store the handler can reach from the empty database is well
    formed. *)
Lemma wf_reachable (reqs : list Request) : wf (run reqs empty_store).
Proof.
  apply (inv_run None reqs empty_store). split; [exact wf_empty | exact I].
Qed.

(** ** Recall of decisions *)


(** Whatever the arguments, [recall_decisions] selects rows of the table
    that are not archived. *)
Lemma recall_decisions_rows_live (a : Args.t) (st : Store) (r : Row Decision.t) :
  In r (recall_decisions_rows a st) -> In r (decisions st) /\ not_archived r = true.
Proof.
  unfold recall_decisions_rows, getDecisionsByCategory, searchDecisions, getDecisions.
  intros H.
  destruct (truthy_str (Args.category a)); [ | destruct (truthy_str (Args.search a))];
    try apply limit_In in H; apply order_by_In in H; apply filter_In in H;
    destruct H as [Hin Hf]; split; trivial;
    repeat (apply andb_true_iff in Hf; destruct Hf as [Hf ?]); trivial.
Qed.









Example recall_decisions_ten_latest :
  map id (recall_decisions_rows Sample.app Sample.eleven_decisions)
  = [11; 10; 9; 8; 7; 6; 5; 4; 3; 2].
Proof. vm_compute. reflexivity. Qed.



(** * Further properties of the handler *)

(** ** Tools that only read *)

Lemma unchanged_by (h : Host) (name : string) (args : option Args.t) (st : Store) :
  keeps (fun s => s = st) (switch h name args) -> fst (handler h name args st) = st.
Proof. intros K. rewrite handler_store. now apply K. Qed.

(** X1: [get_context], [search_all], [get_session], [memory_status],
    [load_comprehensive_memory], [memory_stats] and [sync_to_cloud] leave
    the whole store as it was, with any arguments or none: unlike the recall
    tools they track no access. *)
Theorem reading_tools_change_nothing (h : Host) :
  Forall (fun name => forall args st, fst (handler h name args st) = st) reading_tools.
Proof.
  unfold reading_tools.
  repeat (constructor;
          [ intros args st; apply unchanged_by;
            match goal with
            | |- keeps ?P (switch _ ?n _) =>
                let f := eval cbv [find_case cases String.eqb Ascii.eqb Bool.eqb]
                         in (find_case n (cases h)) in
                match f with
                | Some ?g => change (keeps P (g args)); cbv beta
                end
            end; keeps_tool | ]).
  constructor.
Qed.

(** ** Well-formedness across requests *)

(** X2: every request keeps the store well formed: rowids stay unique
    within each of the three archivable tables and never exceed the table's
    AUTOINCREMENT counter, and the context table stays unique on
    (project, key), whether the case returned or threw. *)
Theorem handler_keeps_wf (h : Host) (name : string) (args : option Args.t) (st : Store) :
  wf st -> wf (fst (handler h name args st)).
Proof.
  intros W. destruct (inv_step None st (mkRequest h name args)) as [W' _]; trivial.
  now split.
Qed.

Lemma handler_keeps_wf_witness :
  wf (fst (handler (Sample.host Sample.apr2_12h) "remember_error"
             (Some (Args.with_error_pattern (val "ECONNREFUSED")
                      (Args.with_solution (val "start service") Sample.app)))
             Sample.one_decision)).
Proof. apply handler_keeps_wf. exact wf_one_decision. Defined.

(** ** Required arguments *)

(** X3: when [remember_decision], [remember_error], [remember_learning],
    [set_context] or [save_session] is called with a required argument
    absent or null, nothing is written and the result is the text
    [Error: NOT NULL constraint failed: table.column], naming the first
    such column in table order. *)
Theorem missing_required_argument (h : Host) (name : string) (a : Args.t) (st : Store)
  (col : string) :
  first_null (required name a) = Some col ->
  handler h name (Some a) st = (st, "Error: NOT NULL constraint failed: " ++ col).
Proof.
  unfold required, first_null.
  destruct (String.eqb_spec name "remember_decision") as [-> | _].
  { unfold handler.
    change (switch h "remember_decision" (Some a)) with (remember_decision h a).
    unfold remember_decision, bindM, insertDecision. cbn [find snd fst].
    destruct (bind (Args.project a)); [ | intros [= <-]; reflexivity].
    destruct (bind (Args.decision a)); [discriminate | intros [= <-]; reflexivity]. }
  destruct (String.eqb_spec name "remember_error") as [-> | _].
  { unfold handler.
    change (switch h "remember_error" (Some a)) with (remember_error h a).
    unfold remember_error, bindM, insertError. cbn [find snd fst].
    destruct (bind (Args.project a)); [ | intros [= <-]; reflexivity].
    destruct (bind (Args.error_pattern a)); [ | intros [= <-]; reflexivity].
    destruct (bind (Args.solution a)); [discriminate | intros [= <-]; reflexivity]. }
  destruct (String.eqb_spec name "remember_learning") as [-> | _].
  { unfold handler.
    change (switch h "remember_learning" (Some a)) with (remember_learning h a).
    unfold remember_learning, bindM, insertLearning. cbn [find snd fst].
    destruct (bind (Args.category a)); [ | intros [= <-]; reflexivity].
    destruct (bind (Args.content a)); [discriminate | intros [= <-]; reflexivity]. }
  destruct (String.eqb_spec name "set_context") as [-> | _].
  { unfold handler.
    change (switch h "set_context" (Some a)) with (set_context h a).
    unfold set_context, bindM, upsertContext. cbn [find snd fst].
    destruct (bind (Args.project a)); [ | intros [= <-]; reflexivity].
    destruct (bind (Args.key a)); [ | intros [= <-]; reflexivity].
    destruct (bind (Args.value a)); [discriminate | intros [= <-]; reflexivity]. }
  destruct (String.eqb_spec name "save_session") as [-> | _].
  { unfold handler.
    change (switch h "save_session" (Some a)) with (save_session h a).
    unfold save_session, bindM, upsertSessionWithWorkspace. cbn [find snd fst].
    destruct (bind (Args.project a)); [ | intros [= <-]; reflexivity].
    destruct (bind (Args.task a)); [discriminate | intros [= <-]; reflexivity]. }
  discriminate.
Qed.

Lemma missing_required_argument_witness :
  handler (Sample.host Sample.apr2_12h) "save_session" (Some Sample.app) Sample.one_decision
  = (Sample.one_decision, "Error: NOT NULL constraint failed: sessions.task").
Proof.
  apply (missing_required_argument (Sample.host Sample.apr2_12h) "save_session" Sample.app
           Sample.one_decision "sessions.task").
  reflexivity.
Defined.

(** ** Sizes of results *)

Lemma limit_within {R : Type} (n : Z) (l : list R) :
  within_limit n (List.length (Sql.limit n l)).
Proof.
  unfold within_limit, Sql.limit. destruct (n <? 0) eqn:E.
  - left. now apply Z.ltb_lt.
  - right. rewrite length_firstn. apply Nat.le_min_l.
Qed.

(** X4: [find_solution] returns at most 5 rows, whatever the store and
    the arguments; [list_decisions], [list_errors], and [recall_decisions]
    by category return at most [limit] rows, 10 when the limit is absent,
    null or 0, and [recall_learnings] without a search term at most [limit],
    20 by default.  Only a negative limit lifts the bound. *)
Theorem result_sizes (a : Args.t) (st : Store) :
  (List.length (find_solution_rows a st) <= 5)%nat
  /\ within_limit (or_num (Args.limit a) 10) (List.length (list_decisions_rows a st))
  /\ within_limit (or_num (Args.limit a) 10) (List.length (list_errors_rows a st))
  /\ (if truthy_str (Args.category a)
      then within_limit (or_num (Args.limit a) 10)
             (List.length (recall_decisions_rows a st))
      else True)
  /\ (if truthy_str (Args.search a) then True
      else within_limit (or_num (Args.limit a) 20)
             (List.length (recall_learnings_rows a st))).
Proof.
  split; [ | split; [ | split; [ | split]]].
  - unfold find_solution_rows, findSolutionByCategory, findSolution.
    destruct (truthy_str (Args.category a));
      match goal with
      | |- (List.length (Sql.limit 5 ?l) <= 5)%nat =>
          destruct (limit_within 5 l) as [H | H]; [lia | exact H]
      end.
  - apply limit_within.
  - apply limit_within.
  - unfold recall_decisions_rows. destruct (truthy_str (Args.category a)); trivial.
    apply limit_within.
  - unfold recall_learnings_rows. destruct (truthy_str (Args.search a)); trivial.
    apply limit_within.
Qed.

(** ** Context: set, get, delete *)

Lemma filter_filter_none {A : Type} (f g : A -> bool) (l : list A) :
  (forall x, f x = true -> g x = true) ->
  filter f (filter (fun x => negb (g x)) l) = [].
Proof.
  intros I. induction l as [ | x l IH]; cbn [filter]; trivial.
  destruct (g x) eqn:G; cbn [negb filter]; trivial.
  destruct (f x) eqn:F; trivial. apply I in F. congruence.
Qed.

Lemma filter_idem {A : Type} (f : A -> bool) (l : list A) :
  filter f (filter f l) = filter f l.
Proof.
  induction l as [ | x l IH]; cbn [filter]; trivial.
  destruct (f x) eqn:F; cbn [filter]; rewrite ?F, IH; reflexivity.
Qed.

Lemma getContextValue_same_key (P k : string) (st : Store) :
  getContextValue (Some P) (Some k) st = hd_error (filter (same_key P k) (context st)).
Proof. reflexivity. Qed.

(** The first row under the key carries the value just written. *)
Lemma upsertContext_lookup (h : Host) (P k v : string) (st : Store) :
  exists c,
    getContextValue (Some P) (Some k) (snd (upsertContext h (Some P) (Some k) (Some v) st))
    = Some c /\ Context.value c = v.
Proof.
  rewrite getContextValue_same_key, upsertContext_context.
  destruct (existsb (same_key P k) (context st)) eqn:E.
  - rewrite filter_map_upd by apply same_key_upd.
    apply existsb_exists in E. destruct E as (c0 & Hc0 & Ec0).
    assert (Hin : In c0 (filter (same_key P k) (context st))) by (apply filter_In; now split).
    destruct (filter (same_key P k) (context st)) as [ | c l] eqn:F; [destruct Hin | ].
    assert (Ec : same_key P k c = true).
    { assert (X : In c (filter (same_key P k) (context st))) by (rewrite F; now left).
      apply filter_In in X. tauto. }
    cbn [map hd_error]. eexists. split; [reflexivity | ]. now rewrite Ec.
  - rewrite filter_app, (filter_none _ _ E). cbn [filter app].
    replace (same_key P k _) with true by (symmetry; apply same_key_spec; reflexivity).
    cbn [hd_error]. eexists. split; reflexivity.
Qed.

(** X5: after [set_context(P, k, v)] with a non-empty key,
    [get_context(P, k)] answers [k: v]; [delete_context(P, k)] then answers
    [Deleted context key 'k' from P], after which [get_context(P, k)]
    answers [No value found for k] and a second [delete_context(P, k)]
    changes nothing and answers [No context key 'k' found for P].  Rows
    under other keys are the same at the end as at the start. *)
Theorem context_round_trip (h : Host) (a : Args.t) (st : Store) (P k v : string) :
  Args.project a = val P -> Args.key a = val k -> Args.value a = val v -> k <> "" ->
  let s1 := fst (handler h "set_context" (Some a) st) in
  let s2 := fst (handler h "delete_context" (Some a) s1) in
  snd (handler h "get_context" (Some a) s1) = k ++ ": " ++ v
  /\ snd (handler h "delete_context" (Some a) s1)
     = "Deleted context key '" ++ k ++ "' from " ++ P
  /\ snd (handler h "get_context" (Some a) s2) = "No value found for " ++ k
  /\ handler h "delete_context" (Some a) s2
     = (s2, "No context key '" ++ k ++ "' found for " ++ P)
  /\ filter (fun c => negb (same_key P k c)) (context s2)
     = filter (fun c => negb (same_key P k c)) (context st).
Proof.
  intros HP Hk Hv Hne s1 s2.
  assert (E1 : s1 = snd (upsertContext h (Some P) (Some k) (Some v) st)).
  { unfold s1. now rewrite (set_context_run h a st P k v HP Hk Hv). }
  assert (Tk : truthy_str (val k) = true).
  { cbn. apply negb_true_iff. now apply String.eqb_neq. }
  assert (Get : forall s, snd (handler h "get_context" (Some a) s)
                          = match getContextValue (Some P) (Some k) s with
                            | Some r => k ++ ": " ++ Context.value r
                            | None => "No value found for " ++ k
                            end).
  { intros s. unfold handler.
    change (switch h "get_context" (Some a)) with (get_context a).
    unfold get_context, bindM, get_store. rewrite HP, Hk, Tk. reflexivity. }
  assert (Del : forall s, handler h "delete_context" (Some a) s
                          = (upd_context (filter (fun c => negb (same_key P k c)) (context s)) s,
                             if Z.of_nat (List.length (filter (same_key P k) (context s))) >? 0
                             then "Deleted context key '" ++ k ++ "' from " ++ P
                             else "No context key '" ++ k ++ "' found for " ++ P)).
  { intros s. unfold handler.
    change (switch h "delete_context" (Some a)) with (delete_context a).
    unfold delete_context, bindM, deleteContext, delete_where. rewrite HP, Hk. reflexivity. }
  destruct (upsertContext_lookup h P k v st) as (c & Ec & Vc). rewrite <- E1 in Ec.
  assert (E2 : s2 = upd_context (filter (fun c => negb (same_key P k c)) (context s1)) s1).
  { unfold s2. now rewrite Del. }
  split; [ | split; [ | split; [ | split]]].
  - rewrite Get, Ec. now rewrite Vc.
  - rewrite Del. cbn [snd].
    rewrite getContextValue_same_key in Ec.
    destruct (filter (same_key P k) (context s1)); [discriminate | reflexivity].
  - rewrite Get, getContextValue_same_key, E2. cbn [context upd_context].
    now rewrite filter_filter_none.
  - rewrite Del. rewrite E2 at 1 2 3. cbn [context upd_context].
    rewrite filter_idem, filter_filter_none by trivial. cbn [List.length Z.of_nat Z.gtb Z.compare].
    rewrite E2. reflexivity.
  - rewrite E2. cbn [context upd_context]. rewrite filter_idem, E1.
    apply upsertContext_other_rows.
Qed.

Lemma context_round_trip_witness :
  let h := Sample.host Sample.apr2_12h in
  let a := Args.with_key (val "sdk") (Args.with_value (val "v1") Sample.app) in
  snd (handler h "get_context" (Some a)
         (fst (handler h "set_context" (Some a) Sample.one_decision)))
  = "sdk: v1".
Proof.
  intros h a.
  destruct (context_round_trip h a Sample.one_decision "app" "sdk" "v1"
              eq_refl eq_refl eq_refl ltac:(discriminate)) as (G & _).
  exact G.
Defined.

(** ** Sessions: clear, then get *)

Lemma clear_session_frame (h : Host) (a : Args.t) (st : Store) (P : string) :
  Args.project a = val P -> Args.workspace a = undefined ->
  sessions (fst (handler h "clear_session" (Some a) st))
  = filter (fun s => negb (Session.project s =? P)%string) (sessions st)
  /\ decisions (fst (handler h "clear_session" (Some a) st)) = decisions st.
Proof.
  intros HP Hw. unfold handler. rewrite switch_clear_session.
  unfold with_args, clear_session. rewrite HP, Hw.
  unfold bindM, deleteSessionsOfProject, delete_where, ret, Sql.eq_text.
  cbn [fst snd bind]. split; reflexivity.
Qed.

(** X6: after [clear_session(P)] without a workspace, [get_session(P)]
    answers [No saved session found], for every workspace argument and for
    none. *)
Theorem clear_then_get_session (h h' : Host) (a a' : Args.t) (st : Store) (P : string) :
  Args.project a = val P -> Args.workspace a = undefined -> Args.project a' = val P ->
  snd (handler h' "get_session" (Some a') (fst (handler h "clear_session" (Some a) st)))
  = "No saved session found".
Proof.
  intros HP Hw HP'.
  assert (E : sessions (fst (handler h "clear_session" (Some a) st))
              = filter (fun s => negb (Session.project s =? P)%string) (sessions st)).
  { destruct (clear_session_frame h a st P HP Hw) as [E _]. exact E. }
  unfold handler at 1.
  change (switch h' "get_session" (Some a')) with (get_session h' a').
  unfold get_session, bindM, get_store, getAllSessionsForProject, getSessionWithWorkspace.
  rewrite HP', E. cbn [bind].
  assert (N : forall f : Session.t -> bool,
             (forall s, f s = true -> (Session.project s =? P)%string = true) ->
             filter f (filter (fun s => negb (Session.project s =? P)%string) (sessions st))
             = []).
  { intros f I. now apply filter_filter_none. }
  destruct (Args.workspace a') as [ | | w]; cbn [bind].
  - rewrite N; [reflexivity | ]. intros s. cbn. trivial.
  - rewrite N; [reflexivity | ]. intros s Hs. rewrite session_at_spec in Hs.
    apply andb_true_iff in Hs. tauto.
  - rewrite N; [reflexivity | ]. intros s Hs. rewrite session_at_spec in Hs.
    apply andb_true_iff in Hs. tauto.
Qed.

Lemma clear_then_get_session_witness :
  snd (handler (Sample.host Sample.apr2_12h) "get_session"
         (Some (Args.with_workspace (val "w1") Sample.app))
         (fst (handler (Sample.host Sample.apr2_12h) "clear_session" (Some Sample.app)
                 three_sessions)))
  = "No saved session found".
Proof.
  apply (clear_then_get_session _ _ Sample.app _ three_sessions "app");
    reflexivity.
Defined.

(** ** Prune and bulk cleanup *)

Lemma only_removes_refl {B : Type} (doomed : Row B -> bool) (l : list (Row B)) :
  only_removes doomed l l.
Proof. split; auto. Qed.

Lemma only_removes_filter {B : Type} (doomed f : Row B -> bool) (l l' : list (Row B)) :
  (forall r, f r = true -> doomed r = true) ->
  only_removes doomed l l' ->
  only_removes doomed l (filter (fun r => negb (f r)) l').
Proof.
  intros I [H1 H2]. split.
  - intros r Hr. apply filter_In in Hr. apply H1. tauto.
  - intros r Hr Hd. apply filter_In. split; [now apply H2 | ].
    destruct (f r) eqn:F; trivial. apply I in F. congruence.
Qed.

Lemma removes_only_refl doomed st : removes_only doomed st st.
Proof. repeat split; auto. Qed.

Lemma keeps_delete_table_removes doomed st0 t (f : forall B : Type, Row B -> bool) :
  (forall B (r : Row B), f B r = true -> doomed B r = true) ->
  keeps (removes_only doomed st0) (delete_table t f).
Proof.
  intros I st (Hd & He & Hl & Hc & Hs). unfold delete_table, delete_where, removes_only.
  destruct t; cbn [snd decisions errors learnings context sessions upd_decisions
                     upd_errors upd_learnings];
    (split; [ | split; [ | split; [ | split]]]); trivial;
    apply only_removes_filter; trivial; apply I.
Qed.

Lemma filter_length_split {A : Type} (f : A -> bool) (l : list A) :
  Z.of_nat (List.length (filter f l))
  = Z.of_nat (List.length l) - Z.of_nat (List.length (filter (fun x => negb (f x)) l)).
Proof.
  induction l as [ | x l IH]; cbn [filter List.length]; [reflexivity | ].
  destruct (f x); cbn [negb List.length]; lia.
Qed.

Lemma prune_cond_in_scope cutoff p B (r : Row B) :
  prune_cond cutoff p B r = true -> in_scope true p B r = true.
Proof.
  unfold prune_cond, in_scope. intros H.
  apply andb_true_iff in H. destruct H as [H H2].
  apply andb_true_iff in H. destruct H as [H1 _]. now rewrite H1, H2.
Qed.

(** X7: [prune] adds and rewrites nothing and deletes only archived rows
    ([archived = 1]) of the project (of any project for ['all']): every
    other row of the three archivable tables, and the context and session
    tables, are kept.  When the cutoff date can be formed the text reports
    the number of rows that left the three tables; otherwise the store is
    unchanged and the text is [Error: Invalid time value]. *)
Theorem prune_removes_only_archived (h : Host) (a : Args.t) (st : Store) :
  let st' := fst (handler h "prune" (Some a) st) in
  let text := snd (handler h "prune" (Some a) st) in
  let days := or_num (Args.days a) 90 in
  removes_only (in_scope true (Args.project a)) st st'
  /\ match Text.toISOString (now h - days * 24 * 60 * 60 * 1000) with
     | Some _ =>
         text = "Pruned " ++ Text.of_Z (archivable_rows st - archivable_rows st')
                ++ " archived items older than " ++ Text.of_Z days ++ " days"
     | None => st' = st /\ text = "Error: Invalid time value"
     end.
Proof.
  intros st' text days. split.
  - unfold st'. rewrite handler_store.
    change (switch h "prune" (Some a)) with (prune h a).
    assert (K : keeps (removes_only (in_scope true (Args.project a)) st) (prune h a)).
    { unfold prune, cutoffDate.
      destruct (Text.toISOString _) as [cutoff | ].
      - apply keeps_bind; [apply keeps_ret | intros c].
        apply keeps_bind; [ | intros d; apply keeps_ret].
        apply keeps_delete_each. intros t. apply keeps_delete_table_removes.
        intros B r. apply prune_cond_in_scope.
      - apply keeps_bind; [apply keeps_throw | intros c].
        apply keeps_bind; [ | intros d; apply keeps_ret].
        apply keeps_delete_each. intros t. apply keeps_delete_table_removes.
        intros B r. apply prune_cond_in_scope. }
    apply K. apply removes_only_refl.
  - unfold text, st', handler.
    change (switch h "prune" (Some a)) with (prune h a).
    unfold prune, cutoffDate. fold days.
    destruct (Text.toISOString (now h - days * 24 * 60 * 60 * 1000)) as [cutoff | ].
    + unfold bindM, ret, delete_each, delete_table, delete_where, bindM, ret, total,
        archivable_rows, count.
      cbn [fst snd fold_right decisions errors learnings upd_decisions upd_errors
             upd_learnings].
      rewrite !(filter_length_split (prune_cond cutoff (Args.project a) _)).
      do 2 f_equal. f_equal. lia.
    + split; reflexivity.
Qed.

Lemma keeps_delete_each_in (P : Store -> Prop) (tables : list table)
  (f : forall B : Type, Row B -> bool) :
  (forall t, In t tables -> keeps P (delete_table t f)) -> keeps P (delete_each tables f).
Proof.
  induction tables as [ | t l IH]; cbn [delete_each]; intros Hf.
  - apply keeps_ret.
  - apply keeps_bind; [apply Hf; now left | intros n].
    apply keeps_bind; [ | intros k; apply keeps_ret].
    apply IH. intros t' Ht'. apply Hf. now right.
Qed.

Lemma keeps_and (P Q : Store -> Prop) {A : Type} (m : M A) :
  keeps P m -> keeps Q m -> keeps (fun s => P s /\ Q s) m.
Proof. intros HP HQ st [H1 H2]. split; [now apply HP | now apply HQ]. Qed.

Lemma cleanup_cond_in_scope cutoff archivedOnly p B (r : Row B) :
  cleanup_cond cutoff archivedOnly p B r = true -> in_scope archivedOnly p B r = true.
Proof.
  unfold cleanup_cond, in_scope. intros H.
  apply andb_true_iff in H. destruct H as [H H2].
  apply andb_true_iff in H. destruct H as [_ H1]. now rewrite H1, H2.
Qed.

(** X8: [bulk_cleanup] adds and rewrites nothing; it deletes only rows of
    the project (of any project for ['all']) and, unless [archived_only] is
    [false], only archived rows; a table other than the one named by [type]
    is left as it was, and so are all three when [type] names none of
    [decisions], [errors], [learnings], [all]. *)
Theorem bulk_cleanup_scope (h : Host) (a : Args.t) (st : Store) :
  let st' := fst (handler h "bulk_cleanup" (Some a) st) in
  let archivedOnly := match Args.archived_only a with val false => false | _ => true end in
  removes_only (in_scope archivedOnly (Args.project a)) st st'
  /\ (visited Decisions a \/ decisions st' = decisions st)
  /\ (visited Errors a \/ errors st' = errors st)
  /\ (visited Learnings a \/ learnings st' = learnings st).
Proof.
  intros st' archivedOnly.
  set (Q := fun s : Store =>
              (visited Decisions a \/ decisions s = decisions st)
              /\ (visited Errors a \/ errors s = errors st)
              /\ (visited Learnings a \/ learnings s = learnings st)).
  assert (K : keeps (fun s => removes_only (in_scope archivedOnly (Args.project a)) st s /\ Q s)
                (bulk_cleanup h a)).
  { unfold bulk_cleanup. fold archivedOnly.
    apply keeps_bind.
    { destruct (Args.older_than_days a); unfold cutoffDate;
        try destruct (Text.toISOString _); first [apply keeps_ret | apply keeps_throw]. }
    intros cutoff. apply keeps_bind; [ | intros d; apply keeps_ret].
    apply keeps_delete_each_in. intros t Ht. apply keeps_and.
    - apply keeps_delete_table_removes. intros B r. apply cleanup_cond_in_scope.
    - assert (V : visited t a).
      { unfold visited. destruct (String.eqb_spec (or_str (Args.type a) "all") "all") as [E | E].
        - now left.
        - right. apply filter_In in Ht. destruct Ht as [_ Ht].
          apply String.eqb_eq in Ht. now symmetry. }
      intros s (Q1 & Q2 & Q3). unfold Q, delete_table, delete_where.
      destruct t; cbn [snd decisions errors learnings upd_decisions upd_errors upd_learnings];
        repeat split; auto. }
  unfold st'. rewrite handler_store.
  change (switch h "bulk_cleanup" (Some a)) with (bulk_cleanup h a).
  apply K. split; [apply removes_only_refl | unfold Q; auto].
Qed.

(** A decision of project [app] that is not archived survives
    [bulk_cleanup] of rows older than 30 days, 400 days later. *)
Lemma bulk_cleanup_scope_witness :
  let h := Sample.host (Sample.apr2_12h + 400 * Text.ms_per_day) in
  let a := with_older_than_days (val 30) Sample.app in
  incl (decisions Sample.one_decision)
    (decisions (fst (handler h "bulk_cleanup" (Some a) Sample.one_decision))).
Proof.
  intros h a r Hr.
  destruct (bulk_cleanup_scope h a Sample.one_decision) as (((_ & Keep) & _) & _).
  apply Keep; trivial. destruct Hr as [<- | []]. reflexivity.
Defined.

(** ** Import and pull *)

Section Import_rows.

Variables (h : Host) (st0 : Store).











End Import_rows.








(** ** LIKE and substrings *)












(** ** Remember, then recall *)






(** ** Order of errors and learnings *)





(** ** Sessions of named workspaces *)

Lemma session_conflict_spec (P w : string) (s : Session.t) :
  session_conflict P (Some w) s = true <-> session_key s = (P, Some w).
Proof.
  unfold session_conflict, session_key, Sql.eq_text. rewrite andb_true_iff, String.eqb_eq.
  destruct (Session.workspace s) as [x | ].
  - rewrite String.eqb_eq. split; [intros [-> ->]; reflexivity | intros [= -> ->]; auto].
  - split; [intros [_ H]; discriminate | discriminate].
Qed.

Lemma session_at_conflict (P w : string) (s : Session.t) :
  session_at (Some P) (Some w) s = session_conflict P (Some w) s.
Proof.
  rewrite session_at_spec. unfold session_conflict, ws_eqb, Sql.eq_text.
  now destruct (Session.workspace s).
Qed.

Lemma filter_comm {A : Type} (f g : A -> bool) (l : list A) :
  filter f (filter g l) = filter g (filter f l).
Proof.
  induction l as [ | x l IH]; cbn [filter]; trivial.
  destruct (f x) eqn:F, (g x) eqn:G; cbn [filter]; rewrite ?F, ?G, IH; reflexivity.
Qed.

Lemma named_unique_filter (f : Session.t -> bool) (l : list Session.t) :
  named_unique l -> named_unique (filter f l).
Proof.
  unfold named_unique, named. intros U. rewrite filter_comm.
  now apply NoDup_map_filter_gen.
Qed.

Section Session_upsert.

Variables (h : Host) (P t : string) (w s n : option string) (st : Store).

Let st' : Store := snd (upsertSessionWithWorkspace h (Some P) w (Some t) s n st).

Let upd (x : Session.t) : Session.t :=
  if session_conflict P w x
  then Session.mk (Session.id x) (Session.project x) (Session.workspace x) t s n
         (CURRENT_TIMESTAMP h) (Session.synced_at x)
  else x.

Let fresh : Session.t :=
  Session.mk (Sql.next_id (seq_sessions st) (map Session.id (sessions st))) P w t s n
    (CURRENT_TIMESTAMP h) None.

Lemma upsertSession_sessions :
  sessions st' = if existsb (session_conflict P w) (sessions st)
                 then map upd (sessions st)
                 else app (sessions st) [fresh].
Proof.
  unfold st', upsertSessionWithWorkspace. destruct (existsb _ _); reflexivity.
Qed.

Lemma upsertSession_frame :
  decisions st' = decisions st /\ errors st' = errors st
  /\ context st' = context st /\ learnings st' = learnings st.
Proof.
  unfold st', upsertSessionWithWorkspace. destruct (existsb _ _); repeat split.
Qed.

Lemma session_upd_key x : session_key (upd x) = session_key x.
Proof. unfold upd. destruct (session_conflict P w x); reflexivity. Qed.

Lemma named_map_upd (l : list Session.t) : named (map upd l) = map upd (named l).
Proof.
  unfold named. induction l as [ | x l IH]; cbn [map filter]; trivial.
  replace (Session.workspace (upd x)) with (Session.workspace x)
    by (unfold upd; now destruct (session_conflict P w x)).
  destruct (Session.workspace x); cbn [map]; now rewrite IH.
Qed.

Lemma upsertSession_named_unique :
  named_unique (sessions st) -> named_unique (sessions st').
Proof.
  unfold named_unique. fold session_key. intros U. rewrite upsertSession_sessions.
  destruct (existsb (session_conflict P w) (sessions st)) eqn:E.
  - rewrite named_map_upd, map_map.
    now rewrite (map_ext (fun x => session_key (upd x)) session_key session_upd_key).
  - unfold named. rewrite filter_app. cbn [filter fresh Session.workspace].
    destruct w as [x | ]; [ | now rewrite app_nil_r].
    rewrite map_app. cbn [map]. apply NoDup_snoc; trivial.
    intros Hin. apply in_map_iff in Hin. destruct Hin as (y & Ey & Hy).
    apply filter_In in Hy. destruct Hy as [Hy _].
    assert (X : existsb (session_conflict P (Some x)) (sessions st) = true).
    { apply existsb_exists. exists y. split; trivial. now apply session_conflict_spec. }
    congruence.
Qed.

End Session_upsert.

Section Sessions_keep.

Variable h : Host.

Let P : Store -> Prop := fun s => named_unique (sessions s).

Lemma keeps_sessions_frame {A : Type} (m : M A) :
  (forall st, sessions (snd (m st)) = sessions st) -> keeps P m.
Proof. intros E st H. unfold P. now rewrite E. Qed.

Lemma sessions_insertDecision params st :
  sessions (snd (insertDecision h params st)) = sessions st.
Proof.
  unfold insertDecision, arity_error.
  destruct params as [ | p [ | d [ | dec [ | rat [ | cat [ | x params]]]]]];
    try reflexivity.
  destruct p, d, dec; reflexivity.
Qed.

Lemma sessions_insertError params st :
  sessions (snd (insertError h params st)) = sessions st.
Proof.
  unfold insertError, arity_error.
  destruct params as [ | p [ | d [ | dec [ | rat [ | cat [ | x params]]]]]];
    try reflexivity.
  destruct p, d, dec; reflexivity.
Qed.

Lemma sessions_insertLearning p cat c st :
  sessions (snd (insertLearning h p cat c st)) = sessions st.
Proof. unfold insertLearning. destruct cat, c; reflexivity. Qed.

Lemma sessions_upsertContext p k v st :
  sessions (snd (upsertContext h p k v st)) = sessions st.
Proof.
  unfold upsertContext. destruct p, k, v; try reflexivity.
  destruct (existsb _ _); reflexivity.
Qed.

Lemma sessions_deleteContext p k st : sessions (snd (deleteContext p k st)) = sessions st.
Proof. reflexivity. Qed.

Lemma sessions_update_table t f i st : sessions (snd (update_table t f i st)) = sessions st.
Proof. destruct t; reflexivity. Qed.

Lemma sessions_delete_table t f st : sessions (snd (delete_table t f st)) = sessions st.
Proof. destruct t; reflexivity. Qed.

Lemma keeps_sessions_upsert p w t s n : keeps P (upsertSessionWithWorkspace h p w t s n).
Proof.
  intros st H. destruct p as [p | ]; [ | exact H]. destruct t as [t | ]; [ | exact H].
  now apply upsertSession_named_unique.
Qed.

Lemma keeps_sessions_delete p w : keeps P (deleteSessionWithWorkspace p w).
Proof. intros st H. now apply named_unique_filter. Qed.

Lemma keeps_sessions_delete_all p : keeps P (deleteSessionsOfProject p).
Proof. intros st H. now apply named_unique_filter. Qed.

End Sessions_keep.

Ltac keeps_sessions_step :=
  first
    [ apply keeps_ret | apply keeps_throw | apply keeps_get_store
    | apply keeps_sessions_upsert | apply keeps_sessions_delete
    | apply keeps_sessions_delete_all
    | apply keeps_sessions_frame; intro;
      first [ apply sessions_insertDecision | apply sessions_insertError
            | apply sessions_insertLearning | apply sessions_upsertContext
            | apply sessions_deleteContext | apply sessions_update_table
            | apply sessions_delete_table | reflexivity ]
    | apply keeps_with_args; intro
    | apply keeps_forEach; intro
    | apply keeps_import_each; intro
    | apply keeps_import_all; intro
    | apply keeps_if_present; intro
    | apply keeps_delete_each; intro
    | apply keeps_bind; [ | intro ]
    | apply keeps_try; [ | intro ]
    | match goal with
      | |- keeps _ (match ?x with _ => _ end) => destruct x
      end ].

Lemma keeps_sessions_cases (h : Host) :
  Forall (fun nf => forall args, keeps (fun s => named_unique (sessions s)) (snd nf args))
    (cases h).
Proof.
  unfold cases.
  repeat (constructor;
          [ cbn [snd]; intros args;
            unfold remember_decision, recall_decisions, list_decisions, remember_error,
              find_solution, list_errors, set_context, get_context, delete_context,
              remember_learning, recall_learnings, search_all, save_session, get_session,
              clear_session, memory_status, load_comprehensive_memory, archive,
              set_priority, prune, bulk_cleanup, export_memory, import_memory,
              memory_stats, sync_to_cloud, pull_from_cloud, cutoffDate, unbound,
              import_decision, import_error, import_context, import_learning;
            repeat keeps_sessions_step | ]).
  constructor.
Qed.

(** X15: at most one session per project and workspace name, after every
    request: if no two session rows share a project and a (non-NULL)
    workspace, none do after the handler has run, whatever the tool and the
    arguments.  It holds in the empty store, hence in every store reached
    from it. *)
Theorem named_sessions_stay_unique (h : Host) (name : string) (args : option Args.t)
  (st : Store) :
  named_unique (sessions st) -> named_unique (sessions (fst (handler h name args st))).
Proof.
  intros U. rewrite handler_store. unfold switch.
  destruct (find_case name (cases h)) as [f | ] eqn:E; [ | exact U].
  apply find_case_In in E.
  pose proof (keeps_sessions_cases h) as K. rewrite Forall_forall in K.
  exact (K _ E args st U).
Qed.

Lemma named_sessions_stay_unique_witness :
  named_unique
    (sessions (fst (handler (Sample.host Sample.apr2_12h) "save_session"
                      (Some (Args.with_workspace (val "w1")
                               (Args.with_task (val "again") Sample.app)))
                      three_sessions))).
Proof.
  apply named_sessions_stay_unique. vm_compute.
  repeat (constructor; [cbn; intuition discriminate | ]). constructor.
Defined.

Lemma unique_once {A K : Type} (key : A -> K) (f : A -> bool) (k0 : K) (l : list A) :
  (forall x, f x = true <-> key x = k0) ->
  NoDup (map key l) -> existsb f l = true -> exists c, filter f l = [c].
Proof.
  intros Hf. induction l as [ | x l IH]; cbn [existsb filter map]; intros U E;
    [discriminate | ].
  inversion U as [ | ? ? Hx Hl]; subst.
  destruct (f x) eqn:Ex.
  - exists x. f_equal. apply filter_none.
    destruct (existsb f l) eqn:El; trivial.
    apply existsb_exists in El. destruct El as (y & Hy & Ey).
    exfalso. apply Hx. apply Hf in Ex. apply Hf in Ey. rewrite Ex, <- Ey.
    now apply in_map.
  - cbn [orb] in E. now apply IH.
Qed.

Lemma filter_filter_impl {A : Type} (f g : A -> bool) (l : list A) :
  (forall x, f x = true -> g x = true) -> filter f (filter g l) = filter f l.
Proof.
  intros I. induction l as [ | x l IH]; cbn [filter]; trivial.
  destruct (g x) eqn:G; cbn [filter]; rewrite IH.
  - reflexivity.
  - destruct (f x) eqn:F; trivial. apply I in F. congruence.
Qed.

Section Named_session.

Variables (h : Host) (P w t : string) (s n : option string) (st : Store).

Let st' : Store := snd (upsertSessionWithWorkspace h (Some P) (Some w) (Some t) s n st).
Let hit : Session.t -> bool := session_conflict P (Some w).

Lemma hit_map (l : list Session.t) (f : Session.t -> Session.t) :
  (forall x, session_key (f x) = session_key x) ->
  filter hit (map f l) = map f (filter hit l).
Proof.
  intros Hf. induction l as [ | x l IH]; cbn [map filter]; trivial.
  assert (E : hit (f x) = hit x).
  { unfold hit. destruct (session_conflict P (Some w) x) eqn:C.
    - apply session_conflict_spec. rewrite Hf. now apply session_conflict_spec.
    - destruct (session_conflict P (Some w) (f x)) eqn:C'; trivial.
      apply session_conflict_spec in C'. rewrite Hf in C'.
      apply session_conflict_spec in C'. congruence. }
  rewrite E. destruct (hit x); cbn [map]; now rewrite IH.
Qed.

(** Every row under the key carries what was just saved, and there is one. *)
Lemma upsertSession_rows :
  exists x l,
    filter hit (sessions st') = x :: l
    /\ Forall (fun y => Session.task y = t /\ Session.status y = s /\ Session.notes y = n
                        /\ Session.updated_at y = CURRENT_TIMESTAMP h) (x :: l)
    /\ (named_unique (sessions st) -> l = []).
Proof.
  unfold st'. rewrite upsertSession_sessions.
  destruct (existsb (session_conflict P (Some w)) (sessions st)) eqn:E.
  - rewrite hit_map by (intros x; destruct (session_conflict P (Some w) x); reflexivity).
    assert (Hne : filter hit (sessions st) <> []).
    { apply existsb_exists in E. destruct E as (c & Hc & Ec).
      intros X. assert (Hin : In c (filter hit (sessions st))) by (apply filter_In; now split).
      now rewrite X in Hin. }
    match goal with
    | |- context [map ?f (filter hit (sessions st))] =>
        destruct (map f (filter hit (sessions st))) as [ | y l'] eqn:Fm
    end.
    { apply map_eq_nil in Fm. contradiction. }
    exists y, l'. split; [reflexivity | split].
    + rewrite <- Fm. apply Forall_map. apply Forall_forall. intros z Hz.
      apply filter_In in Hz. destruct Hz as [_ Hz]. unfold hit in Hz. rewrite Hz.
      repeat split.
    + intros U.
      destruct (unique_once session_key hit (P, Some w) (named (sessions st))) as (c & Hc).
      * intros z. apply session_conflict_spec.
      * exact U.
      * apply existsb_exists in E. destruct E as (c & Hc & Ec).
        apply existsb_exists. exists c. split; trivial.
        apply filter_In. split; trivial.
        apply session_conflict_spec in Ec. injection Ec as _ ->. reflexivity.
      * unfold named in Hc. rewrite filter_filter_impl in Hc.
        -- rewrite Hc in Fm. cbn [map] in Fm. now injection Fm as _ <-.
        -- intros z Hz. apply session_conflict_spec in Hz. injection Hz as _ ->. reflexivity.
  - unfold hit. rewrite filter_app, (filter_none _ _ E). cbn [filter app].
    replace (session_conflict P (Some w) _) with true
      by (symmetry; apply session_conflict_spec; reflexivity).
    eexists; eexists. split; [reflexivity | split; [ | reflexivity]].
    constructor; [repeat split | constructor].
Qed.

Lemma upsertSession_other_rows :
  filter (fun x => negb (hit x)) (sessions st') = filter (fun x => negb (hit x)) (sessions st).
Proof.
  unfold st', hit. rewrite upsertSession_sessions.
  destruct (existsb (session_conflict P (Some w)) (sessions st)) eqn:E.
  - clear E. induction (sessions st) as [ | x l IH]; cbn [map filter]; trivial.
    destruct (session_conflict P (Some w) x) eqn:C.
    + replace (session_conflict P (Some w) _) with true
        by (symmetry; apply session_conflict_spec;
            apply session_conflict_spec in C; exact C).
      cbn [negb]. exact IH.
    + rewrite C. cbn [negb]. f_equal. exact IH.
  - rewrite filter_app. cbn [filter].
    replace (session_conflict P (Some w) _) with true
      by (symmetry; apply session_conflict_spec; reflexivity).
    cbn [negb]. apply app_nil_r.
Qed.

End Named_session.

(** X16: [save_session] for a named workspace, then [get_session] for it:
    the session found carries the saved task, the status (or [in-progress]),
    the notes and the timestamp of the save, whether a session of that
    workspace existed before or not; sessions of other projects and
    workspaces are left as they were; and when named sessions were unique
    before, exactly one row of the workspace exists afterwards. *)
Theorem save_then_get_session (h : Host) (a : Args.t) (st : Store) (P w t : string) :
  Args.project a = val P -> Args.workspace a = val w -> w <> "" -> Args.task a = val t ->
  let st' := fst (handler h "save_session" (Some a) st) in
  let mine := session_at (Some P) (Some w) in
  exists s,
    get_session_rows a st' = [s]
    /\ Session.task s = t
    /\ Session.status s = Some (or_str (Args.status a) "in-progress")
    /\ Session.notes s = or_null (Args.notes a)
    /\ Session.updated_at s = Some (Text.current_timestamp (now h))
    /\ snd (handler h "save_session" (Some a) st)
       = "Session saved for " ++ P ++ (" (workspace: " ++ w ++ ")") ++ ": " ++ t ++ synced h
    /\ filter (fun x => negb (mine x)) (sessions st')
       = filter (fun x => negb (mine x)) (sessions st)
    /\ (named_unique (sessions st) -> filter mine (sessions st') = [s]).
Proof.
  intros HP Hw Hne Ht st' mine.
  assert (Ow : or_null (val w) = Some w).
  { cbn. now rewrite (proj2 (String.eqb_neq w "") Hne). }
  assert (E : handler h "save_session" (Some a) st
              = (snd (upsertSessionWithWorkspace h (Some P) (Some w) (Some t)
                        (Some (or_str (Args.status a) "in-progress"))
                        (or_null (Args.notes a)) st),
                 "Session saved for " ++ P ++ (" (workspace: " ++ w ++ ")") ++ ": " ++ t
                 ++ synced h)).
  { unfold handler.
    change (switch h "save_session" (Some a)) with (save_session h a).
    unfold save_session, bindM. rewrite HP, Hw, Ht, Ow. cbn [bind tmpl].
    unfold upsertSessionWithWorkspace. destruct (existsb _ _); reflexivity. }
  assert (M : forall l, filter mine l = filter (session_conflict P (Some w)) l).
  { intros l. apply filter_ext_eq. intros x. apply session_at_conflict. }
  assert (M' : forall l, filter (fun x => negb (mine x)) l
                         = filter (fun x => negb (session_conflict P (Some w) x)) l).
  { intros l. apply filter_ext_eq. intros x. unfold mine. now rewrite session_at_conflict. }
  unfold st'. rewrite E. cbn [fst snd].
  destruct (upsertSession_rows h P w t (Some (or_str (Args.status a) "in-progress"))
              (or_null (Args.notes a)) st) as (x & l & F & Hall & Hone).
  inversion Hall as [ | ? ? (H1 & H2 & H3 & H4) _]; subst.
  exists x. split; [ | repeat split; trivial].
  - unfold get_session_rows, getSessionWithWorkspace. rewrite Hw, HP. cbn [bind].
    fold mine. rewrite M, F. reflexivity.
  - rewrite !M'. apply upsertSession_other_rows.
  - intros U. rewrite M, F. now rewrite (Hone U).
Qed.

Lemma save_then_get_session_witness :
  let h := Sample.host (Sample.apr2_12h + 60000) in
  let a := Args.with_workspace (val "w1") (Args.with_task (val "again") Sample.app) in
  map (fun s => (Session.id s, Session.task s, Session.updated_at s))
    (get_session_rows a (fst (handler h "save_session" (Some a) three_sessions)))
  = [(2, "again", Some "2025-04-02 12:01:00")].
Proof.
  intros h a.
  destruct (save_then_get_session h a three_sessions "app" "w1" "again"
              eq_refl eq_refl ltac:(discriminate) eq_refl)
    as (s & R & _).
  rewrite R. vm_compute in R. injection R as <-. reflexivity.
Defined.

(** ** Archived rows of every table *)

Lemma rows_hidden_snoc {B : Type} (i seq : Z) (l : list (Row B)) (r : Row B) :
  id r = Sql.next_id seq (map id l) ->
  rows_hidden i seq l -> rows_hidden i (id r) (app l [r]).
Proof.
  intros E [Hi Ha]. pose proof (next_id_gt seq (map id l)) as Hn. split; [lia | ].
  intros x Hx Ex. apply in_app_or in Hx. destruct Hx as [Hx | [<- | []]].
  - now apply Ha.
  - lia.
Qed.

Lemma rows_hidden_map {B : Type} (i seq : Z) (l : list (Row B)) (f : Row B -> Row B) :
  (forall r, id (f r) = id r /\ (archived r = Some 1 -> archived (f r) = Some 1)) ->
  rows_hidden i seq l -> rows_hidden i seq (map f l).
Proof. intros Hf [Hi Ha]. split; trivial. now apply archived_map. Qed.

Lemma rows_hidden_filter {B : Type} (i seq : Z) (l : list (Row B)) (f : Row B -> bool) :
  rows_hidden i seq l -> rows_hidden i seq (filter f l).
Proof.
  intros [Hi Ha]. split; trivial. intros r Hr. apply filter_In in Hr. apply Ha. tauto.
Qed.

Section Hidden_keep.

Variables (h : Host) (t : table) (i : Z).

Let P : Store -> Prop := hidden_for_good t i.

Lemma hidden_insertDecision params : keeps P (insertDecision h params).
Proof.
  intros st H. unfold insertDecision, arity_error.
  destruct params as [ | p [ | d [ | dec [ | rat [ | cat [ | x params]]]]]];
    try exact H.
  destruct p as [p | ]; [ | exact H].
  destruct d as [d | ]; [ | exact H].
  destruct dec as [dec | ]; [ | exact H].
  cbn [snd]. unfold P, hidden_for_good in *. destruct t; [ | exact H | exact H].
  exact (rows_hidden_snoc i (seq_decisions st) (decisions st)
           (new_row h (Sql.next_id (seq_decisions st) (map id (decisions st)))
              (Some p) (Decision.mk d dec rat cat)) eq_refl H).
Qed.

Lemma hidden_insertError params : keeps P (insertError h params).
Proof.
  intros st H. unfold insertError, arity_error.
  destruct params as [ | p [ | d [ | dec [ | rat [ | cat [ | x params]]]]]];
    try exact H.
  destruct p as [p | ]; [ | exact H].
  destruct d as [d | ]; [ | exact H].
  destruct dec as [dec | ]; [ | exact H].
  cbn [snd]. unfold P, hidden_for_good in *. destruct t; [exact H | | exact H].
  exact (rows_hidden_snoc i (seq_errors st) (errors st)
           (new_row h (Sql.next_id (seq_errors st) (map id (errors st)))
              (Some p) (Error.mk d dec rat cat)) eq_refl H).
Qed.

Lemma hidden_insertLearning p cat c : keeps P (insertLearning h p cat c).
Proof.
  intros st H. unfold insertLearning.
  destruct cat as [cat | ]; [ | exact H].
  destruct c as [c | ]; [ | exact H].
  cbn [snd]. unfold P, hidden_for_good in *. destruct t; [exact H | exact H | ].
  exact (rows_hidden_snoc i (seq_learnings st) (learnings st)
           (new_row h (Sql.next_id (seq_learnings st) (map id (learnings st)))
              p (Learning.mk cat c)) eq_refl H).
Qed.

Lemma hidden_upsertContext p k v : keeps P (upsertContext h p k v).
Proof.
  intros st H. unfold upsertContext. destruct p, k, v; try exact H.
  unfold P, hidden_for_good in *. destruct (existsb _ _); destruct t; exact H.
Qed.

Lemma hidden_deleteContext p k : keeps P (deleteContext p k).
Proof. intros st H. unfold P, hidden_for_good in *. destruct t; exact H. Qed.

Lemma hidden_upsertSession p w t0 s n : keeps P (upsertSessionWithWorkspace h p w t0 s n).
Proof.
  intros st H. unfold upsertSessionWithWorkspace. destruct p, t0; try exact H.
  unfold P, hidden_for_good in *. destruct (existsb _ _); destruct t; exact H.
Qed.

Lemma hidden_deleteSessionWithWorkspace p w : keeps P (deleteSessionWithWorkspace p w).
Proof. intros st H. unfold P, hidden_for_good in *. destruct t; exact H. Qed.

Lemma hidden_deleteSessionsOfProject p : keeps P (deleteSessionsOfProject p).
Proof. intros st H. unfold P, hidden_for_good in *. destruct t; exact H. Qed.

Lemma hidden_trackDecisionAccess j : keeps P (trackDecisionAccess h j).
Proof.
  intros st H. unfold trackDecisionAccess, track_access. cbn [snd].
  unfold P, hidden_for_good in *. destruct t; [ | exact H | exact H]. cbn.
  apply rows_hidden_map; trivial.
  apply (conditional_in_place (fun r => id r =? j)). apply touch_in_place.
Qed.

Lemma hidden_trackErrorAccess j : keeps P (trackErrorAccess h j).
Proof.
  intros st H. unfold trackErrorAccess, track_access. cbn [snd].
  unfold P, hidden_for_good in *. destruct t; [exact H | | exact H]. cbn.
  apply rows_hidden_map; trivial.
  apply (conditional_in_place (fun r => id r =? j)). apply touch_in_place.
Qed.

Lemma hidden_trackLearningAccess j : keeps P (trackLearningAccess h j).
Proof.
  intros st H. unfold trackLearningAccess, track_access. cbn [snd].
  unfold P, hidden_for_good in *. destruct t; [exact H | exact H | ]. cbn.
  apply rows_hidden_map; trivial.
  apply (conditional_in_place (fun r => id r =? j)). apply touch_in_place.
Qed.

Lemma hidden_update_table t0 (f : forall B : Type, Row B -> Row B) j :
  (forall B (r : Row B),
     id (f B r) = id r /\ (archived r = Some 1 -> archived (f B r) = Some 1)) ->
  keeps P (update_table t0 f j).
Proof.
  intros Hf st H. unfold update_table, update_where_id.
  unfold P, hidden_for_good in *.
  destruct t0, t; cbn [snd]; try exact H; cbn;
    (apply rows_hidden_map; trivial;
     apply (conditional_in_place (fun r => Sql.eq_int (Some (id r)) j)); apply Hf).
Qed.

Lemma hidden_delete_table t0 (f : forall B : Type, Row B -> bool) :
  keeps P (delete_table t0 f).
Proof.
  intros st H. unfold delete_table, delete_where.
  unfold P, hidden_for_good in *.
  destruct t0, t; cbn [snd]; try exact H; cbn; now apply rows_hidden_filter.
Qed.

End Hidden_keep.

Ltac keeps_hidden_step :=
  first
    [ apply keeps_ret | apply keeps_throw | apply keeps_get_store
    | apply hidden_insertDecision | apply hidden_insertError | apply hidden_insertLearning
    | apply hidden_upsertContext | apply hidden_deleteContext | apply hidden_upsertSession
    | apply hidden_deleteSessionWithWorkspace | apply hidden_deleteSessionsOfProject
    | apply hidden_trackDecisionAccess | apply hidden_trackErrorAccess
    | apply hidden_trackLearningAccess | apply hidden_delete_table
    | apply hidden_update_table; intros; split; trivial
    | apply keeps_with_args; intro
    | apply keeps_forEach; intro
    | apply keeps_import_each; intro
    | apply keeps_import_all; intro
    | apply keeps_if_present; intro
    | apply keeps_delete_each; intro
    | apply keeps_bind; [ | intro ]
    | apply keeps_try; [ | intro ]
    | match goal with
      | |- keeps _ (match ?x with _ => _ end) => destruct x
      end ].

Lemma keeps_hidden_cases (h : Host) (t : table) (i : Z) :
  Forall (fun nf => forall args, keeps (hidden_for_good t i) (snd nf args)) (cases h).
Proof.
  unfold cases.
  repeat (constructor;
          [ cbn [snd]; intros args;
            unfold remember_decision, recall_decisions, list_decisions, remember_error,
              find_solution, list_errors, set_context, get_context, delete_context,
              remember_learning, recall_learnings, search_all, save_session, get_session,
              clear_session, memory_status, load_comprehensive_memory, archive,
              set_priority, prune, bulk_cleanup, export_memory, import_memory,
              memory_stats, sync_to_cloud, pull_from_cloud, cutoffDate, unbound,
              import_decision, import_error, import_context, import_learning;
            repeat keeps_hidden_step | ]).
  constructor.
Qed.

Lemma hidden_run (t : table) (i : Z) (reqs : list Request) (st : Store) :
  hidden_for_good t i st -> hidden_for_good t i (run reqs st).
Proof.
  revert st. induction reqs as [ | r reqs IH]; intros st H; cbn; trivial.
  apply IH. unfold step. rewrite handler_store. unfold switch.
  destruct (find_case (req_name r) (cases (req_host r))) as [f | ] eqn:E; [ | exact H].
  apply find_case_In in E.
  pose proof (keeps_hidden_cases (req_host r) t i) as K. rewrite Forall_forall in K.
  exact (K _ E (req_args r) st H).
Qed.

Lemma rows_hidden_not_live {B : Type} (i seq : Z) (l : list (Row B)) (r : Row B) :
  rows_hidden i seq l -> In r l -> not_archived r = true -> id r <> i.
Proof.
  intros [_ Ha] Hin Hl E. specialize (Ha r Hin E). unfold not_archived in Hl.
  rewrite Ha in Hl. discriminate.
Qed.

Lemma hidden_not_listed (t : table) (i : Z) (a : Args.t) (st : Store) :
  hidden_for_good t i st -> ~ In i (listed t a st).
Proof.
  intros H Hin. unfold listed, hidden_for_good in *.
  assert (L : forall B (l : list (Row B)) seq (sel : list (Row B)),
             rows_hidden i seq l ->
             (forall r, In r sel -> In r l /\ not_archived r = true) ->
             ~ In i (map id sel)).
  { intros B l seq sel Hh Hs Hi. apply in_map_iff in Hi. destruct Hi as (r & E & Hr).
    destruct (Hs r Hr) as [Hl Hn]. exact (rows_hidden_not_live i seq l r Hh Hl Hn E). }
  destruct t.
  - apply in_app_or in Hin. destruct Hin as [Hin | Hin];
      revert Hin; apply (L _ _ _ _ H).
    + intros r. apply recall_decisions_rows_live.
    + intros r Hr. unfold list_decisions_rows, getDecisions in Hr.
      apply limit_In in Hr; apply order_by_In in Hr; apply filter_In in Hr.
      destruct Hr as [Hl Hf]. split; trivial.
      apply andb_true_iff in Hf. tauto.
  - apply in_app_or in Hin. destruct Hin as [Hin | Hin];
      revert Hin; apply (L _ _ _ _ H).
    + intros r Hr. unfold find_solution_rows, findSolutionByCategory, findSolution in Hr.
      destruct (truthy_str (Args.category a));
        apply limit_In in Hr; apply order_by_In in Hr; apply filter_In in Hr;
        destruct Hr as [Hl Hf]; split; trivial;
        repeat (apply andb_true_iff in Hf; destruct Hf as [Hf ?]); trivial.
    + intros r Hr. unfold list_errors_rows, getRecentErrors in Hr.
      apply limit_In in Hr; apply order_by_In in Hr; apply filter_In in Hr.
      destruct Hr as [Hl Hf]. split; trivial.
      apply andb_true_iff in Hf. tauto.
  - revert Hin; apply (L _ _ _ _ H).
    intros r Hr. unfold recall_learnings_rows, searchLearnings, getLearnings in Hr.
    destruct (truthy_str (Args.search a));
      try apply limit_In in Hr; apply order_by_In in Hr; apply filter_In in Hr;
      destruct Hr as [Hl Hf]; split; trivial;
      repeat (apply andb_true_iff in Hf; destruct Hf as [Hf ?]); trivial.
Qed.

Lemma update_count_pos {B : Type} (i : Z) (l : list (Row B)) :
  In i (map id l) ->
  (Z.of_nat (List.length (filter (fun r => Sql.eq_int (Some (id r)) (Some i)) l)) >? 0) = true.
Proof.
  intros Hin. apply in_map_iff in Hin. destruct Hin as (r & E & Hr).
  assert (Hf : In r (filter (fun r => Sql.eq_int (Some (id r)) (Some i)) l)).
  { apply filter_In. split; trivial. cbn. rewrite E. apply Z.eqb_refl. }
  destruct (filter _ l); [destruct Hf | ]. cbn [List.length]. apply Z.gtb_lt. lia.
Qed.

Lemma archived_by_update {B : Type} (i seq : Z) (l : list (Row B)) :
  In i (map id l) -> Forall (fun r => id r <= seq) l ->
  rows_hidden i seq
    (map (fun r => if Sql.eq_int (Some (id r)) (Some i) then set_archived r else r) l).
Proof.
  intros Hin F. split.
  - apply in_map_iff in Hin. destruct Hin as (r & <- & Hr).
    rewrite Forall_forall in F. now apply F.
  - intros r Hr E. apply in_map_iff in Hr. destruct Hr as (r0 & <- & Hr0).
    cbn [Sql.eq_int] in *. destruct (id r0 =? i) eqn:C; [reflexivity | ].
    rewrite E, Z.eqb_refl in C. discriminate.
Qed.

(** X17: a row that [archive] has archived is hidden for good, in each of
    the three tables.  In a well-formed store, [archive(type, i)] for a type
    that names a table and the id [i] of one of its rows answers
    [Archived type #i]; and after any further requests, with whatever tools
    and arguments, no recall or list tool of that table selects a row with
    id [i]: [recall_decisions] and [list_decisions] for a decision,
    [find_solution] and [list_errors] for an error, [recall_learnings] for
    a learning. *)
Theorem archived_rows_stay_hidden (h : Host) (a : Args.t) (st : Store) (t : table)
  (i : Z) :
  wf st -> tableMap (Args.type a) = Own t -> Args.id a = val i ->
  In i (table_ids t st) ->
  snd (handler h "archive" (Some a) st)
  = "Archived " ++ tmpl (Args.type a) ++ " #" ++ Text.of_Z i
  /\ forall reqs a',
       ~ In i (listed t a' (run reqs (fst (handler h "archive" (Some a) st)))).
Proof.
  intros W Ht Hi Hin.
  assert (E : handler h "archive" (Some a) st
              = (snd (update_table t (@set_archived) (Some i) st),
                 "Archived " ++ tmpl (Args.type a) ++ " #" ++ Text.of_Z i)).
  { unfold handler. rewrite switch_archive. unfold with_args, archive. rewrite Ht, Hi.
    unfold bindM, update_table, update_where_id, ret. cbn [bind tmpl_num].
    destruct t; cbn [table_ids] in Hin; rewrite (update_count_pos i _ Hin); reflexivity. }
  rewrite E. cbn [fst snd]. split; trivial.
  intros reqs a'. apply hidden_not_listed. apply hidden_run.
  destruct W as [[_ Fd] [_ Fe] [_ Fl] _].
  unfold hidden_for_good, update_table, update_where_id.
  destruct t; cbn [snd table_ids] in *; cbn; now apply archived_by_update.
Qed.

Lemma archived_rows_stay_hidden_witness :
  let h := Sample.host Sample.apr2_12h in
  let learn := mkRequest h "remember_learning"
                 (Some (with_category (val "pattern")
                          (with_content (val "Prefer small modules") Sample.app))) in
  let st := run [learn] empty_store in
  let a := Args.with_type (val "learning") (Args.with_id (val 1) Args.none) in
  map id (learnings st) = [1]
  /\ ~ In 1 (listed Learnings Sample.app
              (run [learn] (fst (handler h "archive" (Some a) st)))).
Proof.
  intros h learn st a. split; [reflexivity | ].
  apply (archived_rows_stay_hidden h a st Learnings 1).
  - apply wf_reachable.
  - reflexivity.
  - reflexivity.
  - vm_compute. now left.
Defined.

(** ** The projects of the statistics *)

Lemma project_cmp_eq (p q : option string) :
  Sql.cmp_null String.compare p q = Eq -> p = q.
Proof.
  destruct p as [x | ], q as [y | ]; cbn; try discriminate; trivial.
  intros E. apply String.compare_eq_iff in E. now subst.
Qed.

Lemma insert_distinct_In (p x : option string) (l : list (option string)) :
  In x (insert_distinct p l) <-> x = p \/ In x l.
Proof.
  induction l as [ | q l IH]; cbn [insert_distinct].
  - cbn. intuition.
  - destruct (Sql.cmp_null String.compare p q) eqn:C.
    + apply project_cmp_eq in C. subst q. cbn. intuition.
    + cbn. intuition.
    + cbn [In]. rewrite IH. intuition.
Qed.

Lemma insert_distinct_sorted (p : option string) (l : list (option string)) :
  StronglySorted project_lt l -> StronglySorted project_lt (insert_distinct p l).
Proof.
  pose proof (cmp_null_order _ string_compare_order) as O.
  induction l as [ | q l IH]; cbn [insert_distinct]; intros S.
  - constructor; constructor.
  - inversion S as [ | ? ? Sl Fq]; subst.
    destruct (Sql.cmp_null String.compare p q) eqn:C.
    + exact S.
    + constructor; trivial. constructor; trivial.
      eapply Forall_impl; [ | exact Fq]. intros y Hy.
      exact (ol_lt_trans _ O p q y C Hy).
    + constructor; [now apply IH | ].
      apply Forall_forall. intros y Hy. apply insert_distinct_In in Hy.
      destruct Hy as [-> | Hy].
      * unfold project_lt. rewrite (ol_antisym _ O p q), C. reflexivity.
      * rewrite Forall_forall in Fq. now apply Fq.
Qed.

Lemma distinct_sorted (l : list (option string)) :
  StronglySorted project_lt (fold_right insert_distinct [] l)
  /\ forall p, In p (fold_right insert_distinct [] l) <-> In p l.
Proof.
  induction l as [ | q l [IS IM]]; cbn [fold_right].
  - split; [constructor | reflexivity].
  - split; [now apply insert_distinct_sorted | ].
    intros p. rewrite insert_distinct_In, IM. cbn. intuition.
Qed.

(** X18: the projects that [memory_stats] lists without a project argument
    ([SELECT DISTINCT project FROM (... UNION ...) ORDER BY project]) are
    in strictly ascending order, so each occurs once, and they are exactly
    the projects of the decisions, of the errors and of the context keys
    and the non-NULL projects of the learnings; the sessions table is not
    consulted. *)
Theorem memory_stats_projects (st : Store) :
  StronglySorted project_lt (all_projects st)
  /\ forall p, In p (all_projects st) <-> has_project p st.
Proof.
  unfold all_projects.
  destruct (distinct_sorted
              (List.concat
                 [ map project (decisions st); map project (errors st);
                   map (fun c => Some (Context.project c)) (context st);
                   filter (fun p => match p with Some _ => true | None => false end)
                     (map project (learnings st)) ])) as [S M].
  assert (E : forall p, In p (fold_right insert_distinct []
                 (List.concat
                    [ map project (decisions st); map project (errors st);
                      map (fun c => Some (Context.project c)) (context st);
                      filter (fun p => match p with Some _ => true | None => false end)
                        (map project (learnings st)) ])) <-> has_project p st).
  { intros p. rewrite M. unfold has_project. cbn [List.concat].
    rewrite !in_app_iff, filter_In. cbn [In].
    destruct p as [x | ]; intuition congruence. }
  split; [exact S | exact E].
Qed.

(** ** The learnings of the comprehensive load *)

Lemma push_new_spec {B : Type} (globals acc : list (Row B)) :
  exists extra,
    push_new acc globals = app acc extra
    /\ incl extra globals
    /\ (List.length extra <= List.length globals)%nat
    /\ (NoDup (map id acc) -> NoDup (map id (app acc extra)))
    /\ forall g, In g globals -> In (id g) (map id (app acc extra)).
Proof.
  unfold push_new. revert acc.
  induction globals as [ | g globals IH]; intros acc; cbn [fold_left].
  - exists []. rewrite app_nil_r. repeat split; trivial.
    + intros x [].
    + intros g [].
  - destruct (existsb (fun l => id l =? id g) acc) eqn:E.
    + destruct (IH acc) as (extra & E1 & I & L & U & G).
      exists extra. repeat split; trivial.
      * intros x Hx. right. now apply I.
      * cbn [List.length]. lia.
      * intros x [<- | Hx]; [ | now apply G].
        apply existsb_exists in E. destruct E as (l & Hl & El).
        apply Z.eqb_eq in El. rewrite map_app. apply in_or_app. left.
        rewrite <- El. now apply in_map.
    + destruct (IH (app acc [g])) as (extra & E1 & I & L & U & G).
      exists (g :: extra). rewrite E1, <- app_assoc. cbn [app].
      repeat split; trivial.
      * intros x [<- | Hx]; [now left | right; now apply I].
      * cbn [List.length]. lia.
      * intros Ua.
        replace (app acc (g :: extra)) with (app (app acc [g]) extra)
          by (rewrite <- app_assoc; reflexivity).
        apply U. rewrite map_app. cbn [map]. apply NoDup_snoc; trivial.
        intros Hin. apply in_map_iff in Hin. destruct Hin as (l & El & Hl).
        assert (X : existsb (fun l => id l =? id g) acc = true).
        { apply existsb_exists. exists l. split; trivial. now apply Z.eqb_eq. }
        congruence.
      * intros x [<- | Hx].
        -- rewrite map_app. apply in_or_app. right. now left.
        -- specialize (G x Hx). now rewrite <- app_assoc in G.
Qed.

(** X19: the learnings that [load_comprehensive_memory] shows with global
    memory included, in a well-formed store: the up to 50 learnings selected
    for the project come first and in their order, followed by those of the
    up to 20 latest global learnings that are not among them; every row is a
    live learning of the project or a global one, no learning is shown
    twice, every selected global learning is shown, and at most 70 rows are
    shown. *)
Theorem comprehensive_learnings_distinct (st : Store) (p : option string) :
  wf st ->
  let mine := getLearnings p 50 st in
  let all := push_new mine (globalLearnings 20 st) in
  (exists extra, all = app mine extra /\ incl extra (globalLearnings 20 st))
  /\ NoDup (map id all)
  /\ (forall r, In r all ->
                In r (learnings st) /\ not_archived r = true /\ project_or_global p r = true)
  /\ (forall g, In g (globalLearnings 20 st) -> In g all)
  /\ (List.length all <= 70)%nat.
Proof.
  intros W mine all. destruct W as [_ _ [Ul _] _].
  destruct (push_new_spec (globalLearnings 20 st) mine) as (extra & E & I & L & U & G).
  fold all in E.
  assert (Um : NoDup (map id mine)) by (now apply (query_NoDup _ _ 50)).
  assert (Lm : forall r, In r mine ->
                 In r (learnings st) /\ not_archived r = true
                 /\ project_or_global p r = true).
  { intros r Hr. unfold mine, getLearnings in Hr.
    apply limit_In in Hr. apply order_by_In in Hr. apply filter_In in Hr.
    destruct Hr as [Hl Hf]. apply andb_true_iff in Hf. tauto. }
  assert (Lg : forall r, In r (globalLearnings 20 st) ->
                 In r (learnings st) /\ not_archived r = true
                 /\ project_or_global p r = true).
  { intros r Hr. unfold globalLearnings in Hr.
    apply limit_In in Hr. apply order_by_In in Hr. apply filter_In in Hr.
    destruct Hr as [Hl Hf]. apply andb_true_iff in Hf. destruct Hf as [Hp Ha].
    repeat split; trivial. unfold project_or_global. rewrite Hp. apply orb_true_r. }
  assert (La : forall r, In r all ->
                 In r (learnings st) /\ not_archived r = true
                 /\ project_or_global p r = true).
  { intros r Hr. rewrite E in Hr. apply in_app_or in Hr.
    destruct Hr as [Hr | Hr]; [now apply Lm | apply Lg; now apply I]. }
  split; [exists extra; now split | ].
  split; [rewrite E; now apply U | ].
  split; [exact La | ].
  split.
  - intros g Hg. specialize (G g Hg). rewrite <- E in G.
    apply in_map_iff in G. destruct G as (r & Er & Hr).
    replace g with r; trivial.
    apply (NoDup_map_inj (learnings st)); trivial.
    + now apply La.
    + now apply Lg.
  - rewrite E, length_app.
    assert (H1 : (List.length mine <= 50)%nat).
    { destruct (limit_within 50
                  (Sql.order_by by_priority_created
                     (filter (fun r => project_or_global p r && not_archived r)
                        (learnings st)))) as [X | X]; [lia | exact X]. }
    assert (H2 : (List.length (globalLearnings 20 st) <= 20)%nat).
    { unfold globalLearnings.
      match goal with
      | |- (List.length (Sql.limit 20 ?l) <= _)%nat =>
          destruct (limit_within 20 l) as [X | X]; [lia | exact X]
      end. }
    lia.
Qed.

Lemma comprehensive_learnings_distinct_witness :
  let h := Sample.host Sample.apr2_12h in
  let learn p text :=
    mkRequest h "remember_learning"
      (Some (with_category (val "pattern")
               (with_content (val text) (Args.with_project p Args.none)))) in
  let st := run [learn (val "app") "Prefer small modules"; learn undefined "NULLs are distinct"]
              empty_store in
  map id (push_new (getLearnings (Some "app") 50 st) (globalLearnings 20 st)) = [1; 2]
  /\ NoDup (map id (push_new (getLearnings (Some "app") 50 st) (globalLearnings 20 st))).
Proof.
  intros h learn st. split; [vm_compute; reflexivity | ].
  destruct (comprehensive_learnings_distinct st (Some "app") (wf_reachable _))
    as (_ & U & _).
  exact U.
Defined.

(** ** Relative times *)

(** X20: [getTimeAgo] by the age in milliseconds.  For a timestamp that
    [Date] reads as the instant [t] (a NULL one reads as the epoch), with
    [d] the clock minus [t]: below one minute, and for every instant in the
    future, the text is [just now]; from one minute to below one hour it is
    the number of whole minutes (1 to 59) and [m ago]; from one hour to
    below one day the number of whole hours (1 to 23) and [h ago]; from one
    day to below seven days the number of whole days (1 to 6) and [d ago];
    from seven days on it is the date in the host's locale. *)
Theorem getTimeAgo_by_age (h : Host) (timestamp : option string) (t : Z) :
  match timestamp with
  | None => Some 0
  | Some s => Date_parse h s
  end = Some t ->
  let d := now h - t in
  let ago := getTimeAgo h timestamp in
  (d < 60000 -> ago = "just now")
  /\ (60000 <= d < 3600000 ->
      exists m, 1 <= m <= 59 /\ m * 60000 <= d < (m + 1) * 60000
                /\ ago = Text.of_Z m ++ "m ago")
  /\ (3600000 <= d < 86400000 ->
      exists k, 1 <= k <= 23 /\ k * 3600000 <= d < (k + 1) * 3600000
                /\ ago = Text.of_Z k ++ "h ago")
  /\ (86400000 <= d < 604800000 ->
      exists n, 1 <= n <= 6 /\ n * 86400000 <= d < (n + 1) * 86400000
                /\ ago = Text.of_Z n ++ "d ago")
  /\ (604800000 <= d -> ago = toLocaleDateString h t).
Proof.
  intros E d ago. unfold ago, getTimeAgo. rewrite E. fold d.
  pose proof (Z.div_mod d 60000 ltac:(lia)) as M1.
  pose proof (Z.mod_pos_bound d 60000 ltac:(lia)) as M2.
  pose proof (Z.div_mod d 3600000 ltac:(lia)) as H1.
  pose proof (Z.mod_pos_bound d 3600000 ltac:(lia)) as H2.
  pose proof (Z.div_mod d 86400000 ltac:(lia)) as D1.
  pose proof (Z.mod_pos_bound d 86400000 ltac:(lia)) as D2.
  repeat split.
  - intros L. replace (d / 60000 <? 1) with true; trivial.
    symmetry. apply Z.ltb_lt. lia.
  - intros L. exists (d / 60000).
    replace (d / 60000 <? 1) with false by (symmetry; apply Z.ltb_ge; lia).
    replace (d / 60000 <? 60) with true by (symmetry; apply Z.ltb_lt; lia).
    repeat split; lia.
  - intros L. exists (d / 3600000).
    replace (d / 60000 <? 1) with false by (symmetry; apply Z.ltb_ge; lia).
    replace (d / 60000 <? 60) with false by (symmetry; apply Z.ltb_ge; lia).
    replace (d / 3600000 <? 24) with true by (symmetry; apply Z.ltb_lt; lia).
    repeat split; lia.
  - intros L. exists (d / 86400000).
    replace (d / 60000 <? 1) with false by (symmetry; apply Z.ltb_ge; lia).
    replace (d / 60000 <? 60) with false by (symmetry; apply Z.ltb_ge; lia).
    replace (d / 3600000 <? 24) with false by (symmetry; apply Z.ltb_ge; lia).
    replace (d / 86400000 <? 7) with true by (symmetry; apply Z.ltb_lt; lia).
    repeat split; lia.
  - intros L.
    replace (d / 60000 <? 1) with false by (symmetry; apply Z.ltb_ge; lia).
    replace (d / 60000 <? 60) with false by (symmetry; apply Z.ltb_ge; lia).
    replace (d / 3600000 <? 24) with false by (symmetry; apply Z.ltb_ge; lia).
    replace (d / 86400000 <? 7) with false by (symmetry; apply Z.ltb_ge; lia).
    reflexivity.
Qed.

Lemma getTimeAgo_by_age_witness :
  getTimeAgo (Sample.host 7260000) None = "2h ago".
Proof.
  destruct (getTimeAgo_by_age (Sample.host 7260000) None 0 eq_refl)
    as (_ & _ & H & _).
  destruct (H ltac:(cbn; lia)) as (k & B & R & E).
  rewrite E. replace k with 2 by (cbn in R; lia). reflexivity.
Defined.
